(** * FlowForge transform engine: a shallow embedding of
    [src/modules/transform.py] (class [DataTransformer]) and the properties
    its specification states about it.

    The Python methods are embedded as functions in a small state-and-exception
    monad: the state holds the transformer's [transformation_history] and the
    lines handed to the logger, an exception is a value.  The pandas, numpy and
    Python built-ins the methods call are given as executable definitions where
    their behaviour is fixed by their documentation, and as variables of
    [Section Engine] where it depends on a floating-point or regular-expression
    engine, on the interpreter's [eval], or on the library build. *)

From Stdlib Require Import ZArith List String Ascii Bool Lia PeanoNat.
From Stdlib Require Import Floats Uint63 DecimalString Permutation Sorted.
Import ListNotations.

Open Scope list_scope.
Open Scope string_scope.

Set Implicit Arguments.

(* ------------------------------------------------------------------ *)
(** ** Python strings *)
(* ------------------------------------------------------------------ *)

(** Strings are sequences of 8-bit characters; the case mappings below are
    Python's on the ASCII range and leave every other character as it is. *)
Module PyStr.

(** [', '.join(l)] *)
Definition join (sep : string) (l : list string) : string := String.concat sep l.

(** [str(n)] for an integer *)
Definition of_Z (z : Z) : string := NilZero.string_of_int (Z.to_int z).

Definition of_nat (n : nat) : string := of_Z (Z.of_nat n).

Definition chars (s : string) : list ascii := list_ascii_of_string s.
Definition of_chars (l : list ascii) : string := string_of_list_ascii l.

Definition code (c : ascii) : nat := nat_of_ascii c.

Definition is_upper (c : ascii) : bool := (65 <=? code c)%nat && (code c <=? 90)%nat.
Definition is_lower (c : ascii) : bool := (97 <=? code c)%nat && (code c <=? 122)%nat.
Definition is_alpha (c : ascii) : bool := is_upper c || is_lower c.

Definition lower_char (c : ascii) : ascii :=
  if is_upper c then ascii_of_nat (code c + 32) else c.
Definition upper_char (c : ascii) : ascii :=
  if is_lower c then ascii_of_nat (code c - 32) else c.

(** [s.lower()], [s.upper()] *)
Definition lower (s : string) : string := of_chars (map lower_char (chars s)).
Definition upper (s : string) : string := of_chars (map upper_char (chars s)).

(** [s.title()]: a cased character is upper-cased when the character before
    it is not cased, and lower-cased otherwise. *)
Fixpoint title_chars (prev_cased : bool) (l : list ascii) : list ascii :=
  match l with
  | [] => []
  | c :: l' =>
      (if prev_cased then lower_char c else upper_char c)
        :: title_chars (is_alpha c) l'
  end.
Definition title (s : string) : string := of_chars (title_chars false (chars s)).

(** [str.isspace] on one character: tab, newline, vertical tab, form feed,
    carriage return, the four separators 0x1c-0x1f and the space. *)
Definition is_space (c : ascii) : bool :=
  let n := code c in
  ((9 <=? n)%nat && (n <=? 13)%nat) || ((28 <=? n)%nat && (n <=? 32)%nat).

Fixpoint lstrip_chars (l : list ascii) : list ascii :=
  match l with
  | c :: l' => if is_space c then lstrip_chars l' else l
  | [] => []
  end.

(** [s.strip()] *)
Definition strip (s : string) : string :=
  of_chars (rev (lstrip_chars (rev (lstrip_chars (chars s))))).

(** [s.startswith(p)], [s.endswith(p)] *)
Definition startswith (s p : string) : bool := String.prefix p s.
Definition endswith (s p : string) : bool :=
  String.prefix (of_chars (rev (chars p))) (of_chars (rev (chars s))).

(** [s.replace(old, new)]: every non-overlapping occurrence, left to right;
    with an empty [old] the replacement goes before every character and at
    the end. *)
Fixpoint replace_from (fuel : nat) (old new s : string) : string :=
  match fuel with
  | O => s
  | S fuel' =>
      if String.prefix old s
      then new ++ replace_from fuel' old new (substring (String.length old) (String.length s) s)
      else match s with
           | EmptyString => EmptyString
           | String c s' => String c (replace_from fuel' old new s')
           end
  end.

Fixpoint intersperse (new s : string) : string :=
  match s with
  | EmptyString => new
  | String c s' => new ++ String c (intersperse new s')
  end.

Definition replace (s old new : string) : string :=
  match old with
  | EmptyString => intersperse new s
  | _ => replace_from (S (String.length s)) old new s
  end.

(** [repr(s)] for a string: in single quotes, or in double quotes when the
    string holds a single quote and no double quote; backslash, the quote,
    tab, newline and carriage return escaped, other control characters as
    [\xNN]. *)
Definition squote : ascii := ascii_of_nat 39.
Definition dquote : ascii := ascii_of_nat 34.

Definition hex_digit (n : nat) : ascii :=
  if (n <? 10)%nat then ascii_of_nat (48 + n) else ascii_of_nat (87 + n).

Definition has_char (c : ascii) (s : string) : bool :=
  existsb (Ascii.eqb c) (chars s).

Definition escape_char (quote c : ascii) : list ascii :=
  let n := code c in
  if Ascii.eqb c "\"%char then ["\"%char; "\"%char]
  else if Ascii.eqb c quote then ["\"%char; quote]
  else if (n =? 9)%nat then ["\"%char; "t"%char]
  else if (n =? 10)%nat then ["\"%char; "n"%char]
  else if (n =? 13)%nat then ["\"%char; "r"%char]
  else if ((n <? 32)%nat || (n =? 127)%nat)
       then ["\"%char; "x"%char; hex_digit (n / 16); hex_digit (n mod 16)]
  else [c].

Definition repr (s : string) : string :=
  let quote : ascii :=
    if has_char squote s && negb (has_char dquote s) then dquote else squote in
  String quote (of_chars (flat_map (escape_char quote) (chars s))) ++ String quote EmptyString.

(** [str(l)] for a list of strings *)
Definition repr_list (l : list string) : string :=
  "[" ++ join ", " (map repr l) ++ "]".

(** [str(d)] for a dict of strings *)
Definition repr_dict (d : list (string * string)) : string :=
  "{" ++ join ", " (map (fun kv => repr (fst kv) ++ ": " ++ repr (snd kv)) d) ++ "}".

(** [x in l] for strings *)
Definition mem (x : string) (l : list string) : bool := existsb (String.eqb x) l.

(** [sub in s] for strings *)
Fixpoint contains (s sub : string) : bool :=
  if String.prefix sub s then true
  else match s with
       | EmptyString => false
       | String _ s' => contains s' sub
       end.

End PyStr.

(* ------------------------------------------------------------------ *)
(** ** Tables *)
(* ------------------------------------------------------------------ *)

(** The missing values pandas knows: [nan], [None], [NaT] and [pd.NA]. *)
Inductive null_kind : Type := NaN | PyNone | NaT | NA.

(** A cell.  Floats are IEEE binary64, as Python's; a timestamp is a number
    of nanoseconds. *)
Inductive value : Type :=
| VNull (k : null_kind)
| VInt (z : Z)
| VFloat (f : float)
| VStr (s : string)
| VBool (b : bool)
| VTime (t : Z).

Definition Series : Type := list value.

(** A DataFrame: the row labels and the named columns, in order.  Every
    column of a well-formed frame is as long as the index. *)
Record DataFrame : Type := mkDataFrame {
  index : list Z;
  data : list (string * Series)
}.

(** [df.columns], [len(df)], [len(df.columns)] *)
Definition columns_of (df : DataFrame) : list string := map fst (data df).
Definition len (df : DataFrame) : Z := Z.of_nat (List.length (index df)).
Definition len_columns (df : DataFrame) : Z := Z.of_nat (List.length (columns_of df)).

Definition rectangular (df : DataFrame) : Prop :=
  Forall (fun c => List.length (snd c) = List.length (index df)) (data df).

(** [df.copy()]: frames are values here, so the copy is the frame. *)
Definition copy (df : DataFrame) : DataFrame := df.

(** [df.empty] *)
Definition empty (df : DataFrame) : bool :=
  match index df, data df with
  | [], _ | _, [] => true
  | _, _ => false
  end.

(** [pd.isnull(v)] *)
Definition isnull (v : value) : bool :=
  match v with
  | VNull _ => true
  | VFloat f => PrimFloat.is_nan f
  | _ => false
  end.

(** Rows kept by a boolean mask, rows taken at given positions. *)
Fixpoint mask_list {A : Type} (m : list bool) (l : list A) : list A :=
  match m, l with
  | b :: m', x :: l' => if b then x :: mask_list m' l' else mask_list m' l'
  | _, _ => []
  end.

Definition take_list {A : Type} (pos : list nat) (l : list A) : list A :=
  flat_map (fun i => match nth_error l i with Some x => [x] | None => [] end) pos.

Definition map_columns (f : Series -> Series) (df : DataFrame) : list (string * Series) :=
  map (fun c => (fst c, f (snd c))) (data df).

(** [df[mask]] for a boolean Series [mask] *)
Definition mask_rows (df : DataFrame) (m : list bool) : DataFrame :=
  {| index := mask_list m (index df); data := map_columns (mask_list m) df |}.

(** [df.take(pos)] *)
Definition take_rows (df : DataFrame) (pos : list nat) : DataFrame :=
  {| index := take_list pos (index df); data := map_columns (take_list pos) df |}.

(** The columns called [c], in order. *)
Definition lookup_all (df : DataFrame) (c : string) : list Series :=
  map snd (filter (fun nc => String.eqb (fst nc) c) (data df)).

(** [df[c] = s]: every column called [c] is replaced; without one the column
    is added at the end. *)
Definition setitem (df : DataFrame) (c : string) (s : Series) : DataFrame :=
  if PyStr.mem c (columns_of df)
  then {| index := index df;
          data := map (fun nc => if String.eqb (fst nc) c then (fst nc, s) else nc) (data df) |}
  else {| index := index df; data := data df ++ [(c, s)] |}.

(** [df.isnull().sum().sum()] *)
Definition count_nulls (df : DataFrame) : Z :=
  Z.of_nat (list_sum (map (fun c => List.length (filter isnull (snd c))) (data df))).

(* ------------------------------------------------------------------ *)
(** ** Exceptions *)
(* ------------------------------------------------------------------ *)

(** The classes below derive from [Exception]. *)
Inductive exc_class : Type :=
| KeyError | TypeError | ValueError | AttributeError | NameError
| UnboundLocalError | SyntaxError | ZeroDivisionError | IndexError
| ReError | OtherException.

(** An instance of [Exception] with the text [str(e)]. *)
Record exc : Type := mkExc { exc_type : exc_class; exc_str : string }.

(** What a [raise] can carry: an [Exception], or one of the
    [BaseException]s outside it, which [except Exception] lets through. *)
Inductive raised : Type :=
| Exc (e : exc)
| SystemExit
| KeyboardInterrupt
| GeneratorExit.

(** [str(KeyError(m))] is [repr(m)]. *)
Definition key_error (m : string) : exc := mkExc KeyError (PyStr.repr m).

(** Result of a library call that either returns or raises an [Exception]. *)
Inductive res (A : Type) : Type :=
| Ok (a : A)
| Err (e : exc).
Arguments Ok {A} a.
Arguments Err {A} e.

Definition res_bind {A B : Type} (r : res A) (k : A -> res B) : res B :=
  match r with
  | Ok a => k a
  | Err e => Err e
  end.

Declare Scope res_scope.
Delimit Scope res_scope with res.
Notation "'let?' x ':=' r 'in' k" := (res_bind r (fun x => k))
  (at level 10, x pattern, r at level 100, k at level 200) : res_scope.

Fixpoint res_map {A B : Type} (f : A -> res B) (l : list A) : res (list B) :=
  match l with
  | [] => Ok []
  | x :: l' =>
      match f x with
      | Ok y => match res_map f l' with Ok ys => Ok (y :: ys) | Err e => Err e end
      | Err e => Err e
      end
  end.

(* ------------------------------------------------------------------ *)
(** ** The transformer's state and the logger *)
(* ------------------------------------------------------------------ *)

(** One entry of [transformation_history]. *)
Record HistoryRecord : Type := mkHistoryRecord {
  timestamp : string;
  operation : string;
  details : string;
  rows_before : Z;
  rows_after : Z;
  cols_before : Z;
  cols_after : Z;
  rows_changed : Z;
  cols_changed : Z
}.

(** The state the methods act on: the DataTransformer's history, the lines
    handed to the module-level logger, and the wall clock as formatted by
    [datetime.now().strftime]. *)
Record World : Type := mkWorld {
  transformation_history : list HistoryRecord;
  logger_lines : list string;
  clock : string
}.

Inductive outcome (A : Type) : Type :=
| Return (a : A)
| Raise (r : raised).
Arguments Return {A} a.
Arguments Raise {A} r.

Definition M (A : Type) : Type := World -> outcome A * World.

Definition ret {A : Type} (a : A) : M A := fun w => (Return a, w).

Definition bind {A B : Type} (m : M A) (k : A -> M B) : M B :=
  fun w => match m w with
           | (Return a, w') => k a w'
           | (Raise r, w') => (Raise r, w')
           end.

Definition raise {A : Type} (r : raised) : M A := fun w => (Raise r, w).

(** A library call inside a method. *)
Definition call {A : Type} (r : res A) : M A :=
  fun w => match r with
           | Ok a => (Return a, w)
           | Err e => (Raise (Exc e), w)
           end.

(** [try: body  except Exception as e: handler e] *)
Definition try_except {A : Type} (body : M A) (handler : exc -> M A) : M A :=
  fun w => match body w with
           | (Raise (Exc e), w') => handler e w'
           | other => other
           end.

Declare Scope py_scope.
Delimit Scope py_scope with py.
Notation "x <- m ;; k" := (bind m (fun x => k))
  (at level 61, m at next level, right associativity) : py_scope.
Notation "m ;; k" := (bind m (fun _ => k))
  (at level 61, right associativity) : py_scope.
Notation "'TRY' body 'EXCEPT' e '=>' handler" := (try_except body (fun e => handler))
  (at level 10, e name, body at level 200, handler at level 200) : py_scope.

Open Scope py_scope.

(** [logger.log_etl_step(step, message)]: the level defaults to [info]. *)
Definition log_etl_step (step message : string) : M unit :=
  fun w => (Return tt,
            {| transformation_history := transformation_history w;
               logger_lines := logger_lines w ++ ["[" ++ PyStr.upper step ++ "] " ++ message];
               clock := clock w |}).

(** [DataTransformer.log_transformation] *)
Definition log_transformation (operation details : string)
    (rows_before rows_after cols_before cols_after : Z) : M unit :=
  (fun w =>
     let transformation :=
       {| timestamp := clock w;
          operation := operation;
          details := details;
          rows_before := rows_before;
          rows_after := rows_after;
          cols_before := cols_before;
          cols_after := cols_after;
          rows_changed := rows_after - rows_before;
          cols_changed := cols_after - cols_before |} in
     (Return tt,
      {| transformation_history := transformation_history w ++ [transformation];
         logger_lines := logger_lines w;
         clock := clock w |})) ;;
  log_etl_step "TRANSFORM" (operation ++ ": " ++ details).

(** [get_transformation_history], [clear_history] *)
Definition get_transformation_history : M (list HistoryRecord) :=
  fun w => (Return (transformation_history w), w).

Definition clear_history : M unit :=
  fun w => (Return tt,
            {| transformation_history := [];
               logger_lines := logger_lines w;
               clock := clock w |}).

Open Scope res_scope.

(* ------------------------------------------------------------------ *)
(** ** pandas calls that need no engine *)
(* ------------------------------------------------------------------ *)

(** [df[c]] for one label: the column, or a frame when several columns carry
    the label; [KeyError] without one. *)
Inductive item : Type :=
| ItemSeries (s : Series)
| ItemFrame (cols : list Series).

Definition getitem (df : DataFrame) (c : string) : res item :=
  match lookup_all df c with
  | [] => Err (key_error c)
  | [s] => Ok (ItemSeries s)
  | cols => Ok (ItemFrame cols)
  end.

(** [[col for col in cols if col not in df.columns]] *)
Definition not_in_columns (df : DataFrame) (cols : list string) : list string :=
  filter (fun col => negb (PyStr.mem col (columns_of df))) cols.

(** [df.rename(columns=mapping)]: a dict lookup per label, labels without an
    entry kept. *)
Fixpoint dict_get (d : list (string * string)) (k : string) : option string :=
  match d with
  | [] => None
  | (k', v) :: d' => if String.eqb k' k then Some v else dict_get d' k
  end.

Definition rename (df : DataFrame) (mapping : list (string * string)) : DataFrame :=
  {| index := index df;
     data := map (fun nc => (match dict_get mapping (fst nc) with
                             | Some new => new
                             | None => fst nc
                             end, snd nc)) (data df) |}.

(** [df.drop(columns=cols)] *)
Definition drop (df : DataFrame) (cols : list string) : res DataFrame :=
  match not_in_columns df cols with
  | [] => Ok {| index := index df;
                data := filter (fun nc => negb (PyStr.mem (fst nc) cols)) (data df) |}
  | missing => Err (key_error (PyStr.repr_list missing ++ " not found in axis"))
  end.

(** Lexicographic order on code tuples, and the stable insertion sort that
    stands for the stable sort of [lexsort_indexer]: an element goes in front
    of the first element that is not smaller. *)
Fixpoint lex_leb (a b : list Z) : bool :=
  match a, b with
  | x :: a', y :: b' => if (x <? y)%Z then true else if (y <? x)%Z then false else lex_leb a' b'
  | _, _ => true
  end.

Fixpoint insert_sorted (x : list Z * nat) (l : list (list Z * nat)) : list (list Z * nat) :=
  match l with
  | [] => [x]
  | y :: l' => if lex_leb (fst x) (fst y) then x :: l else y :: insert_sorted x l'
  end.

Definition stable_sort (l : list (list Z * nat)) : list (list Z * nat) :=
  fold_right insert_sorted [] l.

(** Row [i] of a list of columns. *)
Definition row_at {A : Type} (d : A) (cols : list (list A)) (i : nat) : list A :=
  map (fun col => nth i col d) cols.

(** First occurrences of a list of labels, in order. *)
Fixpoint unique_from (seen l : list string) : list string :=
  match l with
  | [] => []
  | x :: l' => if PyStr.mem x seen then unique_from seen l' else x :: unique_from (x :: seen) l'
  end.
Definition unique (l : list string) : list string := unique_from [] l.

(** The columns called by one of [names] go through [f]. *)
Definition update_columns (df : DataFrame) (names : list string) (f : Series -> Series) : DataFrame :=
  {| index := index df;
     data := map (fun nc => if PyStr.mem (fst nc) names then (fst nc, f (snd nc)) else nc) (data df) |}.

(** [s.fillna(v)], [s.fillna(method='ffill')], [s.fillna(method='bfill')] *)
Definition fillna (v : value) (s : Series) : Series :=
  map (fun x => if isnull x then v else x) s.

Fixpoint ffill_from (last : option value) (s : Series) : Series :=
  match s with
  | [] => []
  | x :: s' =>
      if isnull x
      then match last with
           | Some v => v :: ffill_from last s'
           | None => x :: ffill_from last s'
           end
      else x :: ffill_from (Some x) s'
  end.
Definition ffill (s : Series) : Series := ffill_from None s.
Definition bfill (s : Series) : Series := rev (ffill (rev s)).

(** [df.dropna(subset=names)]: the rows without a null in those columns. *)
Definition positions (df : DataFrame) : list nat := seq 0 (List.length (index df)).

Definition dropna (df : DataFrame) (names : list string) : DataFrame :=
  let keys := map snd (filter (fun nc => PyStr.mem (fst nc) names) (data df)) in
  mask_rows df (map (fun i => negb (existsb isnull (row_at (VNull NaN) keys i))) (positions df)).

(** Python truthiness of a cell, as [astype(bool)] applies it; [pd.NA] has
    none. *)
Definition truth (v : value) : res bool :=
  match v with
  | VNull NA => Err (mkExc TypeError "boolean value of NA is ambiguous")
  | VNull PyNone => Ok false
  | VNull _ => Ok true
  | VInt z => Ok (negb (z =? 0)%Z)
  | VFloat f => Ok (negb (PrimFloat.eqb f 0%float))
  | VStr s => Ok (negb (String.eqb s ""))
  | VBool b => Ok b
  | VTime _ => Ok true
  end.

Definition astype_bool (s : Series) : res Series :=
  res_map (fun v => let? b := truth v in Ok (VBool b)) s.

(** The integer a float stands for, when it stands for one. *)
Definition float_to_Z (f : float) : option Z :=
  match Prim2SF f with
  | S754_zero _ => Some 0%Z
  | S754_finite s m e =>
      let signed (z : Z) := if s then (- z)%Z else z in
      if (0 <=? e)%Z then Some (signed (Z.pos m * 2 ^ e)%Z)
      else if (Z.pos m mod 2 ^ (- e) =? 0)%Z then Some (signed (Z.pos m / 2 ^ (- e))%Z)
      else None
  | _ => None
  end.

(** [float(z)]: the nearest binary64. *)
Definition float_of_Z (z : Z) : float :=
  SF2Prim (binary_normalize 53 1024 z 0 false).

(** [s.astype('Int64')] on the output of [to_numeric]: missing values become
    [pd.NA], a float must stand for an integer. *)
Definition to_Int64 (v : value) : res value :=
  match v with
  | VNull _ => Ok (VNull NA)
  | VInt z => Ok (VInt z)
  | VBool b => Ok (VInt (if b then 1 else 0))
  | VFloat f =>
      if PrimFloat.is_nan f then Ok (VNull NA)
      else match float_to_Z f with
           | Some z => Ok (VInt z)
           | None => Err (mkExc TypeError "cannot safely cast non-equivalent float64 to int64")
           end
  | VStr _ => Err (mkExc TypeError "object cannot be converted to an IntegerDtype")
  | VTime t => Ok (VInt t)
  end.

Definition astype_Int64 (s : Series) : res Series := res_map to_Int64 s.

(** The [keep] argument of [drop_duplicates]: a string or [False]. *)
Inductive keep_arg : Type :=
| KeepStr (s : string)
| KeepFalse.

Definition str_keep (k : keep_arg) : string :=
  match k with
  | KeepStr s => s
  | KeepFalse => "False"
  end.

(** What [eval] hands back: a scalar or a sequence of cells. *)
Inductive eval_result : Type :=
| EvalScalar (v : value)
| EvalSeries (s : Series).

(** [df[c] = r] for the result of an expression. *)
Definition setitem_result (df : DataFrame) (c : string) (r : eval_result) : res DataFrame :=
  match r with
  | EvalScalar v => Ok (setitem df c (repeat v (List.length (index df))))
  | EvalSeries s =>
      if (List.length s =? List.length (index df))%nat then Ok (setitem df c s)
      else Err (mkExc ValueError
                  ("Length of values (" ++ PyStr.of_nat (List.length s)
                   ++ ") does not match length of index ("
                   ++ PyStr.of_nat (List.length (index df)) ++ ")"))
  end.

(* ------------------------------------------------------------------ *)
(** ** difflib *)
(* ------------------------------------------------------------------ *)

(** [difflib.SequenceMatcher(None, a, b)] on strings, with its default
    [autojunk], and [difflib.get_close_matches]. *)
Module Difflib.

Definition count_char (c : ascii) (b : list ascii) : nat :=
  List.length (filter (Ascii.eqb c) b).

(** [__chain_b]: no character is junk; in a [b] of 200 characters or more
    the ones that make up more than 1% + 1 of it are popular and get no
    entry in [b2j]. *)
Definition popular (b : list ascii) (c : ascii) : bool :=
  let n := List.length b in
  (200 <=? n)%nat && (n / 100 + 1 <? count_char c b)%nat.

(** [b2j.get(x, [])]: the places of [x] in [b], increasing. *)
Definition b2j (b : list ascii) (x : ascii) : list nat :=
  if popular b x then []
  else filter (fun j => Ascii.eqb (nth j b Ascii.zero) x) (seq 0 (List.length b)).

(** A match [(i, j, k)]: [a[i:i+k] == b[j:j+k]]. *)
Definition Match : Type := (nat * nat * nat)%type.

Fixpoint j2len_get (j2len : list (nat * nat)) (j : nat) : nat :=
  match j2len with
  | [] => 0
  | (j', k) :: rest => if (j' =? j)%nat then k else j2len_get rest j
  end.

(** The inner loop of [find_longest_match] for one [i]: [for j in
    b2j.get(a[i], nothing)], with its [continue] below [blo] and its
    [break] from [bhi] on. *)
Fixpoint scan_row (i blo bhi : nat) (j2len : list (nat * nat)) (js : list nat)
    (newj2len : list (nat * nat)) (best : Match) : list (nat * nat) * Match :=
  match js with
  | [] => (newj2len, best)
  | j :: js' =>
      if (j <? blo)%nat then scan_row i blo bhi j2len js' newj2len best
      else if (bhi <=? j)%nat then (newj2len, best)
      else
        let k := (match j with O => 0 | S j' => j2len_get j2len j' end + 1)%nat in
        let best' :=
          let '(_, _, bestsize) := best in
          if (bestsize <? k)%nat then (i + 1 - k, j + 1 - k, k)%nat else best in
        scan_row i blo bhi j2len js' ((j, k) :: newj2len) best'
  end.

Fixpoint scan_rows (a b : list ascii) (blo bhi : nat) (rows : list nat)
    (j2len : list (nat * nat)) (best : Match) : Match :=
  match rows with
  | [] => best
  | i :: rows' =>
      let '(newj2len, best') :=
        scan_row i blo bhi j2len (b2j b (nth i a Ascii.zero)) [] best in
      scan_rows a b blo bhi rows' newj2len best'
  end.

(** The two loops that stretch the match over characters without an entry
    in [b2j]. *)
Fixpoint extend_left (fuel : nat) (a b : list ascii) (alo blo : nat) (best : Match) : Match :=
  match fuel with
  | O => best
  | S fuel' =>
      let '(besti, bestj, bestsize) := best in
      if (alo <? besti)%nat && (blo <? bestj)%nat
         && Ascii.eqb (nth (besti - 1) a Ascii.zero) (nth (bestj - 1) b Ascii.zero)
      then extend_left fuel' a b alo blo (besti - 1, bestj - 1, bestsize + 1)%nat
      else best
  end.

Fixpoint extend_right (fuel : nat) (a b : list ascii) (ahi bhi : nat) (best : Match) : Match :=
  match fuel with
  | O => best
  | S fuel' =>
      let '(besti, bestj, bestsize) := best in
      if (besti + bestsize <? ahi)%nat && (bestj + bestsize <? bhi)%nat
         && Ascii.eqb (nth (besti + bestsize) a Ascii.zero) (nth (bestj + bestsize) b Ascii.zero)
      then extend_right fuel' a b ahi bhi (besti, bestj, bestsize + 1)%nat
      else best
  end.

(** [find_longest_match(alo, ahi, blo, bhi)] *)
Definition find_longest_match (a b : list ascii) (alo ahi blo bhi : nat) : Match :=
  let best := scan_rows a b blo bhi (seq alo (ahi - alo)) [] (alo, blo, 0)%nat in
  let best := extend_left (List.length a) a b alo blo best in
  extend_right (List.length a) a b ahi bhi best.

(** The loop of [get_matching_blocks]: [queue.pop()] takes the last entry
    appended.  The blocks are gathered without the sorting and merging that
    follow, which leave the sum of their sizes as it is. *)
Fixpoint matching_loop (fuel : nat) (a b : list ascii)
    (queue : list (nat * nat * nat * nat)) (matching_blocks : list Match)
  : list Match * list (nat * nat * nat * nat) :=
  match fuel with
  | O => (matching_blocks, queue)
  | S fuel' =>
      match queue with
      | [] => (matching_blocks, [])
      | (alo, ahi, blo, bhi) :: rest =>
          let '(i, j, k) := find_longest_match a b alo ahi blo bhi in
          if (k =? 0)%nat then matching_loop fuel' a b rest matching_blocks
          else
            let q1 := if (alo <? i)%nat && (blo <? j)%nat
                      then [(alo, i, blo, j)] else [] in
            let q2 := if (i + k <? ahi)%nat && (j + k <? bhi)%nat
                      then [(i + k, ahi, j + k, bhi)%nat] else [] in
            matching_loop fuel' a b (q2 ++ q1 ++ rest)%list ((i, j, k) :: matching_blocks)
      end
  end.

Definition get_matching_blocks (a b : list ascii) : list Match :=
  fst (matching_loop (2 * List.length a + 1) a b
         [(0, List.length a, 0, List.length b)%nat] []).

Definition float_of_nat (n : nat) : float :=
  PrimFloat.of_uint63 (Uint63.of_Z (Z.of_nat n)).

(** [_calculate_ratio(matches, length)] *)
Definition calculate_ratio (matches length : nat) : float :=
  if (length =? 0)%nat then 1%float
  else (2 * float_of_nat matches / float_of_nat length)%float.

(** [SequenceMatcher.ratio()] *)
Definition ratio (a b : list ascii) : float :=
  let matches := list_sum (map (fun m : Match => snd m) (get_matching_blocks a b)) in
  calculate_ratio matches (List.length a + List.length b).

(** [SequenceMatcher.quick_ratio()]: the characters of [a] that [b] still
    has to offer. *)
Fixpoint quick_matches (a : list ascii) (avail : list (ascii * Z)) (b : list ascii) : nat :=
  match a with
  | [] => 0
  | elt :: a' =>
      let numb :=
        match find (fun p => Ascii.eqb (fst p) elt) avail with
        | Some p => snd p
        | None => Z.of_nat (count_char elt b)
        end in
      let avail' := (elt, numb - 1)%Z :: avail in
      ((if (0 <? numb)%Z then 1 else 0) + quick_matches a' avail' b)%nat
  end.

Definition quick_ratio (a b : list ascii) : float :=
  calculate_ratio (quick_matches a [] b) (List.length a + List.length b).

(** [SequenceMatcher.real_quick_ratio()] *)
Definition real_quick_ratio (a b : list ascii) : float :=
  calculate_ratio (Nat.min (List.length a) (List.length b)) (List.length a + List.length b).

(** Python's 0.6 and 0.8 as the binary64 numbers they denote. *)
Definition cutoff_06 : float := 0x1.3333333333333p-1%float.
Definition cutoff_08 : float := 0x1.999999999999ap-1%float.

(** The order of the [(score, x)] pairs. *)
Definition pair_gt (p q : float * string) : bool :=
  PrimFloat.ltb (fst q) (fst p)
  || (PrimFloat.eqb (fst p) (fst q) && String.ltb (snd q) (snd p)).

(** [heapq.nlargest(n, result)] is [sorted(result, reverse=True)[:n]]: a
    stable sort, largest first. *)
Fixpoint insert_desc (x : float * string) (l : list (float * string)) : list (float * string) :=
  match l with
  | [] => [x]
  | y :: l' => if pair_gt y x then y :: insert_desc x l' else x :: l
  end.

Definition nlargest (n : nat) (result : list (float * string)) : list (float * string) :=
  firstn n (fold_right insert_desc [] result).

Definition close_enough (cutoff : float) (word x : string) : bool :=
  let a := PyStr.chars x in
  let b := PyStr.chars word in
  PrimFloat.leb cutoff (real_quick_ratio a b)
  && PrimFloat.leb cutoff (quick_ratio a b)
  && PrimFloat.leb cutoff (ratio a b).

(** [get_close_matches(word, possibilities, n, cutoff)] for [n > 0] and a
    cutoff between 0 and 1. *)
Definition get_close_matches (word : string) (possibilities : list string)
    (n : nat) (cutoff : float) : list string :=
  let result :=
    map (fun x => (ratio (PyStr.chars x) (PyStr.chars word), x))
        (filter (close_enough cutoff word) possibilities) in
  map snd (nlargest n result).

End Difflib.

(* ------------------------------------------------------------------ *)
(** ** numpy's default argsort *)
(* ------------------------------------------------------------------ *)

(** [npy_aquicksort], the routine behind [a.argsort(kind='quicksort')] for
    an object array (and, on builds without a vectorised sort, for the numeric
    ones): an introsort over the index array [tosort].  Ranges of more than
    [SMALL_QUICKSORT = 16] elements are partitioned around the median of
    three, shorter ones are insertion-sorted, and a range that used up its
    depth budget is heap-sorted. *)
Module Numpy.
Section Sort.

Variable A : Type.
Variable lt : A -> A -> bool.
Variable d : A.
Variable v : list A.

Fixpoint upd (t : list nat) (p : nat) (x : nat) : list nat :=
  match t, p with
  | [], _ => []
  | _ :: t', O => x :: t'
  | y :: t', S p' => y :: upd t' p' x
  end.

(** The key an entry of [tosort] points to, and [INTP_SWAP] of two entries. *)
Definition key (t : list nat) (p : nat) : A := nth (nth p t O) v d.
Definition swap (t : list nat) (p q : nat) : list nat :=
  upd (upd t p (nth q t O)) q (nth p t O).

(** The two [do ... while] scans of the partition: [pi] upwards over the
    keys below the pivot, [pj] downwards over the keys above it. *)
Fixpoint scan_up (fuel : nat) (t : list nat) (vp : A) (pi : nat) : nat :=
  match fuel with
  | O => pi
  | S fuel' => if lt (key t (pi + 1)) vp then scan_up fuel' t vp (pi + 1) else pi + 1
  end.

Fixpoint scan_down (fuel : nat) (t : list nat) (vp : A) (pj : nat) : nat :=
  match fuel with
  | O => pj
  | S fuel' => if lt vp (key t (pj - 1)) then scan_down fuel' t vp (pj - 1) else pj - 1
  end.

(** The [for (;;)] loop of the partition; it ends with [pi]. *)
Fixpoint partition (fuel : nat) (t : list nat) (vp : A) (pi pj : nat) : list nat * nat :=
  match fuel with
  | O => (t, pi)
  | S fuel' =>
      let pi := scan_up (List.length t) t vp pi in
      let pj := scan_down (List.length t) t vp pj in
      if (pj <=? pi)%nat then (t, pi)
      else partition fuel' (swap t pi pj) vp pi pj
  end.

(** [while ((pr - pl) > SMALL_QUICKSORT)]: the larger part goes on the stack
    with the depth that is left, the smaller one is partitioned again. *)
Fixpoint partition_loop (fuel : nat) (t : list nat) (pl pr : nat)
    (stack : list (nat * nat * Z)) (cdepth : Z)
  : list nat * nat * nat * list (nat * nat * Z) :=
  match fuel with
  | O => (t, pl, pr, stack)
  | S fuel' =>
      if (16 <? pr - pl)%nat then
        let pm := (pl + (pr - pl) / 2)%nat in
        let t := if lt (key t pm) (key t pl) then swap t pm pl else t in
        let t := if lt (key t pr) (key t pm) then swap t pr pm else t in
        let t := if lt (key t pm) (key t pl) then swap t pm pl else t in
        let vp := key t pm in
        let t := swap t pm (pr - 1) in
        let '(t, pi) := partition (List.length t) t vp pl (pr - 1) in
        let t := swap t pi (pr - 1) in
        if (pi - pl <? pr - pi)%nat
        then partition_loop fuel' t pl (pi - 1) ((pi + 1, pr, (cdepth - 1)%Z) :: stack) (cdepth - 1)
        else partition_loop fuel' t (pi + 1) pr ((pl, pi - 1, (cdepth - 1)%Z) :: stack) (cdepth - 1)
      else (t, pl, pr, stack)
  end.

(** The insertion sort of the range [pl..pr]. *)
Fixpoint shift_up (fuel : nat) (t : list nat) (pl pj : nat) (vp : A) : list nat * nat :=
  match fuel with
  | O => (t, pj)
  | S fuel' =>
      if (pl <? pj)%nat && lt vp (key t (pj - 1))
      then shift_up fuel' (upd t pj (nth (pj - 1) t O)) pl (pj - 1) vp
      else (t, pj)
  end.

Definition insertion_sort (t : list nat) (pl pr : nat) : list nat :=
  fold_left (fun t pi =>
               let vi := nth pi t O in
               let '(t', pj) := shift_up (List.length t) t pl pi (nth vi v d) in
               upd t' pj vi)
            (seq (pl + 1) (pr - pl)) t.

(** [aheapsort] on the [n] entries from [pl]; [a[k]] is [tosort[pl + k - 1]]. *)
Fixpoint sift (fuel : nat) (t : list nat) (pl n tmp i j : nat) : list nat :=
  match fuel with
  | O => upd t (pl + i - 1) tmp
  | S fuel' =>
      if (j <=? n)%nat then
        let j := if (j <? n)%nat && lt (key t (pl + j - 1)) (key t (pl + j)) then (j + 1)%nat else j in
        if lt (nth tmp v d) (key t (pl + j - 1))
        then sift fuel' (upd t (pl + i - 1) (nth (pl + j - 1) t O)) pl n tmp j (j + j)
        else upd t (pl + i - 1) tmp
      else upd t (pl + i - 1) tmp
  end.

Definition aheapsort (t : list nat) (pl n : nat) : list nat :=
  let t := fold_left (fun t l => sift n t pl n (nth (pl + l - 1) t O) l (2 * l))
                     (rev (seq 1 (n / 2))) t in
  fold_left (fun t m =>
               let tmp := nth (pl + m - 1) t O in
               let t := upd t (pl + m - 1) (nth pl t O) in
               sift n t pl (m - 1) tmp 1 2)
            (rev (seq 2 (n - 1))) t.

(** The outer [while (1)] with its [stack_pop]. *)
Fixpoint sort_loop (fuel : nat) (t : list nat) (pl pr : nat)
    (stack : list (nat * nat * Z)) (cdepth : Z) : list nat :=
  match fuel with
  | O => t
  | S fuel' =>
      let '(t, stack) :=
        if (cdepth <? 0)%Z then (aheapsort t pl (pr - pl + 1), stack)
        else
          let '(t, pl, pr, stack) := partition_loop (List.length t) t pl pr stack cdepth in
          (insertion_sort t pl pr, stack) in
      match stack with
      | [] => t
      | (pl', pr', cdepth') :: stack' => sort_loop fuel' t pl' pr' stack' cdepth'
      end
  end.

End Sort.

(** [npy_aquicksort(v, tosort, num)] with [tosort = 0, 1, ..., num - 1]. *)
Definition aquicksort {A : Type} (lt : A -> A -> bool) (d : A) (v : list A) : list nat :=
  let num := List.length v in
  sort_loop lt d v (S num) (seq 0 num) 0 (num - 1) [] (2 * Z.of_nat (Nat.log2 num)).

End Numpy.

(** Cells as numpy orders them in the examples below: two texts by their
    characters, two integers by their value.  An array that mixes the kinds,
    or holds another kind, makes the comparison raise. *)
Definition is_text (v : value) : bool := match v with VStr _ => true | _ => false end.
Definition is_int (v : value) : bool := match v with VInt _ => true | _ => false end.

Definition cell_lt (a b : value) : bool :=
  match a, b with
  | VStr x, VStr y => String.ltb x y
  | VInt x, VInt y => (x <? y)%Z
  | _, _ => false
  end.

Definition argsort_quicksort (s : Series) : res (list nat) :=
  if forallb is_text s || forallb is_int s
  then Ok (Numpy.aquicksort cell_lt (VNull NaN) s)
  else Err (mkExc TypeError "'<' not supported between instances of 'str' and 'int'").

(** Python's comparison of two texts or of two integers; a text and an
    integer are unequal and have no order. *)
Definition compare_plain (op : string) (a b : value) : res bool :=
  let decide (c : comparison) : res bool :=
    if String.eqb op "==" then Ok (match c with Eq => true | _ => false end)
    else if String.eqb op "!=" then Ok (match c with Eq => false | _ => true end)
    else if String.eqb op "<" then Ok (match c with Lt => true | _ => false end)
    else if String.eqb op ">" then Ok (match c with Gt => true | _ => false end)
    else if String.eqb op "<=" then Ok (match c with Gt => false | _ => true end)
    else Ok (match c with Lt => false | _ => true end) in
  match a, b with
  | VStr x, VStr y => decide (String.compare x y)
  | VInt x, VInt y => decide (Z.compare x y)
  | _, _ =>
      if String.eqb op "==" then Ok false
      else if String.eqb op "!=" then Ok true
      else Err (mkExc TypeError
                  ("'" ++ op ++ "' not supported between instances of 'str' and 'int'"))
  end.

(* ------------------------------------------------------------------ *)
(** ** Tables and states of the examples *)
(* ------------------------------------------------------------------ *)

Definition empty_world : World :=
  {| transformation_history := []; logger_lines := []; clock := "2024-01-01 00:00:00" |}.

(** Three people, the second without a name. *)
Definition people : DataFrame :=
  {| index := [0; 1; 2]%Z;
     data := [("name", [VStr "nancy"; VNull NaN; VStr "bob"])] |}.

(** Two ages. *)
Definition ages : DataFrame :=
  {| index := [0; 1]%Z;
     data := [("age", [VInt 0; VInt 7])] |}.

(** Eighteen rows with one and the same key, numbered in a second column. *)
Definition eighteen : DataFrame :=
  {| index := map Z.of_nat (seq 0 18);
     data := [("k", repeat (VStr "a") 18);
              ("n", map (fun i => VInt (Z.of_nat i)) (seq 0 18))] |}.

(** Four orders: rows 0 and 2 agree on both columns, and so do rows 1 and 3. *)
Definition orders : DataFrame :=
  {| index := [0; 1; 2; 3]%Z;
     data := [("city", [VStr "b"; VStr "a"; VStr "b"; VStr "a"]);
              ("qty", [VInt 2; VInt 1; VInt 2; VInt 1])] |}.

(** An interpreter's wording of [UnboundLocalError] (Python 3.11) and pandas'
    rendering of a short Index of labels. *)
Definition unbound_local_311 (name : string) : string :=
  "cannot access local variable '" ++ name ++ "' where it is not associated with a value".

Definition short_index_repr (labels : list string) : string :=
  "Index(" ++ PyStr.repr_list labels ++ ", dtype='object')".

(* ------------------------------------------------------------------ *)
(** ** The engine: what the interpreter and the libraries decide *)
(* ------------------------------------------------------------------ *)

Section Engine.

(** [str(x)] for a float that is not nan, and for a Timestamp. *)
Variable float_str : float -> string.
Variable datetime_str : Z -> string.

(** [repr] of a pandas [Index] holding the given labels. *)
Variable index_repr : list string -> string.

(** The order in which Python iterates the set of the given labels. *)
Variable set_order : list string -> list string.

(** [str(e)] for the [UnboundLocalError] of a local name: the wording
    depends on the interpreter's version. *)
Variable unbound_local_text : string -> string.

(** [x op y] for two cells that are not null, [op] one of
    [==  !=  <  >  <=  >=]; a [TypeError] when Python does not order them. *)
Variable py_compare : string -> value -> value -> res bool.

(** [df[df[c] op v]] when several columns carry the label [c]. *)
Variable select_where : DataFrame -> string -> string -> value -> res DataFrame.

(** [texts.str.contains(pat)], [texts.str.replace(old, new)] and
    [texts.str.extract(pat)] on a Series of strings: regular expressions. *)
Variable str_contains : list string -> string -> res (list bool).
Variable str_replace : list string -> string -> string -> res (list string).
Variable str_extract : list string -> string -> res Series.

(** [a.argsort(kind='quicksort')] on the values of a column without its
    nulls, [numpy]'s default sort. *)
Variable np_argsort : Series -> res (list nat).

(** Whether a column has a numeric dtype, and its [mean()], [median()] and
    [mode()]. *)
Variable is_numeric_dtype : Series -> bool.
Variable series_mean : Series -> value.
Variable series_median : Series -> value.
Variable series_mode : Series -> list value.

(** The number a text stands for, if any ([pd.to_numeric]); the instant a
    cell stands for, if any ([pd.to_datetime]). *)
Variable parse_number : string -> option value.
Variable parse_datetime : value -> option Z.

(** [eval(expression)] in [create_calculated_column], with the frames bound
    to [df] and [df_result].  The expression is one over the columns: it
    reads the two frames and leaves the transformer and the logger alone; it
    may return anything and raise anything, an exception outside [Exception]
    too. *)
Variable py_eval : string -> DataFrame -> DataFrame -> outcome eval_result.

(** [str] of the Series of per-column counts that [fix_data_typos] formats
    when several columns carry the label. *)
Variable counts_str : list Z -> string.

(** Whether a column has dtype [object], and [value_counts()] of a column:
    the distinct values that are not null with their counts, most frequent
    first. *)
Variable is_object_dtype : Series -> bool.
Variable value_counts : Series -> list (value * nat).

(** [str(v)] for a cell *)
Definition str_value (v : value) : string :=
  match v with
  | VNull NaN => "nan"
  | VNull PyNone => "None"
  | VNull NaT => "NaT"
  | VNull NA => "<NA>"
  | VInt z => PyStr.of_Z z
  | VFloat f => if PrimFloat.is_nan f then "nan" else float_str f
  | VStr s => s
  | VBool true => "True"
  | VBool false => "False"
  | VTime t => datetime_str t
  end.

(** [s.astype(str)]: every cell becomes its text, the missing ones too. *)
Definition astype_str (s : Series) : Series := map (fun v => VStr (str_value v)) s.

(** [df[c].astype(str).str]: the texts the string methods work on.  A frame
    has no [str] accessor. *)
Definition str_accessor (it : item) : res (list string) :=
  match it with
  | ItemSeries s => Ok (map str_value s)
  | ItemFrame _ => Err (mkExc AttributeError "'DataFrame' object has no attribute 'str'")
  end.

(** [df[keys]] for a list of labels: the [KeyError] shows the labels asked
    for when none is a column, and otherwise the list of those that are not. *)
Definition missing_key_error (df : DataFrame) (keys : list string) : exc :=
  if forallb (fun k => negb (PyStr.mem k (columns_of df))) keys
  then key_error ("None of [" ++ index_repr keys ++ "] are in the [columns]")
  else key_error (PyStr.repr_list (unique (not_in_columns df keys)) ++ " not in index").

Definition getitem_list (df : DataFrame) (keys : list string) : res DataFrame :=
  match keys with
  | [] => Ok {| index := index df; data := [] |}
  | _ =>
      match unique (not_in_columns df keys) with
      | [] => Ok {| index := index df;
                    data := flat_map (fun k => filter (fun nc => String.eqb (fst nc) k) (data df)) keys |}
      | _ => Err (missing_key_error df keys)
      end
  end.

(** Equality of two cells as keys: missing values are one key. *)
Definition same_key (a b : value) : res bool :=
  if isnull a then Ok (isnull b)
  else if isnull b then Ok false
  else py_compare "==" a b.

Fixpoint same_row (a b : list value) : res bool :=
  match a, b with
  | x :: a', y :: b' =>
      let? e := same_key x y in
      if e then same_row a' b' else Ok false
  | [], [] => Ok true
  | _, _ => Ok false
  end.

Fixpoint occurs (k : list value) (l : list (list value)) : res bool :=
  match l with
  | [] => Ok false
  | k' :: l' =>
      let? e := same_row k k' in
      if e then Ok true else occurs k l'
  end.

(** [df.duplicated(keep='first')] on the rows' keys. *)
Fixpoint duplicated_first (seen rows : list (list value)) : res (list bool) :=
  match rows with
  | [] => Ok []
  | k :: rows' =>
      let? d := occurs k seen in
      let? ds := duplicated_first (k :: seen) rows' in
      Ok (d :: ds)
  end.

Definition duplicated (rows : list (list value)) (keep : keep_arg) : res (list bool) :=
  match keep with
  | KeepStr "first" => duplicated_first [] rows
  | KeepStr "last" =>
      let? ds := duplicated_first [] (rev rows) in Ok (rev ds)
  | KeepFalse =>
      let? a := duplicated_first [] rows in
      let? b := duplicated_first [] (rev rows) in
      Ok (map (fun p => orb (fst p) (snd p)) (combine a (rev b)))
  | KeepStr _ =>
      Err (mkExc ValueError
             ("keep must be either " ++ String PyStr.dquote "first" ++ String PyStr.dquote ", "
              ++ String PyStr.dquote "last" ++ String PyStr.dquote " or False"))
  end.

(** [df.drop_duplicates(subset=subset, keep=keep)] *)
Definition drop_duplicates (df : DataFrame) (subset : option (list string)) (keep : keep_arg)
  : res DataFrame :=
  if empty df then Ok (copy df)
  else
    let subset := match subset with Some s => s | None => columns_of df end in
    match unique (not_in_columns df subset) with
    | [] =>
        let keys := map snd (filter (fun nc => PyStr.mem (fst nc) subset) (data df)) in
        let? dup := duplicated (map (row_at (VNull NaN) keys) (positions df)) keep in
        Ok (mask_rows df (map negb dup))
    | diff => Err (mkExc KeyError (index_repr (set_order diff)))
    end.

(** *** Sorting *)

(** The values of the column a sort label names: the label must name one
    column. *)
Definition label_values (df : DataFrame) (c : string) : res Series :=
  match lookup_all df c with
  | [] => Err (key_error c)
  | [s] => Ok s
  | _ => Err (mkExc ValueError ("The column label '" ++ c ++ "' is not unique."))
  end.

(** [nargsort(k, kind='quicksort', ascending=asc, na_position='last')]: the
    nulls go last; the other positions are ordered by [numpy]'s argsort, for
    a descending sort on the reversed values with the outcome reversed. *)
Definition nargsort (k : Series) (ascending : bool) : res (list nat) :=
  let idx := seq 0 (List.length k) in
  let mask := map isnull k in
  let non_nans := mask_list (map negb mask) k in
  let non_nan_idx := mask_list (map negb mask) idx in
  let nan_idx := mask_list mask idx in
  if ascending
  then
    let? order := np_argsort non_nans in
    Ok (take_list order non_nan_idx ++ nan_idx)%list
  else
    let? order := np_argsort (rev non_nans) in
    Ok (rev (take_list order (rev non_nan_idx)) ++ nan_idx)%list.

(** [Categorical(k, ordered=True)]: the categories are the distinct values
    that are not null, in increasing order; the code of a value is the place
    of its category, so the number of categories below it, and -1 for a
    null. *)
Fixpoint is_category (v : value) (seen : list value) : res bool :=
  match seen with
  | [] => Ok false
  | u :: seen' =>
      let? e := py_compare "==" u v in
      if e then Ok true else is_category v seen'
  end.

Fixpoint categories_from (seen : list value) (k : Series) : res (list value) :=
  match k with
  | [] => Ok (rev seen)
  | v :: k' =>
      if isnull v then categories_from seen k'
      else
        let? known := is_category v seen in
        if known then categories_from seen k' else categories_from (v :: seen) k'
  end.

Fixpoint count_below (cats : list value) (v : value) : res Z :=
  match cats with
  | [] => Ok 0%Z
  | u :: cats' =>
      let? b := py_compare "<" u v in
      let? n := count_below cats' v in
      Ok (if b then n + 1 else n)%Z
  end.

Definition category_code (cats : list value) (v : value) : res Z :=
  if isnull v then Ok (-1)%Z else count_below cats v.

(** The codes [lexsort_indexer] sorts one key by: nulls last, and the order
    of the categories turned round for a descending key. *)
Definition sort_code (n : Z) (ascending : bool) (code : Z) : Z :=
  if (code =? -1)%Z then n
  else if ascending then code else (n - code - 1)%Z.

Definition key_codes (k : Series) (ascending : bool) : res (list Z) :=
  let? cats := categories_from [] k in
  let n := Z.of_nat (List.length cats) in
  res_map (fun v => let? c := category_code cats v in Ok (sort_code n ascending c)) k.

(** [lexsort_indexer(keys, orders=ascending)]: a stable sort of the row
    positions by their tuples of codes. *)
Definition lexsort_indexer (keys : list Series) (ascending : list bool) (n : nat)
  : res (list nat) :=
  let? codes := res_map (fun ka => key_codes (fst ka) (snd ka)) (combine keys ascending) in
  Ok (map snd (stable_sort (map (fun i => (row_at 0%Z codes i, i)) (seq 0 n)))).

(** [df.sort_values(by=by, ascending=ascending)] *)
Definition sort_values (df : DataFrame) (by_ : list string) (ascending : list bool)
  : res DataFrame :=
  if negb (List.length by_ =? List.length ascending)%nat
  then Err (mkExc ValueError
              ("Length of ascending (" ++ PyStr.of_nat (List.length ascending)
               ++ ") != length of by (" ++ PyStr.of_nat (List.length by_) ++ ")"))
  else
    let? keys := res_map (label_values df) by_ in
    match keys, ascending with
    | [], _ => Ok (copy df)
    | [k], asc :: _ =>
        let? indexer := nargsort k asc in
        Ok (take_rows df indexer)
    | _, _ =>
        let? indexer := lexsort_indexer keys ascending (List.length (index df)) in
        Ok (take_rows df indexer)
    end.

(** *** Type conversion *)

(** [pd.to_numeric(s, errors='coerce')]: a text that is no number becomes
    nan; with a nan or a float in the column the integers become floats. *)
Definition coerce_number (v : value) : value :=
  match v with
  | VNull _ => VNull NaN
  | VStr s => match parse_number s with
              | Some n => n
              | None => VNull NaN
              end
  | VTime t => VInt t
  | other => other
  end.

Definition is_integer_cell (v : value) : bool :=
  match v with
  | VInt _ | VBool _ => true
  | _ => false
  end.

Definition widen (v : value) : value :=
  match v with
  | VInt z => VFloat (float_of_Z z)
  | VBool b => VFloat (if b then 1%float else 0%float)
  | other => other
  end.

Definition to_numeric_series (s : Series) : Series :=
  let coerced := map coerce_number s in
  if forallb is_integer_cell coerced then coerced else map widen coerced.

Definition to_numeric (it : item) : res Series :=
  match it with
  | ItemSeries s => Ok (to_numeric_series s)
  | ItemFrame _ => Err (mkExc TypeError "arg must be a list, tuple, 1-d array, or Series")
  end.

(** [pd.to_datetime(s, errors='coerce')]: a cell that is no instant becomes
    NaT. *)
Definition coerce_datetime (v : value) : value :=
  match v with
  | VNull _ => VNull NaT
  | VTime t => VTime t
  | other => match parse_datetime other with
             | Some t => VTime t
             | None => VNull NaT
             end
  end.

Definition to_datetime (it : item) : res Series :=
  match it with
  | ItemSeries s => Ok (map coerce_datetime s)
  | ItemFrame _ =>
      Err (mkExc ValueError
             "to assemble mappings requires at least that [year, month, day] be specified: [day,month,year] is missing")
  end.

(* ---------------------------------------------------------------- *)
(** ** class DataTransformer *)
(* ---------------------------------------------------------------- *)

(** Reading a local variable: an [UnboundLocalError] when no branch has
    assigned it. *)
Definition local {A : Type} (name : string) (v : option A) : M A :=
  match v with
  | Some x => ret x
  | None => raise (Exc (mkExc UnboundLocalError (unbound_local_text name)))
  end.

Fixpoint res_fold {A B : Type} (f : A -> B -> res A) (l : list B) (a : A) : res A :=
  match l with
  | [] => Ok a
  | x :: l' => let? a' := f a x in res_fold f l' a'
  end.

(** [remove_duplicates(df, columns=None, keep='first')] *)
Definition remove_duplicates (df : DataFrame) (columns : option (list string))
    (keep : keep_arg) : M (DataFrame * string) :=
  TRY
    let rows_before := len df in
    let cols_before := len_columns df in
    r <- match columns with
         | Some ((_ :: _) as cols) =>
             df_result <- call (drop_duplicates df (Some cols) keep) ;;
             ret (df_result,
                  "Based on columns: " ++ PyStr.join ", " cols ++ ", keep='" ++ str_keep keep ++ "'")
         | _ =>
             df_result <- call (drop_duplicates df None keep) ;;
             ret (df_result, "All columns, keep='" ++ str_keep keep ++ "'")
         end ;;
    let df_result := fst r in
    let details := snd r in
    let rows_after := len df_result in
    let cols_after := len_columns df_result in
    let duplicates_removed := (rows_before - rows_after)%Z in
    log_transformation "REMOVE_DUPLICATES" details
      rows_before rows_after cols_before cols_after ;;
    ret (df_result, "Removed " ++ PyStr.of_Z duplicates_removed ++ " duplicate rows")
  EXCEPT e =>
    let error_msg := "Error removing duplicates: " ++ exc_str e in
    log_etl_step "ERROR" error_msg ;;
    ret (df, error_msg).

(** The branches of [handle_missing_values]. *)
Definition numeric_columns (df_result : DataFrame) (target_columns : list string)
  : res (list string) :=
  let? sub := getitem_list df_result target_columns in
  Ok (map fst (filter (fun nc => is_numeric_dtype (snd nc)) (data sub))).

Definition fill_mode_column (df_result : DataFrame) (col : string) : res DataFrame :=
  let? it := getitem df_result col in
  match it with
  | ItemSeries s =>
      match series_mode s with
      | [] => Ok df_result
      | mode_value :: _ => Ok (setitem df_result col (fillna mode_value s))
      end
  | ItemFrame _ =>
      if empty df_result then Ok df_result else Err (mkExc KeyError "0")
  end.

Definition str_option (v : option value) : string :=
  match v with
  | Some x => str_value x
  | None => "None"
  end.

(** [handle_missing_values(df, method, columns=None, fill_value=None)] *)
Definition handle_missing_values (df : DataFrame) (method : string)
    (columns : option (list string)) (fill_value : option value)
  : M (DataFrame * string) :=
  TRY
    let rows_before := len df in
    let cols_before := len_columns df in
    let df_result := copy df in
    let target_columns :=
      match columns with
      | Some ((_ :: _) as cols) => cols
      | _ => columns_of df
      end in
    sub <- call (getitem_list df target_columns) ;;
    let missing_before := count_nulls sub in
    r <- (if String.eqb method "drop" then
            ret (dropna df_result target_columns,
                 Some ("Dropped rows with missing values in "
                       ++ PyStr.of_nat (List.length target_columns) ++ " columns"))
          else if String.eqb method "fill_mean" then
            numeric_cols <- call (numeric_columns df_result target_columns) ;;
            ret (update_columns df_result numeric_cols (fun s => fillna (series_mean s) s),
                 Some ("Filled with mean for "
                       ++ PyStr.of_nat (List.length numeric_cols) ++ " numeric columns"))
          else if String.eqb method "fill_median" then
            numeric_cols <- call (numeric_columns df_result target_columns) ;;
            ret (update_columns df_result numeric_cols (fun s => fillna (series_median s) s),
                 Some ("Filled with median for "
                       ++ PyStr.of_nat (List.length numeric_cols) ++ " numeric columns"))
          else if String.eqb method "fill_mode" then
            df_result <- call (res_fold fill_mode_column target_columns df_result) ;;
            ret (df_result,
                 Some ("Filled with mode for "
                       ++ PyStr.of_nat (List.length target_columns) ++ " columns"))
          else if String.eqb method "fill_value" then
            filled <- call (match fill_value with
                            | Some v => Ok (update_columns df_result target_columns (fillna v))
                            | None => Err (mkExc ValueError "Must specify a fill 'value' or 'method'.")
                            end) ;;
            ret (filled,
                 Some ("Filled with '" ++ str_option fill_value ++ "' for "
                       ++ PyStr.of_nat (List.length target_columns) ++ " columns"))
          else if String.eqb method "forward_fill" then
            ret (update_columns df_result target_columns ffill,
                 Some ("Forward fill for "
                       ++ PyStr.of_nat (List.length target_columns) ++ " columns"))
          else if String.eqb method "backward_fill" then
            ret (update_columns df_result target_columns bfill,
                 Some ("Backward fill for "
                       ++ PyStr.of_nat (List.length target_columns) ++ " columns"))
          else
            ret (df_result, None)) ;;
    let df_result := fst r in
    let rows_after := len df_result in
    let cols_after := len_columns df_result in
    sub_after <- call (getitem_list df_result target_columns) ;;
    let missing_after := count_nulls sub_after in
    details <- local "details" (snd r) ;;
    log_transformation "HANDLE_MISSING" details
      rows_before rows_after cols_before cols_after ;;
    ret (df_result,
         "Handled " ++ PyStr.of_Z (missing_before - missing_after)
         ++ " missing values using " ++ method)
  EXCEPT e =>
    let error_msg := "Error handling missing values: " ++ exc_str e in
    log_etl_step "ERROR" error_msg ;;
    ret (df, error_msg).

(** A comparison of one cell with the filter value: a null cell compares
    unequal. *)
Definition compare_cell (operator : string) (value0 : value) (v : value) : res bool :=
  if isnull v || isnull value0 then Ok (String.eqb operator "!=")
  else py_compare operator v value0.

(** [df[df[column] <operator> value]] *)
Definition select_compare (df : DataFrame) (column operator : string) (value0 : value)
  : res DataFrame :=
  let? it := getitem df column in
  match it with
  | ItemSeries s =>
      let? mask := res_map (compare_cell operator value0) s in
      Ok (mask_rows df mask)
  | ItemFrame _ => select_where df column operator value0
  end.

(** [df[df[column].astype(str).str.<method>(str(value), na=False)]]: after
    [astype(str)] no cell is missing, so [na] decides nothing. *)
Definition select_text (method : list string -> string -> res (list bool))
    (df : DataFrame) (column : string) (value0 : value) : res DataFrame :=
  let? it := getitem df column in
  let? texts := str_accessor it in
  let? mask := method texts (str_value value0) in
  Ok (mask_rows df mask).

Definition str_startswith (texts : list string) (pat : string) : res (list bool) :=
  Ok (map (fun t => PyStr.startswith t pat) texts).

Definition str_endswith (texts : list string) (pat : string) : res (list bool) :=
  Ok (map (fun t => PyStr.endswith t pat) texts).

(** [filter_data(df, column, operator, value)] *)
Definition filter_data (df : DataFrame) (column operator : string) (value0 : value)
  : M (DataFrame * string) :=
  TRY
    let rows_before := len df in
    let cols_before := len_columns df in
    if negb (PyStr.mem column (columns_of df)) then
      ret (df, "Column '" ++ column ++ "' not found in DataFrame")
    else
      selected <-
        (if String.eqb operator "==" then
           df_result <- call (select_compare df column "==" value0) ;; ret (Some df_result)
         else if String.eqb operator "!=" then
           df_result <- call (select_compare df column "!=" value0) ;; ret (Some df_result)
         else if String.eqb operator ">" then
           df_result <- call (select_compare df column ">" value0) ;; ret (Some df_result)
         else if String.eqb operator "<" then
           df_result <- call (select_compare df column "<" value0) ;; ret (Some df_result)
         else if String.eqb operator ">=" then
           df_result <- call (select_compare df column ">=" value0) ;; ret (Some df_result)
         else if String.eqb operator "<=" then
           df_result <- call (select_compare df column "<=" value0) ;; ret (Some df_result)
         else if String.eqb operator "contains" then
           df_result <- call (select_text str_contains df column value0) ;; ret (Some df_result)
         else if String.eqb operator "startswith" then
           df_result <- call (select_text str_startswith df column value0) ;; ret (Some df_result)
         else if String.eqb operator "endswith" then
           df_result <- call (select_text str_endswith df column value0) ;; ret (Some df_result)
         else
           ret None) ;;
      match selected with
      | None => ret (df, "Unsupported operator: " ++ operator)
      | Some df_result =>
          let rows_after := len df_result in
          let cols_after := len_columns df_result in
          let details :=
            "Column '" ++ column ++ "' " ++ operator ++ " '" ++ str_value value0 ++ "'" in
          log_transformation "FILTER_DATA" details
            rows_before rows_after cols_before cols_after ;;
          ret (df_result,
               "Filtered to " ++ PyStr.of_Z rows_after ++ " rows where " ++ details)
      end
  EXCEPT e =>
    let error_msg := "Error filtering data: " ++ exc_str e in
    log_etl_step "ERROR" error_msg ;;
    ret (df, error_msg).

(** [sort_data(df, columns, ascending=None)] *)
Definition sort_data (df : DataFrame) (columns : list string)
    (ascending : option (list bool)) : M (DataFrame * string) :=
  TRY
    let rows_before := len df in
    let cols_before := len_columns df in
    let invalid_cols := not_in_columns df columns in
    match invalid_cols with
    | _ :: _ => ret (df, "Columns not found: " ++ PyStr.join ", " invalid_cols)
    | [] =>
        checked <-
          match ascending with
          | None => ret (Some (repeat true (List.length columns)))
          | Some flags =>
              if negb (List.length flags =? List.length columns)%nat
              then ret None
              else ret (Some flags)
          end ;;
        match checked with
        | None => ret (df, "Length of ascending list must match columns list")
        | Some ascending =>
            df_result <- call (sort_values df columns ascending) ;;
            let rows_after := len df_result in
            let cols_after := len_columns df_result in
            let sort_details :=
              map (fun ca => fst ca ++ " (" ++ (if snd ca : bool then "asc" else "desc") ++ ")")
                  (combine columns ascending) in
            let details := "Sorted by: " ++ PyStr.join ", " sort_details in
            log_transformation "SORT_DATA" details
              rows_before rows_after cols_before cols_after ;;
            ret (df_result,
                 "Sorted data by " ++ PyStr.of_nat (List.length columns) ++ " columns")
        end
    end
  EXCEPT e =>
    let error_msg := "Error sorting data: " ++ exc_str e in
    log_etl_step "ERROR" error_msg ;;
    ret (df, error_msg).

(** [rename_columns(df, column_mapping)] *)
Definition rename_columns (df : DataFrame) (column_mapping : list (string * string))
  : M (DataFrame * string) :=
  TRY
    let rows_before := len df in
    let cols_before := len_columns df in
    let invalid_cols := not_in_columns df (map fst column_mapping) in
    match invalid_cols with
    | _ :: _ => ret (df, "Columns not found: " ++ PyStr.join ", " invalid_cols)
    | [] =>
        let df_result := rename df column_mapping in
        let rows_after := len df_result in
        let cols_after := len_columns df_result in
        let details :=
          "Renamed " ++ PyStr.of_nat (List.length column_mapping) ++ " columns" in
        log_transformation "RENAME_COLUMNS" details
          rows_before rows_after cols_before cols_after ;;
        ret (df_result,
             "Renamed " ++ PyStr.of_nat (List.length column_mapping) ++ " columns")
    end
  EXCEPT e =>
    let error_msg := "Error renaming columns: " ++ exc_str e in
    log_etl_step "ERROR" error_msg ;;
    ret (df, error_msg).

(** [drop_columns(df, columns)] *)
Definition drop_columns (df : DataFrame) (columns : list string)
  : M (DataFrame * string) :=
  TRY
    let rows_before := len df in
    let cols_before := len_columns df in
    let invalid_cols := not_in_columns df columns in
    match invalid_cols with
    | _ :: _ => ret (df, "Columns not found: " ++ PyStr.join ", " invalid_cols)
    | [] =>
        df_result <- call (drop df columns) ;;
        let rows_after := len df_result in
        let cols_after := len_columns df_result in
        let details := "Dropped columns: " ++ PyStr.join ", " columns in
        log_transformation "DROP_COLUMNS" details
          rows_before rows_after cols_before cols_after ;;
        ret (df_result,
             "Dropped " ++ PyStr.of_nat (List.length columns) ++ " columns")
    end
  EXCEPT e =>
    let error_msg := "Error dropping columns: " ++ exc_str e in
    log_etl_step "ERROR" error_msg ;;
    ret (df, error_msg).

(** [df_result[column] = convert(df_result[column])]: with several columns
    under the label each one is converted. *)
Fixpoint assign_each (cols : list (string * Series)) (c : string) (news : list Series)
  : list (string * Series) :=
  match cols with
  | [] => []
  | nc :: cols' =>
      if String.eqb (fst nc) c
      then match news with
           | s :: news' => (fst nc, s) :: assign_each cols' c news'
           | [] => nc :: assign_each cols' c []
           end
      else nc :: assign_each cols' c news
  end.

Definition assign_converted (df_result : DataFrame) (column : string)
    (convert : Series -> res Series) : res DataFrame :=
  let? it := getitem df_result column in
  match it with
  | ItemSeries s =>
      let? converted := convert s in
      Ok (setitem df_result column converted)
  | ItemFrame cols =>
      let? converted := res_map convert cols in
      Ok {| index := index df_result; data := assign_each (data df_result) column converted |}
  end.

(** One turn of the loop of [convert_data_types]: the conversion of one
    column inside its own [try], the frame left as it was when it raises.
    [astype('category')] changes the dtype and no cell. *)
Definition convert_column (df_result : DataFrame) (column target_type : string)
  : res DataFrame :=
  if String.eqb target_type "int" then
    let? it := getitem df_result column in
    let? numbers := to_numeric it in
    let? converted := astype_Int64 numbers in
    Ok (setitem df_result column converted)
  else if String.eqb target_type "float" then
    let? it := getitem df_result column in
    let? numbers := to_numeric it in
    Ok (setitem df_result column numbers)
  else if String.eqb target_type "string" then
    assign_converted df_result column (fun s => Ok (astype_str s))
  else if String.eqb target_type "datetime" then
    let? it := getitem df_result column in
    let? instants := to_datetime it in
    Ok (setitem df_result column instants)
  else if String.eqb target_type "boolean" then
    assign_converted df_result column astype_bool
  else if String.eqb target_type "category" then
    assign_converted df_result column (fun s => Ok s)
  else
    Ok df_result.

(** The arrow of [f"{column} → {target_type}"], in UTF-8. *)
Definition arrow : string :=
  String (ascii_of_nat 226) (String (ascii_of_nat 134) (String (ascii_of_nat 146) "")).

Record conversion_state : Type := mkConversionState {
  converted_frame : DataFrame;
  conversion_errors : list string;
  successful_conversions : list string
}.

Definition convert_step (df : DataFrame) (st : conversion_state) (entry : string * string)
  : conversion_state :=
  let column := fst entry in
  let target_type := snd entry in
  if negb (PyStr.mem column (columns_of df)) then
    {| converted_frame := converted_frame st;
       conversion_errors :=
         conversion_errors st ++ ["Column '" ++ column ++ "' not found"];
       successful_conversions := successful_conversions st |}
  else
    match convert_column (converted_frame st) column target_type with
    | Ok df_result =>
        {| converted_frame := df_result;
           conversion_errors := conversion_errors st;
           successful_conversions :=
             successful_conversions st ++ [column ++ " " ++ arrow ++ " " ++ target_type] |}
    | Err e =>
        {| converted_frame := converted_frame st;
           conversion_errors :=
             conversion_errors st
             ++ ["Failed to convert '" ++ column ++ "' to " ++ target_type ++ ": " ++ exc_str e];
           successful_conversions := successful_conversions st |}
    end.

(** The loop [for column, target_type in type_mapping.items()], from
    [df_result = df.copy()] and the two empty lists. *)
Definition conversions (df : DataFrame) (type_mapping : list (string * string))
  : conversion_state :=
  fold_left (convert_step df) type_mapping
    {| converted_frame := copy df;
       conversion_errors := [];
       successful_conversions := [] |}.

(** [convert_data_types(df, type_mapping)] *)
Definition convert_data_types (df : DataFrame) (type_mapping : list (string * string))
  : M (DataFrame * string) :=
  TRY
    let rows_before := len df in
    let cols_before := len_columns df in
    let st := conversions df type_mapping in
    let df_result := converted_frame st in
    let rows_after := len df_result in
    let cols_after := len_columns df_result in
    let details :=
      "Converted " ++ PyStr.of_nat (List.length (successful_conversions st)) ++ " columns" in
    log_transformation "CONVERT_TYPES" details
      rows_before rows_after cols_before cols_after ;;
    let message :=
      "Successfully converted "
      ++ PyStr.of_nat (List.length (successful_conversions st)) ++ " columns" in
    let message :=
      match conversion_errors st with
      | _ :: _ => message ++ ". Errors: " ++ PyStr.join "; " (conversion_errors st)
      | [] => message
      end in
    ret (df_result, message)
  EXCEPT e =>
    let error_msg := "Error converting data types: " ++ exc_str e in
    log_etl_step "ERROR" error_msg ;;
    ret (df, error_msg).

(** The loop [for col in df.columns: expression = expression.replace(col,
    f"df_result['{col}']")]. *)
Definition rewrite_expression (cols : list string) (expression : string) : string :=
  fold_left (fun expression col =>
               PyStr.replace expression col ("df_result['" ++ col ++ "']"))
            cols expression.

(** [create_calculated_column(df, new_column, expression)] *)
Definition create_calculated_column (df : DataFrame) (new_column expression : string)
  : M (DataFrame * string) :=
  TRY
    let rows_before := len df in
    let cols_before := len_columns df in
    let df_result := copy df in
    let expression := rewrite_expression (columns_of df) expression in
    evaluated <- (fun w => (py_eval expression df df_result, w)) ;;
    df_result <- call (setitem_result df_result new_column evaluated) ;;
    let rows_after := len df_result in
    let cols_after := len_columns df_result in
    let details := "Created '" ++ new_column ++ "' with expression: " ++ expression in
    log_transformation "CREATE_COLUMN" details
      rows_before rows_after cols_before cols_after ;;
    ret (df_result, "Created calculated column '" ++ new_column ++ "'")
  EXCEPT e =>
    let error_msg := "Error creating calculated column: " ++ exc_str e in
    log_etl_step "ERROR" error_msg ;;
    ret (df, error_msg).

(** [kwargs.get(key, '')] *)
Definition kwargs_get (kwargs : list (string * string)) (key : string) : string :=
  match dict_get kwargs key with
  | Some v => v
  | None => ""
  end.

(** [df_result[column].astype(str).str] *)
Definition column_texts (df_result : DataFrame) (column : string) : res (list string) :=
  let? it := getitem df_result column in
  str_accessor it.

(** [text_operations(df, column, operation, **kwargs)] *)
Definition text_operations (df : DataFrame) (column operation : string)
    (kwargs : list (string * string)) : M (DataFrame * string) :=
  TRY
    let rows_before := len df in
    let cols_before := len_columns df in
    if negb (PyStr.mem column (columns_of df)) then
      ret (df, "Column '" ++ column ++ "' not found")
    else
      let df_result := copy df in
      applied <-
        (if String.eqb operation "upper" then
           texts <- call (column_texts df_result column) ;;
           ret (Some (setitem df_result column (map (fun t => VStr (PyStr.upper t)) texts),
                      "Converted '" ++ column ++ "' to uppercase"))
         else if String.eqb operation "lower" then
           texts <- call (column_texts df_result column) ;;
           ret (Some (setitem df_result column (map (fun t => VStr (PyStr.lower t)) texts),
                      "Converted '" ++ column ++ "' to lowercase"))
         else if String.eqb operation "title" then
           texts <- call (column_texts df_result column) ;;
           ret (Some (setitem df_result column (map (fun t => VStr (PyStr.title t)) texts),
                      "Converted '" ++ column ++ "' to title case"))
         else if String.eqb operation "strip" then
           texts <- call (column_texts df_result column) ;;
           ret (Some (setitem df_result column (map (fun t => VStr (PyStr.strip t)) texts),
                      "Stripped whitespace from '" ++ column ++ "'"))
         else if String.eqb operation "replace" then
           let old_value := kwargs_get kwargs "old_value" in
           let new_value := kwargs_get kwargs "new_value" in
           texts <- call (column_texts df_result column) ;;
           replaced <- call (str_replace texts old_value new_value) ;;
           ret (Some (setitem df_result column (map VStr replaced),
                      "Replaced '" ++ old_value ++ "' with '" ++ new_value
                      ++ "' in '" ++ column ++ "'"))
         else if String.eqb operation "extract" then
           let pattern := kwargs_get kwargs "pattern" in
           texts <- call (column_texts df_result column) ;;
           extracted <- call (str_extract texts pattern) ;;
           ret (Some (setitem df_result (column ++ "_extracted") extracted,
                      "Extracted pattern '" ++ pattern ++ "' from '" ++ column ++ "'"))
         else
           ret None) ;;
      match applied with
      | None => ret (df, "Unsupported text operation: " ++ operation)
      | Some (df_result, details) =>
          let rows_after := len df_result in
          let cols_after := len_columns df_result in
          log_transformation "TEXT_OPERATION" details
            rows_before rows_after cols_before cols_after ;;
          ret (df_result, "Applied " ++ operation ++ " operation to '" ++ column ++ "'")
      end
  EXCEPT e =>
    let error_msg := "Error in text operation: " ++ exc_str e in
    log_etl_step "ERROR" error_msg ;;
    ret (df, error_msg).

(** [fix_column_typos(df, corrections)] *)
Definition fix_column_typos (df : DataFrame) (corrections : list (string * string))
  : M (DataFrame * string) :=
  TRY
    let rows_before := len df in
    let cols_before := len_columns df in
    let invalid_cols := not_in_columns df (map fst corrections) in
    match invalid_cols with
    | _ :: _ => ret (df, "Error: Columns not found: " ++ PyStr.join ", " invalid_cols)
    | [] =>
        let df_result := rename df corrections in
        let rows_after := len df_result in
        let cols_after := len_columns df_result in
        let details := "Fixed column typos: " ++ PyStr.repr_dict corrections in
        log_transformation "FIX_COLUMN_TYPOS" details
          rows_before rows_after cols_before cols_after ;;
        let message :=
          "Successfully fixed " ++ PyStr.of_nat (List.length corrections)
          ++ " column name typos" in
        ret (df_result, message)
    end
  EXCEPT e =>
    let error_msg := "Error fixing column typos: " ++ exc_str e in
    log_etl_step "ERROR" error_msg ;;
    ret (df, error_msg).

(** [s.replace(corrections)] for a dict of strings: one pass, a cell is
    looked up once. *)
Definition replace_values (corrections : list (string * string)) (s : Series) : Series :=
  map (fun v => match v with
                | VStr t => match dict_get corrections t with
                            | Some new => VStr new
                            | None => v
                            end
                | _ => v
                end) s.

(** [(s == old_val).sum()] for a string [old_val] *)
Definition count_equal (s : Series) (old_val : string) : Z :=
  Z.of_nat (List.length (filter (fun v => match v with
                                          | VStr t => String.eqb t old_val
                                          | _ => false
                                          end) s)).

Definition sum_Z (l : list Z) : Z := fold_left Z.add l 0%Z.

(** [fix_data_typos(df, column, corrections)] *)
Definition fix_data_typos (df : DataFrame) (column : string)
    (corrections : list (string * string)) : M (DataFrame * string) :=
  TRY
    if negb (PyStr.mem column (columns_of df)) then
      ret (df, "Error: Column '" ++ column ++ "' not found")
    else
      let rows_before := len df in
      let cols_before := len_columns df in
      let df_result := copy df in
      df_result <- call (assign_converted df_result column
                           (fun s => Ok (replace_values corrections s))) ;;
      let rows_after := len df_result in
      let cols_after := len_columns df_result in
      it <- call (getitem df column) ;;
      let changes_made :=
        match it with
        | ItemSeries s =>
            PyStr.of_Z (sum_Z (map (fun kv => count_equal s (fst kv)) corrections))
        | ItemFrame cols =>
            match corrections with
            | [] => "0"
            | _ => counts_str
                     (map (fun s => sum_Z (map (fun kv => count_equal s (fst kv)) corrections))
                          cols)
            end
        end in
      let details :=
        "Fixed data typos in '" ++ column ++ "': " ++ PyStr.repr_dict corrections
        ++ " (" ++ changes_made ++ " values changed)" in
      log_transformation "FIX_DATA_TYPOS" details
        rows_before rows_after cols_before cols_after ;;
      let message :=
        "Successfully fixed " ++ PyStr.of_nat (List.length corrections)
        ++ " typos in column '" ++ column ++ "' (" ++ changes_made ++ " values changed)" in
      ret (df_result, message)
  EXCEPT e =>
    let error_msg := "Error fixing data typos: " ++ exc_str e in
    log_etl_step "ERROR" error_msg ;;
    ret (df, error_msg).

(** The dict [suggest_typo_fixes] returns. *)
Record suggestions : Type := mkSuggestions {
  column_suggestions : list (string * list string);
  data_suggestions : list (string * list string)
}.

(** [d[k] = v] on a dict kept in insertion order. *)
Fixpoint dict_set (d : list (string * list string)) (k : string) (v : list string)
  : list (string * list string) :=
  match d with
  | [] => [(k, v)]
  | (k', v') :: d' => if String.eqb k' k then (k', v) :: d' else (k', v') :: dict_set d' k v
  end.

Definition common_words : list string :=
  ["name"; "id"; "date"; "time"; "price"; "amount"; "count"; "total"; "value"; "description"].

(** The loop over [df.columns] of [suggest_typo_fixes]. *)
Definition suggest_column (found : list (string * list string)) (col : string)
  : list (string * list string) :=
  let matches := Difflib.get_close_matches (PyStr.lower col) common_words 3 Difflib.cutoff_06 in
  match matches with
  | _ :: _ =>
      if negb (PyStr.mem (PyStr.lower col) common_words)
      then dict_set found col matches
      else found
  | [] => found
  end.

Definition suggest_columns (df : DataFrame) : list (string * list string) :=
  fold_left suggest_column (columns_of df) [].

(** The loop over the distinct values of a text column. *)
Definition suggest_value (counts : list (value * nat)) (found : list (string * list string))
    (entry : value * nat) : list (string * list string) :=
  if (snd entry <=? 2)%nat then
    let matches :=
      Difflib.get_close_matches (str_value (fst entry))
        (map (fun p => str_value (fst p)) (filter (fun p => (2 <? snd p)%nat) counts))
        2 Difflib.cutoff_08 in
    match matches with
    | _ :: _ => dict_set found (str_value (fst entry)) matches
    | [] => found
    end
  else found.

(** [suggest_typo_fixes(df, column=None)] *)
Definition suggest_typo_fixes (df : DataFrame) (column : option string) : M suggestions :=
  let suggestions := {| column_suggestions := []; data_suggestions := [] |} in
  TRY
    let for_columns :=
      match column with
      | None => suggest_columns df
      | Some _ => []
      end in
    for_data <-
      match column with
      | Some c =>
          if negb (String.eqb c "") && PyStr.mem c (columns_of df) then
            it <- call (getitem df c) ;;
            match it with
            | ItemSeries s =>
                if is_object_dtype s
                then ret (fold_left (suggest_value (value_counts s)) (value_counts s) [])
                else ret []
            | ItemFrame _ =>
                raise (Exc (mkExc AttributeError "'DataFrame' object has no attribute 'dtype'"))
            end
          else ret []
      | None => ret []
      end ;;
    ret {| column_suggestions := for_columns; data_suggestions := for_data |}
  EXCEPT e =>
    log_etl_step "ERROR" ("Error suggesting typo fixes: " ++ exc_str e) ;;
    ret suggestions.

(* ------------------------------------------------------------------ *)
(** ** What an invocation leaves behind *)
(* ------------------------------------------------------------------ *)

(** The state after [logger.log_etl_step] and after [log_transformation]. *)
Definition logged (step message : string) (w : World) : World :=
  {| transformation_history := transformation_history w;
     logger_lines := logger_lines w ++ ["[" ++ PyStr.upper step ++ "] " ++ message];
     clock := clock w |}.

Definition new_record (w : World) (operation details : string)
    (rows_before rows_after cols_before cols_after : Z) : HistoryRecord :=
  {| timestamp := clock w;
     operation := operation;
     details := details;
     rows_before := rows_before;
     rows_after := rows_after;
     cols_before := cols_before;
     cols_after := cols_after;
     rows_changed := rows_after - rows_before;
     cols_changed := cols_after - cols_before |}.

Definition recorded (operation details : string)
    (rows_before rows_after cols_before cols_after : Z) (w : World) : World :=
  logged "TRANSFORM" (operation ++ ": " ++ details)
    {| transformation_history :=
         transformation_history w
         ++ [new_record w operation details rows_before rows_after cols_before cols_after];
       logger_lines := logger_lines w;
       clock := clock w |}.

(** The three ways a Catalog operation on [df] ends when nothing escapes it:
    a validation return, the handler of its [try], or the normal end after
    [log_transformation]. *)
Inductive contained (context : string) (df : DataFrame) (w : World)
  : outcome (DataFrame * string) * World -> Prop :=
| contained_rejected : forall message,
    contained context df w (Return (df, message), w)
| contained_caught : forall e,
    contained context df w
      (Return (df, context ++ exc_str e), logged "ERROR" (context ++ exc_str e) w)
| contained_applied : forall df_result message operation details,
    contained context df w
      (Return (df_result, message),
       recorded operation details
         (len df) (len df_result) (len_columns df) (len_columns df_result) w).

(** The row/column accounting of the ledger over one invocation: nothing is
    appended, or one record whose figures are those of the input and of the
    returned table. *)
Definition accounted (df : DataFrame) (w : World)
    (out : outcome (DataFrame * string) * World) : Prop :=
  match out with
  | (Return (df_result, _), w') =>
      transformation_history w' = transformation_history w
      \/ exists r,
           transformation_history w' = (transformation_history w ++ [r])%list
           /\ rows_before r = len df
           /\ cols_before r = len_columns df
           /\ rows_after r = len df_result
           /\ cols_after r = len_columns df_result
           /\ rows_changed r = (rows_after r - rows_before r)%Z
           /\ cols_changed r = (cols_after r - cols_before r)%Z
  | (Raise _, w') => transformation_history w' = transformation_history w
  end.

(** The handler ran: the logger got an [ERROR] line. *)
Definition error_logged (w w' : World) : Prop :=
  exists message : string,
    logger_lines w' = (logger_lines w ++ [("[ERROR] " ++ message)%string])%list.

(* ------------------------------------------------------------------ *)
(** ** Every operation is contained *)
(* ------------------------------------------------------------------ *)

Unset Implicit Arguments.

Lemma log_etl_step_eq (step message : string) (w : World) :
  log_etl_step step message w = (Return tt, logged step message w).
Proof. reflexivity. Qed.

Lemma log_transformation_eq (operation details : string)
    (rows_before rows_after cols_before cols_after : Z) (w : World) :
  log_transformation operation details rows_before rows_after cols_before cols_after w
  = (Return tt, recorded operation details rows_before rows_after cols_before cols_after w).
Proof. reflexivity. Qed.

(** Running a method symbolically: the monad is unfolded, the two logging
    calls are replaced by their effect, and every branch is followed. *)
Ltac branch_free x :=
  lazymatch x with
  | context [match _ with _ => _ end] => fail
  | _ => idtac
  end.

Ltac run_step :=
  first
    [ rewrite log_transformation_eq
    | rewrite log_etl_step_eq
    | progress cbv beta iota delta [try_except bind call ret raise local copy]
    | progress cbn [fst snd]
    | match goal with
      | |- context [match ?x with _ => _ end] => branch_free x; destruct x eqn:?
      end ].

Ltac run := repeat run_step.

Ltac close_contained :=
  solve [ apply contained_rejected
        | apply contained_caught
        | apply contained_applied ].

Lemma remove_duplicates_contained df columns keep w :
  contained "Error removing duplicates: " df w (remove_duplicates df columns keep w).
Proof.
  unfold remove_duplicates. run; close_contained.
Qed.

Lemma handle_missing_values_contained df method columns fill_value w :
  contained "Error handling missing values: " df w
    (handle_missing_values df method columns fill_value w).
Proof.
  unfold handle_missing_values. run; close_contained.
Qed.

Lemma filter_data_contained df column operator value0 w :
  contained "Error filtering data: " df w (filter_data df column operator value0 w).
Proof.
  unfold filter_data. run; close_contained.
Qed.

Lemma sort_data_contained df columns ascending w :
  contained "Error sorting data: " df w (sort_data df columns ascending w).
Proof.
  unfold sort_data. run; close_contained.
Qed.

Lemma rename_columns_contained df column_mapping w :
  contained "Error renaming columns: " df w (rename_columns df column_mapping w).
Proof.
  unfold rename_columns. run; close_contained.
Qed.

Lemma drop_columns_contained df columns w :
  contained "Error dropping columns: " df w (drop_columns df columns w).
Proof.
  unfold drop_columns. run; close_contained.
Qed.

Lemma convert_data_types_contained df type_mapping w :
  contained "Error converting data types: " df w (convert_data_types df type_mapping w).
Proof.
  unfold convert_data_types. run; close_contained.
Qed.

Lemma text_operations_contained df column operation kwargs w :
  contained "Error in text operation: " df w (text_operations df column operation kwargs w).
Proof.
  unfold text_operations. run; close_contained.
Qed.

Lemma fix_column_typos_contained df corrections w :
  contained "Error fixing column typos: " df w (fix_column_typos df corrections w).
Proof.
  unfold fix_column_typos. run; close_contained.
Qed.

Lemma fix_data_typos_contained df column corrections w :
  contained "Error fixing data typos: " df w (fix_data_typos df column corrections w).
Proof.
  unfold fix_data_typos. run; close_contained.
Qed.

(** [create_calculated_column] is contained unless the evaluated expression
    raises outside [Exception]; then that goes to the caller, the state as it
    was. *)
Definition escaped (w : World) (out : outcome (DataFrame * string) * World) : Prop :=
  exists r, out = (Raise r, w) /\ forall e, r <> Exc e.

Lemma create_calculated_column_contained df new_column expression w :
  contained "Error creating calculated column: " df w
    (create_calculated_column df new_column expression w)
  \/ escaped w (create_calculated_column df new_column expression w).
Proof.
  unfold create_calculated_column. run;
    first [ left; close_contained
          | right; eexists; split; [reflexivity | intros e' H; discriminate H] ].
Qed.

(** What follows from being contained. *)
Lemma contained_returns context df w out :
  contained context df w out ->
  exists df_result message w', out = (Return (df_result, message), w').
Proof.
  intros H; destruct H; eauto.
Qed.

Lemma contained_accounted context df w out :
  contained context df w out -> accounted df w out.
Proof.
  intros H; destruct H; simpl.
  - now left.
  - now left.
  - right. eexists. split; [reflexivity|]. simpl. repeat split; reflexivity.
Qed.

Lemma app_one_neq {A : Type} (l : list A) (x : A) : l <> (l ++ [x])%list.
Proof.
  intros H. apply (f_equal (@List.length A)) in H.
  rewrite List.length_app in H. simpl in H. lia.
Qed.

Lemma contained_error_logged context df w out :
  contained context df w out ->
  error_logged w (snd out) ->
  transformation_history (snd out) = transformation_history w
  /\ exists e, out = (Return (df, context ++ exc_str e), logged "ERROR" (context ++ exc_str e) w).
Proof.
  intros H [m Hm]; destruct H; simpl in *.
  - exfalso. exact (app_one_neq _ _ Hm).
  - split; [reflexivity | eauto].
  - exfalso. apply app_inv_head in Hm. discriminate Hm.
Qed.

Lemma escaped_accounted df w out : escaped w out -> accounted df w out.
Proof.
  intros [r [-> _]]. reflexivity.
Qed.

Lemma create_calculated_column_escapes df new_column expression w r w' :
  create_calculated_column df new_column expression w = (Raise r, w') ->
  py_eval (rewrite_expression (columns_of df) expression) df df = Raise r
  /\ (forall e, r <> Exc e) /\ w' = w.
Proof.
  unfold create_calculated_column. run; intros H; inversion H; subst;
    repeat split; try reflexivity; intros e' He; discriminate He.
Qed.

(* ------------------------------------------------------------------ *)
(** ** Validation returns *)
(* ------------------------------------------------------------------ *)

Lemma not_in_columns_spec df cols c :
  In c (not_in_columns df cols) <-> In c cols /\ ~ In c (columns_of df).
Proof.
  unfold not_in_columns. rewrite filter_In. unfold PyStr.mem.
  split; intros [H1 H2]; split; auto.
  - intros Hin. rewrite negb_true_iff in H2.
    assert (existsb (String.eqb c) (columns_of df) = true); [|congruence].
    apply existsb_exists. exists c. split; [exact Hin | apply String.eqb_refl].
  - rewrite negb_true_iff. destruct (existsb (String.eqb c) (columns_of df)) eqn:E; auto.
    apply existsb_exists in E. destruct E as [x [Hx Hc]].
    apply String.eqb_eq in Hc. subst x. contradiction.
Qed.

Lemma sort_data_invalid df columns ascending w :
  not_in_columns df columns <> [] ->
  sort_data df columns ascending w
  = (Return (df, "Columns not found: " ++ PyStr.join ", " (not_in_columns df columns)), w).
Proof.
  intros H. unfold sort_data. run; congruence.
Qed.

Lemma sort_data_length_mismatch df columns flags w :
  not_in_columns df columns = [] ->
  List.length flags <> List.length columns ->
  sort_data df columns (Some flags) w
  = (Return (df, "Length of ascending list must match columns list"), w).
Proof.
  intros H1 H2. unfold sort_data. rewrite H1.
  apply Nat.eqb_neq in H2. rewrite H2. reflexivity.
Qed.

Lemma rename_columns_invalid df column_mapping w :
  not_in_columns df (map fst column_mapping) <> [] ->
  rename_columns df column_mapping w
  = (Return (df, "Columns not found: "
                 ++ PyStr.join ", " (not_in_columns df (map fst column_mapping))), w).
Proof.
  intros H. unfold rename_columns. run; congruence.
Qed.

Lemma drop_columns_invalid df columns w :
  not_in_columns df columns <> [] ->
  drop_columns df columns w
  = (Return (df, "Columns not found: " ++ PyStr.join ", " (not_in_columns df columns)), w).
Proof.
  intros H. unfold drop_columns. run; congruence.
Qed.

Lemma fix_column_typos_invalid df corrections w :
  not_in_columns df (map fst corrections) <> [] ->
  fix_column_typos df corrections w
  = (Return (df, "Error: Columns not found: "
                 ++ PyStr.join ", " (not_in_columns df (map fst corrections))), w).
Proof.
  intros H. unfold fix_column_typos. run; congruence.
Qed.

Lemma filter_data_missing_column df column operator value0 w :
  PyStr.mem column (columns_of df) = false ->
  filter_data df column operator value0 w
  = (Return (df, "Column '" ++ column ++ "' not found in DataFrame"), w).
Proof.
  intros H. unfold filter_data. rewrite H. reflexivity.
Qed.

Definition known_operator (operator : string) : bool :=
  PyStr.mem operator ["=="; "!="; ">"; "<"; ">="; "<="; "contains"; "startswith"; "endswith"].

Lemma filter_data_unknown_operator df column operator value0 w :
  PyStr.mem column (columns_of df) = true ->
  known_operator operator = false ->
  filter_data df column operator value0 w
  = (Return (df, "Unsupported operator: " ++ operator), w).
Proof.
  intros H1 H2. unfold filter_data. rewrite H1.
  unfold known_operator, PyStr.mem in H2. simpl in H2.
  repeat (apply orb_false_elim in H2; destruct H2 as [?E H2]).
  rewrite E, E0, E1, E2, E3, E4, E5, E6, E7.
  reflexivity.
Qed.

Lemma text_operations_missing_column df column operation kwargs w :
  PyStr.mem column (columns_of df) = false ->
  text_operations df column operation kwargs w
  = (Return (df, "Column '" ++ column ++ "' not found"), w).
Proof.
  intros H. unfold text_operations. rewrite H. reflexivity.
Qed.

Definition known_text_operation (operation : string) : bool :=
  PyStr.mem operation ["upper"; "lower"; "title"; "strip"; "replace"; "extract"].

Lemma text_operations_unsupported df column operation kwargs w :
  PyStr.mem column (columns_of df) = true ->
  known_text_operation operation = false ->
  text_operations df column operation kwargs w
  = (Return (df, "Unsupported text operation: " ++ operation), w).
Proof.
  intros H1 H2. unfold text_operations. rewrite H1.
  unfold known_text_operation, PyStr.mem in H2. simpl in H2.
  repeat (apply orb_false_elim in H2; destruct H2 as [?E H2]).
  rewrite E, E0, E1, E2, E3, E4.
  reflexivity.
Qed.

Lemma fix_data_typos_missing_column df column corrections w :
  PyStr.mem column (columns_of df) = false ->
  fix_data_typos df column corrections w
  = (Return (df, "Error: Column '" ++ column ++ "' not found"), w).
Proof.
  intros H. unfold fix_data_typos. rewrite H. reflexivity.
Qed.

(** A message names a column when the column's name occurs in it. *)
Definition mentions (message name : string) : Prop := PyStr.contains message name = true.

Lemma prefix_append (c b : string) : String.prefix c (c ++ b) = true.
Proof.
  induction c as [|a c IH]; simpl; [now destruct b|].
  destruct (ascii_dec a a); [exact IH | congruence].
Qed.

Lemma contains_unfold (s sub : string) :
  PyStr.contains s sub
  = if String.prefix sub s then true
    else match s with
         | EmptyString => false
         | String _ s' => PyStr.contains s' sub
         end.
Proof. destruct s; reflexivity. Qed.

Lemma append_assoc (a b c : string) : ((a ++ b) ++ c)%string = (a ++ (b ++ c))%string.
Proof.
  induction a as [|x a IH]; simpl; [reflexivity | now rewrite IH].
Qed.

Lemma append_empty_r (s : string) : (s ++ "")%string = s.
Proof.
  induction s as [|x s IH]; simpl; [reflexivity | now rewrite IH].
Qed.

Lemma contains_append (a c b : string) : PyStr.contains (a ++ c ++ b) c = true.
Proof.
  induction a as [|x a IH].
  - change ("" ++ c ++ b)%string with (c ++ b)%string.
    rewrite contains_unfold, prefix_append. reflexivity.
  - change (String x a ++ c ++ b)%string with (String x (a ++ c ++ b)).
    rewrite contains_unfold, IH.
    now destruct (String.prefix c (String x (a ++ c ++ b))).
Qed.

Lemma join_mentions (sep : string) (l : list string) (c : string) :
  In c l -> exists a b, PyStr.join sep l = (a ++ c ++ b)%string.
Proof.
  unfold PyStr.join. induction l as [|x l IH]; intros Hin; [contradiction|].
  destruct Hin as [-> | Hin].
  - destruct l as [|y l].
    + exists "", "". simpl. now rewrite append_empty_r.
    + exists "", (sep ++ String.concat sep (y :: l)). reflexivity.
  - destruct l as [|y l]; [contradiction|].
    destruct (IH Hin) as [a [b E]].
    exists (x ++ sep ++ a), b.
    change (String.concat sep (x :: y :: l))
      with (x ++ sep ++ String.concat sep (y :: l)).
    rewrite E, !append_assoc. reflexivity.
Qed.

Lemma listing_mentions (head sep : string) (l : list string) (c : string) :
  In c l -> mentions (head ++ PyStr.join sep l) c.
Proof.
  intros Hin. destruct (join_mentions sep l c Hin) as [a [b E]].
  unfold mentions. rewrite E, <- append_assoc. apply contains_append.
Qed.

Lemma unique_nonempty (l : list string) : l <> [] -> unique l <> [].
Proof.
  destruct l as [|x l]; [congruence|]. intros _. unfold unique. simpl. discriminate.
Qed.

Lemma getitem_list_missing df keys :
  not_in_columns df keys <> [] ->
  getitem_list df keys = Err (missing_key_error df keys).
Proof.
  intros H. unfold getitem_list.
  destruct keys as [|k keys]; [now contradiction H|].
  pose proof (unique_nonempty _ H) as Hu.
  destruct (unique (not_in_columns df (k :: keys))); [congruence | reflexivity].
Qed.

Lemma handle_missing_values_missing df method cols fill_value w :
  not_in_columns df cols <> [] ->
  let error_msg :=
    "Error handling missing values: " ++ exc_str (missing_key_error df cols) in
  handle_missing_values df method (Some cols) fill_value w
  = (Return (df, error_msg), logged "ERROR" error_msg w).
Proof.
  intros H. unfold handle_missing_values.
  destruct cols as [|c cols]; [now contradiction H|].
  cbv beta iota delta [try_except bind call ret raise local copy].
  rewrite (getitem_list_missing _ _ H). reflexivity.
Qed.

Lemma remove_duplicates_missing df cols keep w :
  empty df = false ->
  not_in_columns df cols <> [] ->
  let error_msg :=
    "Error removing duplicates: "
    ++ index_repr (set_order (unique (not_in_columns df cols))) in
  remove_duplicates df (Some cols) keep w
  = (Return (df, error_msg), logged "ERROR" error_msg w).
Proof.
  intros He H. unfold remove_duplicates.
  destruct cols as [|c cols]; [now contradiction H|].
  cbv beta iota delta [try_except bind call ret raise local copy].
  unfold drop_duplicates. rewrite He.
  pose proof (unique_nonempty _ H) as Hu.
  destruct (unique (not_in_columns df (c :: cols))) eqn:E; [congruence|].
  reflexivity.
Qed.

(** An empty frame is returned as it is, whatever the key columns. *)
Lemma remove_duplicates_empty df columns keep w :
  empty df = true ->
  exists details,
    remove_duplicates df columns keep w
    = (Return (df, "Removed 0 duplicate rows"),
       recorded "REMOVE_DUPLICATES" details (len df) (len df)
         (len_columns df) (len_columns df) w).
Proof.
  intros He. unfold remove_duplicates, drop_duplicates. rewrite He.
  assert (Hz : PyStr.of_Z (len df - len df) = "0") by (rewrite Z.sub_diag; reflexivity).
  destruct columns as [[|c cols]|]; eexists;
    cbv beta iota delta [try_except bind call ret raise local copy];
    rewrite log_transformation_eq; cbn [fst snd]; rewrite ?Hz; reflexivity.
Qed.

Definition known_method (method : string) : bool :=
  PyStr.mem method
    ["drop"; "fill_mean"; "fill_median"; "fill_mode"; "fill_value";
     "forward_fill"; "backward_fill"].

Definition target_columns_of (df : DataFrame) (columns : option (list string)) : list string :=
  match columns with
  | Some ((_ :: _) as cols) => cols
  | _ => columns_of df
  end.

(** With a method that is none of the seven, [details] is never assigned: the
    call to [log_transformation] raises [UnboundLocalError], unless reading
    the target columns has raised before. *)
Lemma handle_missing_values_unknown_method df method columns fill_value w :
  known_method method = false ->
  let e :=
    match getitem_list df (target_columns_of df columns) with
    | Err e => e
    | Ok _ => mkExc UnboundLocalError (unbound_local_text "details")
    end in
  handle_missing_values df method columns fill_value w
  = (Return (df, "Error handling missing values: " ++ exc_str e),
     logged "ERROR" ("Error handling missing values: " ++ exc_str e) w).
Proof.
  intros H. unfold known_method, PyStr.mem in H. simpl in H.
  repeat (apply orb_false_elim in H; destruct H as [?E H]).
  unfold handle_missing_values, target_columns_of.
  rewrite E, E0, E1, E2, E3, E4, E5.
  cbv beta iota delta [try_except bind call ret raise local copy].
  cbn [fst snd].
  destruct columns as [[|c cols]|];
    match goal with
    | |- context [getitem_list df ?k] => destruct (getitem_list df k) eqn:G
    end; reflexivity.
Qed.

(** [convert_data_types] has no validation return and nothing in its body
    raises: it always ends after [log_transformation]. *)
Lemma convert_data_types_applied df type_mapping w :
  exists df_result message details,
    convert_data_types df type_mapping w
    = (Return (df_result, message),
       recorded "CONVERT_TYPES" details
         (len df) (len df_result) (len_columns df) (len_columns df_result) w).
Proof.
  unfold convert_data_types.
  cbv beta iota delta [try_except bind call ret raise local copy].
  rewrite log_transformation_eq. cbn [fst snd].
  eexists _, _, _. reflexivity.
Qed.

Lemma recorded_history operation details rb ra cb ca w :
  transformation_history (recorded operation details rb ra cb ca w)
  = (transformation_history w ++ [new_record w operation details rb ra cb ca])%list.
Proof. reflexivity. Qed.

(** The handler ran only if nothing was appended, and then the input table
    comes back. *)
Definition handler_keeps_ledger (df : DataFrame) (w : World)
    (out : outcome (DataFrame * string) * World) : Prop :=
  error_logged w (snd out) ->
  transformation_history (snd out) = transformation_history w
  /\ exists message, fst out = Return (df, message).

Lemma contained_handler context df w out :
  contained context df w out -> handler_keeps_ledger df w out.
Proof.
  intros H He. destruct (contained_error_logged _ _ _ _ H He) as [Hh [e ->]].
  split; [exact Hh | eexists; reflexivity].
Qed.

Lemma escaped_handler df w out : escaped w out -> handler_keeps_ledger df w out.
Proof.
  intros [r [-> _]] [m Hm]. simpl in Hm. exfalso. exact (app_one_neq _ _ Hm).
Qed.

(* ------------------------------------------------------------------ *)
(** ** The operation result protocol and the ledger *)
(* ------------------------------------------------------------------ *)




(** A message names every missing column: each column asked for that the
    table lacks occurs in it. *)
Definition names_every_missing (df : DataFrame) (cols : list string) (message : string) : Prop :=
  forall c, In c cols -> ~ In c (columns_of df) -> mentions message c.

Lemma listing_names_every_missing df cols head :
  names_every_missing df cols (head ++ PyStr.join ", " (not_in_columns df cols)).
Proof.
  intros c Hin Hnot. apply listing_mentions. apply not_in_columns_spec. now split.
Qed.

(** C2 (amended).  [sort_data], [rename_columns], [drop_columns] and
    [fix_column_typos] check the columns they are given before anything else:
    when one is absent they return the input table, with the state untouched,
    and a message that names every missing column.  [handle_missing_values]
    with a column list and [remove_duplicates] with key columns do not check:
    pandas raises a [KeyError], the handler returns the input table and
    appends nothing; the message of [handle_missing_values] carries the list
    of all missing labels (or, when none of the labels is a column, pandas'
    rendering of all the labels asked for), that of [remove_duplicates]
    pandas' rendering of the missing labels, and [remove_duplicates] does so
    on a table that has a row and a column.  [filter_data],
    [text_operations] and [fix_data_typos] check their one column in the same
    way, and their message names it. *)
Theorem missing_columns_return_input_table :
  (forall df columns ascending w,
      not_in_columns df columns <> [] ->
      exists message,
        sort_data df columns ascending w = (Return (df, message), w)
        /\ names_every_missing df columns message)
  /\ (forall df column_mapping w,
         not_in_columns df (map fst column_mapping) <> [] ->
         exists message,
           rename_columns df column_mapping w = (Return (df, message), w)
           /\ names_every_missing df (map fst column_mapping) message)
  /\ (forall df columns w,
         not_in_columns df columns <> [] ->
         exists message,
           drop_columns df columns w = (Return (df, message), w)
           /\ names_every_missing df columns message)
  /\ (forall df corrections w,
         not_in_columns df (map fst corrections) <> [] ->
         exists message,
           fix_column_typos df corrections w = (Return (df, message), w)
           /\ names_every_missing df (map fst corrections) message)
  /\ (forall df method cols fill_value w,
         not_in_columns df cols <> [] ->
         let error_msg :=
           "Error handling missing values: " ++ exc_str (missing_key_error df cols) in
         handle_missing_values df method (Some cols) fill_value w
         = (Return (df, error_msg), logged "ERROR" error_msg w))
  /\ (forall df cols keep w,
         empty df = false ->
         not_in_columns df cols <> [] ->
         let error_msg :=
           "Error removing duplicates: "
           ++ index_repr (set_order (unique (not_in_columns df cols))) in
         remove_duplicates df (Some cols) keep w
         = (Return (df, error_msg), logged "ERROR" error_msg w))
  /\ (forall df column operator value0 w,
         PyStr.mem column (columns_of df) = false ->
         exists message,
           filter_data df column operator value0 w = (Return (df, message), w)
           /\ mentions message column)
  /\ (forall df column operation kwargs w,
         PyStr.mem column (columns_of df) = false ->
         exists message,
           text_operations df column operation kwargs w = (Return (df, message), w)
           /\ mentions message column)
  /\ (forall df column corrections w,
         PyStr.mem column (columns_of df) = false ->
         exists message,
           fix_data_typos df column corrections w = (Return (df, message), w)
           /\ mentions message column).
Proof.
  repeat match goal with |- _ /\ _ => split end;
    try (intros; eexists; split;
         [ first [ apply filter_data_missing_column
                 | apply text_operations_missing_column
                 | apply fix_data_typos_missing_column ]; assumption
         | apply contains_append ]).
  - intros df columns ascending w H. eexists. split.
    + apply sort_data_invalid, H.
    + apply listing_names_every_missing.
  - intros df column_mapping w H. eexists. split.
    + apply rename_columns_invalid, H.
    + apply listing_names_every_missing.
  - intros df columns w H. eexists. split.
    + apply drop_columns_invalid, H.
    + apply listing_names_every_missing.
  - intros df corrections w H. eexists. split.
    + apply fix_column_typos_invalid, H.
    + apply listing_names_every_missing.
  - apply handle_missing_values_missing.
  - apply remove_duplicates_missing.
Qed.


(* ------------------------------------------------------------------ *)
(** ** Text operations and string filters *)
(* ------------------------------------------------------------------ *)

Definition case_operation (operation : string) : bool :=
  PyStr.mem operation ["upper"; "lower"; "title"; "strip"].

(** The string method behind each of the four operations. *)
Definition case_map (operation : string) : string -> string :=
  if String.eqb operation "upper" then PyStr.upper
  else if String.eqb operation "lower" then PyStr.lower
  else if String.eqb operation "title" then PyStr.title
  else PyStr.strip.

Lemma lookup_all_setitem df c s :
  PyStr.mem c (columns_of df) = true ->
  lookup_all (setitem df c s) c = map (fun _ => s) (lookup_all df c).
Proof.
  intros H. unfold setitem, lookup_all. rewrite H. simpl.
  induction (data df) as [|[n x] l IH]; simpl; [reflexivity|].
  destruct (String.eqb n c) eqn:E; simpl; rewrite E; simpl; now rewrite IH.
Qed.

Lemma column_texts_series df column texts :
  column_texts df column = Ok texts ->
  exists s, lookup_all df column = [s] /\ texts = map str_value s.
Proof.
  unfold column_texts, getitem. intros H.
  destruct (lookup_all df column) as [|s [|s' l]]; simpl in H; try discriminate H.
  inversion H. eauto.
Qed.

Lemma case_operation_cases operation :
  case_operation operation = true ->
  operation = "upper" \/ operation = "lower" \/ operation = "title" \/ operation = "strip".
Proof.
  unfold case_operation, PyStr.mem. simpl. intros H.
  repeat (apply orb_prop in H; destruct H as [H | H]);
    try (apply String.eqb_eq in H; subst; tauto).
  discriminate H.
Qed.

(** A [text_operations] call with one of the four case operations that ends
    normally has replaced the one column of that name by the texts of its
    cells, each through the operation's string method. *)
Lemma text_operations_case_applied df column operation kwargs w df_result message w' :
  case_operation operation = true ->
  text_operations df column operation kwargs w = (Return (df_result, message), w') ->
  transformation_history w' <> transformation_history w ->
  exists s,
    lookup_all df column = [s]
    /\ lookup_all df_result column
       = [map (fun v => VStr (case_map operation (str_value v))) s].
Proof.
  intros Hop H Hh.
  destruct (case_operation_cases _ Hop) as [-> | [-> | [-> | ->]]];
    unfold text_operations in H; revert H; run; intros H; inversion H; subst;
    try (exfalso; apply Hh; reflexivity);
    try match goal with
        | E : String.eqb _ _ = _ |- _ => vm_compute in E; discriminate E
        end;
    match goal with
    | Ht : column_texts df column = Ok ?texts, Hm : negb _ = false |- _ =>
        apply negb_false_iff in Hm;
        destruct (column_texts_series _ _ _ Ht) as [s [Hs ->]];
        exists s; split; [exact Hs|];
        rewrite lookup_all_setitem by exact Hm; rewrite Hs; simpl;
        rewrite map_map; reflexivity
    end.
Qed.

(** C10.  After a [text_operations] call with [upper], [lower], [title] or
    [strip] that ends normally, the target column holds no null: every cell,
    a missing one too, has become the text of the cell put through the
    operation's string method, and the text of a missing cell is [nan]
    ([None], [NaT], [<NA>] for the other kinds of missing value). *)
Theorem text_case_operations_materialize_nulls :
  forall df column operation kwargs w df_result message w',
    case_operation operation = true ->
    text_operations df column operation kwargs w = (Return (df_result, message), w') ->
    transformation_history w' <> transformation_history w ->
    (exists s,
        lookup_all df column = [s]
        /\ lookup_all df_result column
           = [map (fun v => VStr (case_map operation (str_value v))) s])
    /\ (forall s, In s (lookup_all df_result column) -> forall v, In v s -> isnull v = false)
    /\ str_value (VNull NaN) = "nan"
    /\ str_value (VNull PyNone) = "None"
    /\ str_value (VNull NaT) = "NaT"
    /\ str_value (VNull NA) = "<NA>".
Proof.
  intros df column operation kwargs w df_result message w' Hop H Hh.
  destruct (text_operations_case_applied _ _ _ _ _ _ _ _ Hop H Hh) as [s [Hs Hr]].
  split; [exists s; now split|].
  split; [|repeat split; reflexivity].
  intros s' Hin v Hv. rewrite Hr in Hin. destruct Hin as [<- | []].
  apply in_map_iff in Hv. destruct Hv as [x [<- _]]. reflexivity.
Qed.

(** A string filter keeps the rows whose text, as [astype(str)] renders the
    cell, passes the test; the rendering of a missing cell is a text like any
    other. *)
Lemma select_text_rows test df column value0 s :
  lookup_all df column = [s] ->
  select_text test df column value0
  = match test (map str_value s) (str_value value0) with
    | Ok mask => Ok (mask_rows df mask)
    | Err e => Err e
    end.
Proof.
  intros H. unfold select_text, getitem. rewrite H. reflexivity.
Qed.

(** C7 (the code at the failing input).  [filter_data(people, 'name',
    'startswith', 'n')] keeps the row whose name is missing: [astype(str)] has
    made the text [nan] of it, which starts with [n], and [na=False] finds no
    missing value left to exclude. *)
Theorem startswith_filter_keeps_null_row :
  forall w,
    filter_data people "name" "startswith" (VStr "n") w
    = (Return ({| index := [0; 1]%Z; data := [("name", [VStr "nancy"; VNull NaN])] |},
               "Filtered to 2 rows where Column 'name' startswith 'n'"),
       recorded "FILTER_DATA" "Column 'name' startswith 'n'" 3 2 1 1 w).
Proof.
  intros w. reflexivity.
Qed.

(* ------------------------------------------------------------------ *)
(** ** Type conversion, column by column *)
(* ------------------------------------------------------------------ *)

Definition conversion_message (st : conversion_state) : string :=
  let message :=
    "Successfully converted "
    ++ PyStr.of_nat (List.length (successful_conversions st)) ++ " columns" in
  match conversion_errors st with
  | _ :: _ => message ++ ". Errors: " ++ PyStr.join "; " (conversion_errors st)
  | [] => message
  end.

Lemma convert_data_types_eq df type_mapping w :
  let st := conversions df type_mapping in
  convert_data_types df type_mapping w
  = (Return (converted_frame st, conversion_message st),
     recorded "CONVERT_TYPES"
       ("Converted " ++ PyStr.of_nat (List.length (successful_conversions st)) ++ " columns")
       (len df) (len (converted_frame st))
       (len_columns df) (len_columns (converted_frame st)) w).
Proof.
  unfold convert_data_types, conversion_message.
  cbv beta iota zeta delta [try_except bind call ret raise local copy].
  rewrite log_transformation_eq. cbn [fst snd].
  destruct (conversion_errors (conversions df type_mapping)); reflexivity.
Qed.

(** Columns under another label are out of reach of an assignment. *)
Lemma lookup_all_setitem_other df c s c' :
  c' <> c -> lookup_all (setitem df c s) c' = lookup_all df c'.
Proof.
  intros Hne. unfold setitem, lookup_all.
  assert (Hc : String.eqb c c' = false) by (apply String.eqb_neq; congruence).
  destruct (PyStr.mem c (columns_of df)); simpl.
  - induction (data df) as [|[n x] l IH]; simpl; [reflexivity|].
    destruct (String.eqb n c) eqn:E; simpl.
    + apply String.eqb_eq in E. subst n. rewrite Hc. exact IH.
    + destruct (String.eqb n c'); simpl; now rewrite IH.
  - rewrite filter_app, map_app. simpl. rewrite Hc. simpl. now rewrite app_nil_r.
Qed.

Lemma columns_of_setitem df c s :
  PyStr.mem c (columns_of df) = true -> columns_of (setitem df c s) = columns_of df.
Proof.
  intros H. unfold setitem, columns_of in *. rewrite H. simpl.
  rewrite map_map. apply map_ext. intros [n x]. simpl.
  destruct (String.eqb n c); reflexivity.
Qed.

Lemma assign_each_names cols c news : map fst (assign_each cols c news) = map fst cols.
Proof.
  revert news. induction cols as [|[n x] l IH]; intros news; simpl; [reflexivity|].
  destruct (String.eqb n c); [destruct news|]; simpl; now rewrite IH.
Qed.

Lemma assign_each_other cols c news c' :
  c' <> c ->
  map snd (filter (fun nc => String.eqb (fst nc) c') (assign_each cols c news))
  = map snd (filter (fun nc => String.eqb (fst nc) c') cols).
Proof.
  intros Hne. revert news. induction cols as [|[n x] l IH]; intros news; simpl; [reflexivity|].
  destruct (String.eqb n c) eqn:E.
  - apply String.eqb_eq in E. subst n.
    assert (Hc : String.eqb c c' = false) by (apply String.eqb_neq; congruence).
    destruct news; simpl; rewrite Hc; apply IH.
  - simpl. destruct (String.eqb n c'); simpl; now rewrite IH.
Qed.

Lemma assign_each_self cols c news :
  List.length news = List.length (filter (fun nc => String.eqb (fst nc) c) cols) ->
  map snd (filter (fun nc => String.eqb (fst nc) c) (assign_each cols c news)) = news.
Proof.
  revert news. induction cols as [|[n x] l IH]; intros news H; simpl in *.
  - now destruct news.
  - destruct (String.eqb n c) eqn:E; simpl in *.
    + destruct news as [|s news]; [discriminate H|]. simpl. rewrite E. simpl.
      f_equal. apply IH. now inversion H.
    + rewrite E. now apply IH.
Qed.

Lemma res_map_length {A B : Type} (f : A -> res B) (l : list A) (l' : list B) :
  res_map f l = Ok l' -> List.length l' = List.length l.
Proof.
  revert l'. induction l as [|x l IH]; intros l' H; simpl in H.
  - now inversion H.
  - destruct (f x); [|discriminate H].
    destruct (res_map f l) eqn:E; [|discriminate H].
    inversion H. simpl. f_equal. now apply IH.
Qed.

Lemma lookup_all_nonempty df c :
  PyStr.mem c (columns_of df) = true -> lookup_all df c <> [].
Proof.
  unfold PyStr.mem, columns_of, lookup_all. intros H.
  apply existsb_exists in H. destruct H as [n [Hin He]].
  apply String.eqb_eq in He. subst n.
  apply in_map_iff in Hin. destruct Hin as [[n x] [Hn Hin]]. simpl in Hn. subst n.
  intros E.
  assert (Hf : In (c, x) (filter (fun nc => String.eqb (fst nc) c) (data df))).
  { apply filter_In. split; [exact Hin | apply String.eqb_refl]. }
  destruct (filter (fun nc => String.eqb (fst nc) c) (data df)); [contradiction | discriminate E].
Qed.

Lemma assign_converted_other df c convert d c' :
  c' <> c -> assign_converted df c convert = Ok d -> lookup_all d c' = lookup_all df c'.
Proof.
  intros Hne. unfold assign_converted, getitem.
  destruct (lookup_all df c) as [|s [|s' l]]; simpl; try discriminate.
  - destruct (convert s); [|discriminate]. intros H; inversion H.
    now apply lookup_all_setitem_other.
  - destruct (convert s); [|discriminate].
    destruct (convert s'); [|discriminate].
    destruct (res_map convert l); [|discriminate].
    intros H; inversion H. unfold lookup_all. simpl. now apply assign_each_other.
Qed.

Lemma assign_converted_columns df c convert d :
  PyStr.mem c (columns_of df) = true ->
  assign_converted df c convert = Ok d -> columns_of d = columns_of df.
Proof.
  intros Hmem. unfold assign_converted, getitem.
  destruct (lookup_all df c) as [|s [|s' l]]; simpl; try discriminate.
  - destruct (convert s); [|discriminate]. intros H; inversion H.
    now apply columns_of_setitem.
  - destruct (convert s); [|discriminate].
    destruct (convert s'); [|discriminate].
    destruct (res_map convert l); [|discriminate].
    intros H; inversion H. unfold columns_of. simpl. apply assign_each_names.
Qed.

(** The outcome of a conversion as far as the column [c] goes. *)
Definition same_outcome (c : string) (r1 r2 : res DataFrame) : Prop :=
  match r1, r2 with
  | Ok d1, Ok d2 => lookup_all d1 c = lookup_all d2 c
  | Err e1, Err e2 => e1 = e2
  | _, _ => False
  end.

Lemma assign_converted_local d1 d2 c convert :
  lookup_all d1 c = lookup_all d2 c ->
  PyStr.mem c (columns_of d1) = true ->
  PyStr.mem c (columns_of d2) = true ->
  same_outcome c (assign_converted d1 c convert) (assign_converted d2 c convert).
Proof.
  intros H M1 M2. unfold assign_converted, getitem. rewrite <- H.
  destruct (lookup_all d1 c) as [|s [|s' l]] eqn:E; cbn [res_bind]; [reflexivity| |].
  - destruct (convert s); cbn [res_bind same_outcome]; [|reflexivity].
    rewrite !lookup_all_setitem by assumption. now rewrite <- H, E.
  - remember (s :: s' :: l) as cols eqn:Hcols.
    destruct (res_map convert cols) as [news|e] eqn:R;
      cbn [res_bind same_outcome]; [|reflexivity].
    apply res_map_length in R.
    unfold lookup_all in *. cbn [data].
    rewrite !assign_each_self; [reflexivity | |].
    + rewrite R, H, length_map. reflexivity.
    + rewrite R, <- E, length_map. reflexivity.
Qed.

Ltac split_target :=
  unfold convert_column;
  repeat match goal with
         | |- context [if String.eqb ?t ?k then _ else _] => destruct (String.eqb t k)
         end.

Lemma convert_column_other d c target_type d' c' :
  c' <> c -> convert_column d c target_type = Ok d' -> lookup_all d' c' = lookup_all d c'.
Proof.
  intros Hne. split_target;
    try (now apply assign_converted_other);
    try (intros H; inversion H; reflexivity);
    unfold getitem; destruct (lookup_all d c) as [|s [|s' l]];
    cbn [res_bind to_numeric to_datetime]; try discriminate;
    try (destruct (astype_Int64 (to_numeric_series s)); cbn [res_bind]; try discriminate);
    intros H; inversion H; now apply lookup_all_setitem_other.
Qed.

Lemma convert_column_columns d c target_type d' :
  PyStr.mem c (columns_of d) = true ->
  convert_column d c target_type = Ok d' -> columns_of d' = columns_of d.
Proof.
  intros Hmem. split_target;
    try (now apply assign_converted_columns);
    try (intros H; inversion H; reflexivity);
    unfold getitem; destruct (lookup_all d c) as [|s [|s' l]];
    cbn [res_bind to_numeric to_datetime]; try discriminate;
    try (destruct (astype_Int64 (to_numeric_series s)); cbn [res_bind]; try discriminate);
    intros H; inversion H; now apply columns_of_setitem.
Qed.

Lemma convert_column_local d1 d2 c target_type :
  lookup_all d1 c = lookup_all d2 c ->
  PyStr.mem c (columns_of d1) = true ->
  PyStr.mem c (columns_of d2) = true ->
  same_outcome c (convert_column d1 c target_type) (convert_column d2 c target_type).
Proof.
  intros H M1 M2.
  pose proof (lookup_all_nonempty _ _ M1) as N1.
  split_target;
    try (now apply assign_converted_local);
    try (exact H);
    unfold getitem; rewrite <- H;
    destruct (lookup_all d1 c) as [|s [|s' l]] eqn:E;
    cbn [res_bind to_numeric to_datetime same_outcome]; try congruence;
    try (destruct (astype_Int64 (to_numeric_series s)); cbn [res_bind same_outcome];
         try reflexivity);
    rewrite !lookup_all_setitem by assumption; now rewrite <- H, E.
Qed.

(** The reasons [convert_data_types] gives for a column it did not convert. *)
Definition missing_reason (column : string) : string :=
  "Column '" ++ column ++ "' not found".

Definition failure_reason (column target_type : string) (e : exc) : string :=
  "Failed to convert '" ++ column ++ "' to " ++ target_type ++ ": " ++ exc_str e.

(** What the loop has done about one entry of the mapping, set against the
    conversion of that column of the input table alone: the column is the
    converted one when that conversion returns; it is the input column, and
    the reason is among the errors, when the conversion raises or the column
    is missing. *)
Definition column_outcome (df : DataFrame) (st : conversion_state)
    (column target_type : string) : Prop :=
  if PyStr.mem column (columns_of df) then
    match convert_column df column target_type with
    | Ok d => lookup_all (converted_frame st) column = lookup_all d column
    | Err e =>
        lookup_all (converted_frame st) column = lookup_all df column
        /\ In (failure_reason column target_type e) (conversion_errors st)
    end
  else
    lookup_all (converted_frame st) column = lookup_all df column
    /\ In (missing_reason column) (conversion_errors st).

Lemma convert_step_other df st entry c :
  c <> fst entry ->
  lookup_all (converted_frame (convert_step df st entry)) c
  = lookup_all (converted_frame st) c.
Proof.
  intros Hne. unfold convert_step.
  destruct (negb (PyStr.mem (fst entry) (columns_of df))); [reflexivity|].
  destruct (convert_column (converted_frame st) (fst entry) (snd entry)) eqn:E;
    [|reflexivity].
  simpl. eapply convert_column_other; eassumption.
Qed.

Lemma convert_step_columns df st entry :
  columns_of (converted_frame st) = columns_of df ->
  columns_of (converted_frame (convert_step df st entry)) = columns_of df.
Proof.
  intros Hc. unfold convert_step.
  destruct (negb (PyStr.mem (fst entry) (columns_of df))) eqn:M; [exact Hc|].
  destruct (convert_column (converted_frame st) (fst entry) (snd entry)) eqn:E;
    [|exact Hc].
  simpl. rewrite <- Hc. eapply convert_column_columns; [|eassumption].
  rewrite Hc. now apply negb_false_iff in M.
Qed.

Lemma convert_step_errors df st entry x :
  In x (conversion_errors st) -> In x (conversion_errors (convert_step df st entry)).
Proof.
  intros H. unfold convert_step.
  destruct (negb (PyStr.mem (fst entry) (columns_of df))); simpl.
  - apply in_or_app. now left.
  - destruct (convert_column (converted_frame st) (fst entry) (snd entry)); simpl;
      [exact H | apply in_or_app; now left].
Qed.

Lemma fold_other df type_mapping st c :
  ~ In c (map fst type_mapping) ->
  lookup_all (converted_frame (fold_left (convert_step df) type_mapping st)) c
  = lookup_all (converted_frame st) c.
Proof.
  revert st. induction type_mapping as [|entry tm IH]; intros st Hn; simpl; [reflexivity|].
  rewrite IH by (intros H; apply Hn; now right).
  apply convert_step_other. intros ->. apply Hn. now left.
Qed.

Lemma fold_columns df type_mapping st :
  columns_of (converted_frame st) = columns_of df ->
  columns_of (converted_frame (fold_left (convert_step df) type_mapping st)) = columns_of df.
Proof.
  revert st. induction type_mapping as [|entry tm IH]; intros st Hc; simpl; [exact Hc|].
  apply IH. now apply convert_step_columns.
Qed.

Lemma fold_errors df type_mapping st x :
  In x (conversion_errors st) ->
  In x (conversion_errors (fold_left (convert_step df) type_mapping st)).
Proof.
  revert st. induction type_mapping as [|entry tm IH]; intros st H; simpl; [exact H|].
  apply IH. now apply convert_step_errors.
Qed.

Lemma convert_step_outcome df st column target_type :
  columns_of (converted_frame st) = columns_of df ->
  lookup_all (converted_frame st) column = lookup_all df column ->
  column_outcome df (convert_step df st (column, target_type)) column target_type.
Proof.
  intros Hc Hl. unfold column_outcome, convert_step. cbn [fst snd].
  destruct (PyStr.mem column (columns_of df)) eqn:M; cbn [negb].
  - pose proof (convert_column_local (converted_frame st) df column target_type Hl) as L.
    rewrite Hc in L. specialize (L M M). unfold same_outcome in L.
    destruct (convert_column (converted_frame st) column target_type) as [d1|e1];
      destruct (convert_column df column target_type) as [d2|e2];
      try contradiction; simpl.
    + exact L.
    + subst e2. split; [exact Hl | apply in_or_app; right; now left].
  - simpl. split; [exact Hl | apply in_or_app; right; now left].
Qed.

Lemma column_outcome_kept df st st' column target_type :
  lookup_all (converted_frame st') column = lookup_all (converted_frame st) column ->
  (forall x, In x (conversion_errors st) -> In x (conversion_errors st')) ->
  column_outcome df st column target_type ->
  column_outcome df st' column target_type.
Proof.
  unfold column_outcome. intros Hl He.
  destruct (PyStr.mem column (columns_of df)).
  - destruct (convert_column df column target_type).
    + now rewrite Hl.
    + rewrite Hl. intros [H1 H2]. split; auto.
  - rewrite Hl. intros [H1 H2]. split; auto.
Qed.

Lemma fold_outcome df type_mapping st :
  NoDup (map fst type_mapping) ->
  columns_of (converted_frame st) = columns_of df ->
  (forall c, In c (map fst type_mapping) ->
             lookup_all (converted_frame st) c = lookup_all df c) ->
  forall column target_type,
    In (column, target_type) type_mapping ->
    column_outcome df (fold_left (convert_step df) type_mapping st) column target_type.
Proof.
  revert st. induction type_mapping as [|[c0 t0] tm IH]; intros st Hnd Hc Hl column target_type Hin;
    [contradiction|].
  simpl in Hnd. inversion Hnd as [|? ? Hnot Hnd']. subst.
  simpl. destruct Hin as [E | Hin].
  - inversion E. subst c0 t0.
    apply column_outcome_kept with (st := convert_step df st (column, target_type)).
    + now apply fold_other.
    + intros x. apply fold_errors.
    + apply convert_step_outcome; [exact Hc | apply Hl; now left].
  - apply IH; try assumption.
    + now apply convert_step_columns.
    + intros c Hcin. rewrite convert_step_other.
      * apply Hl. now right.
      * simpl. intros ->. contradiction.
Qed.

(** Each entry of a mapping (a dict: its keys are distinct) has the outcome
    of its own conversion, whatever became of the other entries; and a column
    the mapping does not name is left as it was. *)
Lemma conversions_independent df type_mapping :
  NoDup (map fst type_mapping) ->
  (forall column target_type,
      In (column, target_type) type_mapping ->
      column_outcome df (conversions df type_mapping) column target_type)
  /\ (forall c, ~ In c (map fst type_mapping) ->
                lookup_all (converted_frame (conversions df type_mapping)) c
                = lookup_all df c).
Proof.
  intros Hnd. unfold conversions. split.
  - apply fold_outcome; [exact Hnd | reflexivity | reflexivity].
  - intros c Hn. now rewrite fold_other.
Qed.

Lemma conversion_message_mentions st x :
  In x (conversion_errors st) -> mentions (conversion_message st) x.
Proof.
  intros H. unfold conversion_message.
  destruct (conversion_errors st) as [|y l] eqn:E; [contradiction|].
  rewrite <- E in *.
  rewrite <- append_assoc. now apply listing_mentions.
Qed.

Lemma conversions_count df type_mapping st :
  (List.length (successful_conversions (fold_left (convert_step df) type_mapping st))
   + List.length (conversion_errors (fold_left (convert_step df) type_mapping st))
   = List.length (successful_conversions st) + List.length (conversion_errors st)
     + List.length type_mapping)%nat.
Proof.
  revert st. induction type_mapping as [|entry tm IH]; intros st; simpl; [lia|].
  rewrite IH. unfold convert_step.
  destruct (negb (PyStr.mem (fst entry) (columns_of df))); simpl.
  - rewrite length_app. simpl. lia.
  - destruct (convert_column (converted_frame st) (fst entry) (snd entry)); simpl;
      rewrite length_app; simpl; lia.
Qed.

Lemma res_map_nth {A B : Type} (f : A -> res B) (l : list A) (l' : list B) :
  res_map f l = Ok l' ->
  forall i x, nth_error l i = Some x -> exists y, f x = Ok y /\ nth_error l' i = Some y.
Proof.
  revert l'. induction l as [|a l IH]; intros l' H i x Hi.
  - destruct i; discriminate Hi.
  - simpl in H. destruct (f a) as [b|] eqn:Fa; [|discriminate H].
    destruct (res_map f l) as [bs|] eqn:E; [|discriminate H].
    inversion H. subst l'. destruct i as [|i]; simpl in *.
    + inversion Hi. subst. eauto.
    + eapply IH; eauto.
Qed.

Lemma res_map_In {A B : Type} (f : A -> res B) (l : list A) (l' : list B) :
  res_map f l = Ok l' -> forall y, In y l' -> exists x, In x l /\ f x = Ok y.
Proof.
  revert l'. induction l as [|a l IH]; intros l' H y Hy; simpl in H.
  - inversion H. subst. contradiction.
  - destruct (f a) as [b|] eqn:Fa; [|discriminate H].
    destruct (res_map f l) as [bs|] eqn:E; [|discriminate H].
    inversion H. subst l'. destruct Hy as [<- | Hy].
    + exists a. split; [now left | exact Fa].
    + destruct (IH bs eq_refl y Hy) as [x [Hx Fx]]. exists x. split; [now right | exact Fx].
Qed.

(** Coercion: a text that is no number becomes a null, and a null is not
    what makes the integer conversion raise. *)
Lemma to_numeric_unparsed s i t :
  nth_error s i = Some (VStr t) ->
  parse_number t = None ->
  nth_error (to_numeric_series s) i = Some (VNull NaN).
Proof.
  intros Hi Hp. unfold to_numeric_series.
  assert (Hc : nth_error (map coerce_number s) i = Some (VNull NaN)).
  { rewrite nth_error_map, Hi. simpl. now rewrite Hp. }
  destruct (forallb is_integer_cell (map coerce_number s)) eqn:F.
  - rewrite forallb_forall in F. apply nth_error_In in Hc. apply F in Hc. discriminate Hc.
  - rewrite nth_error_map, Hc. reflexivity.
Qed.

Lemma to_Int64_null v : isnull v = true -> to_Int64 v = Ok (VNull NA).
Proof.
  destruct v; simpl; try discriminate; [reflexivity|].
  intros H. now rewrite H.
Qed.

Lemma int_conversion_unparsed s s' i t :
  astype_Int64 (to_numeric_series s) = Ok s' ->
  nth_error s i = Some (VStr t) ->
  parse_number t = None ->
  nth_error s' i = Some (VNull NA).
Proof.
  intros H Hi Hp. pose proof (to_numeric_unparsed s i t Hi Hp) as Hn.
  destruct (res_map_nth _ _ _ H _ _ Hn) as [y [Hy Hs]].
  simpl in Hy. inversion Hy. subst. exact Hs.
Qed.

Lemma datetime_conversion_unparsed s i v :
  nth_error s i = Some v ->
  (forall k, v <> VNull k) -> (forall t, v <> VTime t) ->
  parse_datetime v = None ->
  exists s', to_datetime (ItemSeries s) = Ok s' /\ nth_error s' i = Some (VNull NaT).
Proof.
  intros Hi Hk Ht Hp. eexists. split; [reflexivity|].
  rewrite nth_error_map, Hi. simpl.
  destruct v; simpl; try (now rewrite Hp).
  - exfalso. eapply Hk. reflexivity.
  - exfalso. eapply Ht. reflexivity.
Qed.

(** C5 (amended).  [convert_data_types] goes through the mapping column by
    column and always ends normally.  With the distinct keys of a dict, each
    column named in the mapping ends as its own conversion leaves it: converted
    when converting that column of the input table returns, and as it was,
    with the reason in the message, when that conversion raises or the column
    is missing; columns the mapping does not name are left alone.  The message
    gives the number of converted columns (it does not name them) and then
    every reason, one per column that was missing or failed, the reasons and
    the converted columns adding up to the entries of the mapping.  In the
    conversion to integer a text that is no number becomes a null, which is
    never what makes the conversion raise, and in the conversion to datetime a
    cell that is no instant becomes NaT and nothing raises. *)
Theorem convert_data_types_is_column_wise :
  forall df type_mapping w,
    let st := conversions df type_mapping in
    (exists w', convert_data_types df type_mapping w
                = (Return (converted_frame st, conversion_message st), w'))
    /\ (NoDup (map fst type_mapping) ->
        (forall column target_type,
            In (column, target_type) type_mapping ->
            column_outcome df st column target_type)
        /\ (forall c, ~ In c (map fst type_mapping) ->
                      lookup_all (converted_frame st) c = lookup_all df c))
    /\ (exists errors,
          conversion_message st
          = "Successfully converted "
            ++ PyStr.of_nat (List.length (successful_conversions st)) ++ " columns" ++ errors)
    /\ (forall reason, In reason (conversion_errors st) ->
                       mentions (conversion_message st) reason)
    /\ (List.length (successful_conversions st) + List.length (conversion_errors st)
        = List.length type_mapping)%nat
    /\ (forall s s' i t,
           astype_Int64 (to_numeric_series s) = Ok s' ->
           nth_error s i = Some (VStr t) -> parse_number t = None ->
           nth_error s' i = Some (VNull NA))
    /\ (forall v, isnull v = true -> to_Int64 v = Ok (VNull NA))
    /\ (forall s i v,
           nth_error s i = Some v ->
           (forall k, v <> VNull k) -> (forall t, v <> VTime t) ->
           parse_datetime v = None ->
           exists s', to_datetime (ItemSeries s) = Ok s' /\ nth_error s' i = Some (VNull NaT)).
Proof.
  intros df type_mapping w st.
  repeat match goal with |- _ /\ _ => split end.
  - eexists. apply convert_data_types_eq.
  - apply conversions_independent.
  - unfold conversion_message. destruct (conversion_errors st).
    + exists "". now rewrite !append_empty_r.
    + eexists. rewrite !append_assoc. reflexivity.
  - apply conversion_message_mentions.
  - unfold st, conversions. rewrite conversions_count. reflexivity.
  - apply int_conversion_unparsed.
  - apply to_Int64_null.
  - apply datetime_conversion_unparsed.
Qed.

(* ------------------------------------------------------------------ *)
(** ** Sorting on several keys is stable *)
(* ------------------------------------------------------------------ *)

(** [x] stands before [y] in a list. *)
Inductive before {A : Type} (x y : A) : list A -> Prop :=
| before_here : forall l, In y l -> before x y (x :: l)
| before_later : forall z l, before x y l -> before x y (z :: l).

Lemma before_map {A B : Type} (f : A -> B) (x y : A) (l : list A) :
  before x y l -> before (f x) (f y) (map f l).
Proof.
  induction 1; simpl.
  - apply before_here. now apply in_map.
  - now apply before_later.
Qed.

Lemma before_seq (a n i j : nat) :
  (a <= i)%nat -> (i < j)%nat -> (j < a + n)%nat -> before i j (seq a n).
Proof.
  revert a. induction n as [|n IH]; intros a H1 H2 H3; [lia|].
  simpl. destruct (Nat.eq_dec a i) as [-> | Hne].
  - apply before_here. apply in_seq. lia.
  - apply before_later. apply IH; lia.
Qed.

Lemma lex_leb_refl (k : list Z) : lex_leb k k = true.
Proof.
  induction k as [|x k IH]; simpl; [reflexivity|].
  now rewrite Z.ltb_irrefl.
Qed.

Lemma lex_leb_total (a b : list Z) : lex_leb a b = false -> lex_leb b a = true.
Proof.
  revert b. induction a as [|x a IH]; intros [|y b]; simpl; try discriminate.
  destruct (x <? y)%Z eqn:E1; [discriminate|].
  destruct (y <? x)%Z eqn:E2; [reflexivity|].
  apply IH.
Qed.

Ltac cases_of_or :=
  split; intros;
  repeat match goal with
         | H : _ \/ _ |- _ => destruct H
         | H : False |- _ => destruct H
         end;
  subst; auto.

Lemma insert_sorted_In x a s : In x (insert_sorted a s) <-> x = a \/ In x s.
Proof.
  induction s as [|z s IH]; simpl.
  - cases_of_or.
  - destruct (lex_leb (fst a) (fst z)); simpl; [cases_of_or|].
    rewrite IH. cases_of_or.
Qed.

Lemma stable_sort_In x l : In x (stable_sort l) <-> In x l.
Proof.
  induction l as [|a l IH]; simpl; [reflexivity|].
  rewrite insert_sorted_In, IH. cases_of_or.
Qed.

Lemma insert_sorted_keeps x y a s :
  before x y s -> before x y (insert_sorted a s).
Proof.
  induction 1 as [l Hin | z l Hb IH]; simpl.
  - destruct (lex_leb (fst a) (fst x)).
    + apply before_later, before_here, Hin.
    + apply before_here. apply insert_sorted_In. now right.
  - destruct (lex_leb (fst a) (fst z)).
    + now apply before_later, before_later.
    + now apply before_later.
Qed.

Lemma insert_sorted_first a y s :
  In y s -> fst y = fst a -> before a y (insert_sorted a s).
Proof.
  intros Hin Hk. induction s as [|z s IH]; [contradiction|]. simpl.
  destruct (lex_leb (fst a) (fst z)) eqn:E.
  - now apply before_here.
  - apply before_later. destruct Hin as [-> | Hin]; [|now apply IH].
    rewrite Hk, lex_leb_refl in E. discriminate E.
Qed.

(** The sort keeps two elements with the same codes in the order it found
    them in. *)
Lemma stable_sort_stable l x y :
  before x y l -> fst x = fst y -> before x y (stable_sort l).
Proof.
  induction 1 as [l Hin | z l Hb IH]; intros Hk; simpl.
  - apply insert_sorted_first; [now apply stable_sort_In | now symmetry].
  - apply insert_sorted_keeps. now apply IH.
Qed.

Definition codes_le (a b : list Z * nat) : Prop := lex_leb (fst a) (fst b) = true.

Lemma insert_sorted_sorted a s :
  Sorted codes_le s -> Sorted codes_le (insert_sorted a s).
Proof.
  induction s as [|z s IH]; intros Hs; simpl.
  - repeat constructor.
  - destruct (lex_leb (fst a) (fst z)) eqn:E.
    + constructor; [exact Hs | constructor; exact E].
    + inversion Hs as [|? ? Hs' Hd]. subst. constructor; [now apply IH|].
      destruct s as [|z' s]; simpl.
      * constructor. now apply lex_leb_total.
      * destruct (lex_leb (fst a) (fst z')).
        -- constructor. now apply lex_leb_total.
        -- inversion Hd. now constructor.
Qed.

Lemma stable_sort_sorted l : Sorted codes_le (stable_sort l).
Proof.
  induction l as [|a l IH]; simpl; [constructor | now apply insert_sorted_sorted].
Qed.

Lemma insert_sorted_perm a s : Permutation (insert_sorted a s) (a :: s).
Proof.
  induction s as [|z s IH]; simpl; [reflexivity|].
  destruct (lex_leb (fst a) (fst z)); [reflexivity|].
  rewrite IH. apply perm_swap.
Qed.

Lemma stable_sort_perm l : Permutation (stable_sort l) l.
Proof.
  induction l as [|a l IH]; simpl; [reflexivity|].
  rewrite insert_sorted_perm. now constructor.
Qed.

(** The code tuples of the rows, with their positions, as [lexsort_indexer]
    sorts them. *)
Definition coded_rows (codes : list (list Z)) (n : nat) : list (list Z * nat) :=
  map (fun i => (row_at 0%Z codes i, i)) (seq 0 n).

Lemma lexsort_indexer_eq keys ascending n indexer :
  lexsort_indexer keys ascending n = Ok indexer ->
  exists codes,
    res_map (fun ka => key_codes (fst ka) (snd ka)) (combine keys ascending) = Ok codes
    /\ indexer = map snd (stable_sort (coded_rows codes n)).
Proof.
  unfold lexsort_indexer.
  destruct (res_map (fun ka => key_codes (fst ka) (snd ka)) (combine keys ascending))
    as [codes|]; simpl; [|discriminate].
  intros H. inversion H. exists codes. split; reflexivity.
Qed.

Lemma coded_rows_positions codes n : map snd (coded_rows codes n) = seq 0 n.
Proof.
  unfold coded_rows. rewrite map_map. simpl. apply map_id.
Qed.

Lemma key_codes_equal k ascending col i j :
  key_codes k ascending = Ok col ->
  (i < List.length k)%nat -> (j < List.length k)%nat ->
  nth i k (VNull NaN) = nth j k (VNull NaN) ->
  nth i col 0%Z = nth j col 0%Z.
Proof.
  unfold key_codes.
  destruct (categories_from [] k) as [cats|]; simpl; [|discriminate].
  intros H Hi Hj Heq.
  destruct (nth_error k i) as [x|] eqn:Ei; [|apply nth_error_None in Ei; lia].
  destruct (nth_error k j) as [y|] eqn:Ej; [|apply nth_error_None in Ej; lia].
  rewrite (nth_error_nth _ _ _ Ei), (nth_error_nth _ _ _ Ej) in Heq. subst y.
  destruct (res_map_nth _ _ _ H _ _ Ei) as [a [Fa Na]].
  destruct (res_map_nth _ _ _ H _ _ Ej) as [b [Fb Nb]].
  rewrite Fa in Fb. inversion Fb. subst b.
  now rewrite (nth_error_nth _ _ _ Na), (nth_error_nth _ _ _ Nb).
Qed.

Lemma row_codes_equal keys ascending codes n i j :
  res_map (fun ka => key_codes (fst ka) (snd ka)) (combine keys ascending) = Ok codes ->
  Forall (fun k => List.length k = n) keys ->
  (i < n)%nat -> (j < n)%nat ->
  row_at (VNull NaN) keys i = row_at (VNull NaN) keys j ->
  row_at 0%Z codes i = row_at 0%Z codes j.
Proof.
  intros H Hlen Hi Hj Heq. unfold row_at. apply map_ext_in. intros col Hcol.
  destruct (res_map_In _ _ _ H col Hcol) as [[k a] [Hka Hc]]. simpl in Hc.
  apply in_combine_l in Hka.
  rewrite Forall_forall in Hlen. specialize (Hlen k Hka).
  eapply key_codes_equal; [exact Hc | lia | lia |].
  unfold row_at in Heq.
  assert (Hall : forall k', In k' keys ->
                            nth i k' (VNull NaN) = nth j k' (VNull NaN)).
  { apply map_ext_in_iff. exact Heq. }
  now apply Hall.
Qed.

Lemma sorted_positions codes l :
  Sorted codes_le l ->
  (forall p, In p l -> fst p = row_at 0%Z codes (snd p)) ->
  Sorted (fun p q => lex_leb (row_at 0%Z codes p) (row_at 0%Z codes q) = true) (map snd l).
Proof.
  induction 1 as [|p l Hs IH Hd]; intros Hin; simpl; constructor.
  - apply IH. intros q Hq. apply Hin. now right.
  - destruct Hd as [|q l Hpq]; simpl; constructor.
    unfold codes_le in Hpq.
    rewrite <- (Hin p), <- (Hin q); [exact Hpq | right; now left | now left].
Qed.

(** The indexer of a sort on several keys: a rearrangement of the row
    positions, in the order of the code tuples compared from the first key on,
    and with two rows that agree on every key in the order they had. *)
Lemma lexsort_indexer_stable keys ascending n indexer :
  lexsort_indexer keys ascending n = Ok indexer ->
  Forall (fun k => List.length k = n) keys ->
  Permutation indexer (seq 0 n)
  /\ (exists codes,
         res_map (fun ka => key_codes (fst ka) (snd ka)) (combine keys ascending) = Ok codes
         /\ Sorted (fun p q => lex_leb (row_at 0%Z codes p) (row_at 0%Z codes q) = true) indexer)
  /\ forall i j,
       (i < j)%nat -> (j < n)%nat ->
       row_at (VNull NaN) keys i = row_at (VNull NaN) keys j ->
       before i j indexer.
Proof.
  intros H Hlen. destruct (lexsort_indexer_eq _ _ _ _ H) as [codes [Hc ->]].
  split; [|split].
  - rewrite <- (coded_rows_positions codes n).
    apply Permutation_map, stable_sort_perm.
  - exists codes. split; [exact Hc|].
    apply sorted_positions; [apply stable_sort_sorted|].
    intros p Hp. apply (proj1 (stable_sort_In _ _)) in Hp. unfold coded_rows in Hp.
    apply in_map_iff in Hp. destruct Hp as [i [<- _]]. reflexivity.
  - intros i j Hij Hj Heq.
    change i with (snd (row_at 0%Z codes i, i)).
    change j with (snd (row_at 0%Z codes j, j)).
    apply before_map. apply stable_sort_stable.
    + unfold coded_rows.
      apply (before_map (fun i => (row_at 0%Z codes i, i))).
      apply before_seq; lia.
    + simpl. eapply row_codes_equal; eauto. lia.
Qed.

Lemma label_values_length df c k :
  rectangular df -> label_values df c = Ok k -> List.length k = List.length (index df).
Proof.
  unfold rectangular, label_values, lookup_all. intros Hr H.
  destruct (map snd (filter (fun nc => String.eqb (fst nc) c) (data df)))
    as [|s [|s' l]] eqn:E; try discriminate H.
  inversion H. subst s.
  assert (Hin : In k (map snd (filter (fun nc => String.eqb (fst nc) c) (data df))))
    by (rewrite E; now left).
  apply in_map_iff in Hin. destruct Hin as [[n x] [Hx Hin]]. simpl in Hx. subst x.
  apply filter_In in Hin. destruct Hin as [Hin _].
  rewrite Forall_forall in Hr. exact (Hr _ Hin).
Qed.

Lemma sort_values_several df columns ascending d :
  (2 <= List.length columns)%nat ->
  sort_values df columns ascending = Ok d ->
  exists keys indexer,
    res_map (label_values df) columns = Ok keys
    /\ lexsort_indexer keys ascending (List.length (index df)) = Ok indexer
    /\ d = take_rows df indexer.
Proof.
  intros Hl. unfold sort_values.
  destruct (negb (List.length columns =? List.length ascending)%nat); [discriminate|].
  destruct (res_map (label_values df) columns) as [keys|] eqn:E; simpl; [|discriminate].
  pose proof (res_map_length _ _ _ E) as Hk.
  destruct keys as [|k1 [|k2 keys]]; simpl in Hk; try lia.
  intros H.
  assert (H' : (let? indexer :=
                  lexsort_indexer (k1 :: k2 :: keys) ascending (List.length (index df)) in
                Ok (take_rows df indexer)) = Ok d)
    by (destruct ascending; exact H).
  destruct (lexsort_indexer (k1 :: k2 :: keys) ascending (List.length (index df)))
    as [indexer|] eqn:L; simpl in H'; [|discriminate H'].
  inversion H'. exists (k1 :: k2 :: keys), indexer. auto.
Qed.

Definition flags_of (columns : list string) (ascending : option (list bool)) : list bool :=
  match ascending with
  | Some flags => flags
  | None => repeat true (List.length columns)
  end.

Lemma sort_data_default_flags df columns w :
  sort_data df columns None w
  = sort_data df columns (Some (repeat true (List.length columns))) w.
Proof.
  unfold sort_data. rewrite repeat_length, Nat.eqb_refl. reflexivity.
Qed.

Lemma sort_data_applied df columns ascending w d message w' :
  sort_data df columns ascending w = (Return (d, message), w') ->
  transformation_history w' <> transformation_history w ->
  sort_values df columns (flags_of columns ascending) = Ok d.
Proof.
  intros H Hh. revert H. unfold sort_data, flags_of. run; intros H; inversion H; subst;
    try (exfalso; apply Hh; reflexivity); reflexivity.
Qed.

(** C6 (amended).  [sort_data] takes all-ascending flags when it is given
    none, and returns the table unchanged with a validation message when the
    flags and the columns differ in number.  On two sort columns or more the
    sort is stable with the keys taken from left to right: the rows of a
    well-formed table come out rearranged, in the order of their code tuples
    compared from the first key on (nulls last, a descending key with its codes
    turned round), and two rows that agree on every sort column keep the order
    they had.  On a single sort column the order of rows with equal keys is
    the one numpy's default quicksort leaves, which is not promised to be the
    original one. *)
Theorem sort_data_is_stable_on_several_keys :
  (forall df columns w,
      sort_data df columns None w
      = sort_data df columns (Some (repeat true (List.length columns))) w)
  /\ (forall df columns flags w,
         not_in_columns df columns = [] ->
         List.length flags <> List.length columns ->
         sort_data df columns (Some flags) w
         = (Return (df, "Length of ascending list must match columns list"), w))
  /\ (forall df columns ascending w df_result message w',
         rectangular df ->
         (2 <= List.length columns)%nat ->
         sort_data df columns ascending w = (Return (df_result, message), w') ->
         transformation_history w' <> transformation_history w ->
         exists keys indexer,
           res_map (label_values df) columns = Ok keys
           /\ df_result = take_rows df indexer
           /\ Permutation indexer (seq 0 (List.length (index df)))
           /\ (exists codes,
                  res_map (fun ka => key_codes (fst ka) (snd ka))
                    (combine keys (flags_of columns ascending)) = Ok codes
                  /\ Sorted (fun p q => lex_leb (row_at 0%Z codes p) (row_at 0%Z codes q) = true)
                       indexer)
           /\ forall i j,
                (i < j)%nat -> (j < List.length (index df))%nat ->
                row_at (VNull NaN) keys i = row_at (VNull NaN) keys j ->
                before i j indexer).
Proof.
  split; [exact sort_data_default_flags|].
  split; [exact sort_data_length_mismatch|].
  intros df columns ascending w df_result message w' Hr Hl H Hh.
  pose proof (sort_data_applied _ _ _ _ _ _ _ H Hh) as Hs.
  destruct (sort_values_several _ _ _ _ Hl Hs) as [keys [indexer [Hk [Hi ->]]]].
  assert (Hlen : Forall (fun k => List.length k = List.length (index df)) keys).
  { apply Forall_forall. intros k Hin.
    destruct (res_map_In _ _ _ Hk k Hin) as [c [_ Hc]].
    eapply label_values_length; eassumption. }
  destruct (lexsort_indexer_stable _ _ _ _ Hi Hlen) as [Hp [Hc Hb]].
  exists keys, indexer. repeat split; assumption.
Qed.

(* ------------------------------------------------------------------ *)
(** ** Column-name suggestions *)
(* ------------------------------------------------------------------ *)

(** The queue of [get_matching_blocks] runs empty: every call of
    [find_longest_match] on a range of [a] returns a block inside the range,
    so a range of [n] characters costs at most [2 * n + 1] turns of the
    loop. *)
Definition inside (alo ahi : nat) (m : Difflib.Match) : Prop :=
  let '(i, _, k) := m in (alo <= i /\ i + k <= ahi)%nat.

Lemma scan_row_inside i blo bhi j2len js alo ahi :
  (alo <= i < ahi)%nat ->
  (forall j, Difflib.j2len_get j2len j <= i - alo)%nat ->
  forall newj2len best,
    (forall j, Difflib.j2len_get newj2len j <= i + 1 - alo)%nat ->
    inside alo ahi best ->
    (forall j, Difflib.j2len_get (fst (Difflib.scan_row i blo bhi j2len js newj2len best)) j
               <= i + 1 - alo)%nat
    /\ inside alo ahi (snd (Difflib.scan_row i blo bhi j2len js newj2len best)).
Proof.
  intros Hi Hj. induction js as [|j js IH]; intros newj2len best Hn Hb; simpl.
  - split; assumption.
  - destruct (j <? blo)%nat; [now apply IH|].
    destruct (bhi <=? j)%nat; [split; assumption|].
    apply IH.
    + intros j0. simpl. destruct (j =? j0)%nat; [|apply Hn].
      destruct j as [|j']; [lia|]. specialize (Hj j'). lia.
    + destruct best as [[bi bj] bk].
      destruct (bk <? _)%nat; [|exact Hb].
      unfold inside. destruct j as [|j']; [lia|]. specialize (Hj j'). lia.
Qed.

Lemma scan_rows_inside a b blo bhi alo ahi n :
  forall i j2len best,
    (alo <= i)%nat -> (i + n <= ahi)%nat ->
    (forall j, Difflib.j2len_get j2len j <= i - alo)%nat ->
    inside alo ahi best ->
    inside alo ahi (Difflib.scan_rows a b blo bhi (seq i n) j2len best).
Proof.
  induction n as [|n IH]; intros i j2len best Hlo Hhi Hj Hb; simpl; [exact Hb|].
  destruct (Difflib.scan_row i blo bhi j2len (Difflib.b2j b (nth i a Ascii.zero)) [] best)
    as [newj2len best'] eqn:E.
  destruct (scan_row_inside i blo bhi j2len (Difflib.b2j b (nth i a Ascii.zero)) alo ahi
              ltac:(lia) Hj [] best ltac:(intros; simpl; lia) Hb) as [Hn Hb'].
  rewrite E in Hn, Hb'. simpl in Hn, Hb'.
  apply IH; [lia | lia | | exact Hb'].
  intros j. specialize (Hn j). lia.
Qed.

Lemma extend_left_inside fuel a b alo blo ahi :
  forall best, inside alo ahi best ->
               inside alo ahi (Difflib.extend_left fuel a b alo blo best).
Proof.
  induction fuel as [|fuel IH]; intros [[bi bj] bk] Hb; simpl; [exact Hb|].
  destruct ((alo <? bi)%nat && (blo <? bj)%nat && _) eqn:E; [|exact Hb].
  apply IH. apply andb_prop in E. destruct E as [E _].
  apply andb_prop in E. destruct E as [E _]. apply Nat.ltb_lt in E.
  unfold inside in *. lia.
Qed.

Lemma extend_right_inside fuel a b alo ahi bhi :
  forall best, inside alo ahi best ->
               inside alo ahi (Difflib.extend_right fuel a b ahi bhi best).
Proof.
  induction fuel as [|fuel IH]; intros [[bi bj] bk] Hb; simpl; [exact Hb|].
  destruct ((bi + bk <? ahi)%nat && (bj + bk <? bhi)%nat && _) eqn:E; [|exact Hb].
  apply IH. apply andb_prop in E. destruct E as [E _].
  apply andb_prop in E. destruct E as [E _]. apply Nat.ltb_lt in E.
  unfold inside in *. lia.
Qed.

Lemma find_longest_match_inside a b alo ahi blo bhi :
  (alo <= ahi)%nat -> inside alo ahi (Difflib.find_longest_match a b alo ahi blo bhi).
Proof.
  intros H. unfold Difflib.find_longest_match.
  apply extend_right_inside, extend_left_inside, scan_rows_inside.
  - lia.
  - lia.
  - intros j. simpl. lia.
  - unfold inside. lia.
Qed.

(** What a queue still costs. *)
Definition queue_cost (queue : list (nat * nat * nat * nat)) : nat :=
  list_sum (map (fun q => let '(alo, ahi, _, _) := q in 2 * (ahi - alo) + 1)%nat queue).

Definition queue_ranges (queue : list (nat * nat * nat * nat)) : Prop :=
  Forall (fun q => let '(alo, ahi, _, _) := q in (alo <= ahi)%nat) queue.

Lemma queue_cost_cons alo ahi blo bhi rest :
  queue_cost ((alo, ahi, blo, bhi) :: rest) = (2 * (ahi - alo) + 1 + queue_cost rest)%nat.
Proof. reflexivity. Qed.

Lemma queue_cost_app q1 q2 : queue_cost (q1 ++ q2)%list = (queue_cost q1 + queue_cost q2)%nat.
Proof. unfold queue_cost. now rewrite map_app, list_sum_app. Qed.

Lemma matching_loop_ends a b fuel :
  forall queue matching_blocks,
    queue_ranges queue -> (queue_cost queue <= fuel)%nat ->
    snd (Difflib.matching_loop fuel a b queue matching_blocks) = [].
Proof.
  induction fuel as [|fuel IH]; intros queue blocks Hr Hc;
    destruct queue as [|[[[alo ahi] blo] bhi] rest]; try reflexivity;
    rewrite queue_cost_cons in Hc; [lia|].
  simpl. inversion Hr as [|q l Hq Hrest]; subst.
  pose proof (find_longest_match_inside a b alo ahi blo bhi Hq) as Hin.
  destruct (Difflib.find_longest_match a b alo ahi blo bhi) as [[i j] k].
  unfold inside in Hin.
  destruct (k =? 0)%nat eqn:Ek; [apply IH; [exact Hrest | lia]|].
  apply Nat.eqb_neq in Ek. apply IH.
  - unfold queue_ranges. rewrite !Forall_app. repeat split; [| |exact Hrest].
    + destruct (_ && _); repeat constructor; lia.
    + destruct (_ && _); repeat constructor; lia.
  - rewrite !queue_cost_app.
    assert (H1 : (queue_cost (if (alo <? i)%nat && (blo <? j)%nat
                              then [(alo, i, blo, j)] else [])
                  <= 2 * (i - alo) + 1)%nat)
      by (destruct ((alo <? i)%nat && (blo <? j)%nat); unfold queue_cost; simpl; lia).
    assert (H2 : (queue_cost (if (i + k <? ahi)%nat && (j + k <? bhi)%nat
                              then [((i + k)%nat, ahi, (j + k)%nat, bhi)] else [])
                  <= 2 * (ahi - (i + k)) + 1)%nat)
      by (destruct ((i + k <? ahi)%nat && (j + k <? bhi)%nat); unfold queue_cost; simpl; lia).
    lia.
Qed.

Lemma get_matching_blocks_ends a b :
  snd (Difflib.matching_loop (2 * List.length a + 1) a b
         [(0, List.length a, 0, List.length b)%nat] []) = [].
Proof.
  apply matching_loop_ends.
  - repeat constructor. lia.
  - rewrite queue_cost_cons. unfold queue_cost. simpl. lia.
Qed.

Lemma insert_desc_In x a l : In x (Difflib.insert_desc a l) <-> x = a \/ In x l.
Proof.
  induction l as [|y l IH]; simpl.
  - cases_of_or.
  - destruct (Difflib.pair_gt y a); simpl; [rewrite IH|]; cases_of_or.
Qed.

Lemma sorted_desc_In x l : In x (fold_right Difflib.insert_desc [] l) <-> In x l.
Proof.
  induction l as [|a l IH]; simpl; [reflexivity|].
  rewrite insert_desc_In, IH. cases_of_or.
Qed.

Lemma firstn_subset {A : Type} (n : nat) (l : list A) (x : A) :
  In x (firstn n l) -> In x l.
Proof.
  revert l. induction n as [|n IH]; intros [|a l]; simpl; try contradiction.
  intros [H | H]; [now left | right; now apply IH].
Qed.

(** The matches are possibilities that pass the three ratio tests, at most
    [n] of them. *)
Lemma get_close_matches_sound word possibilities n cutoff m :
  In m (Difflib.get_close_matches word possibilities n cutoff) ->
  In m possibilities
  /\ PrimFloat.leb cutoff (Difflib.ratio (PyStr.chars m) (PyStr.chars word)) = true.
Proof.
  unfold Difflib.get_close_matches, Difflib.nlargest. intros H.
  apply in_map_iff in H. destruct H as [[score x] [Hx H]]. simpl in Hx. subst x.
  apply firstn_subset in H. apply (proj1 (sorted_desc_In _ _)) in H.
  apply in_map_iff in H. destruct H as [x [Hx H]]. inversion Hx. subst x.
  apply filter_In in H. destruct H as [Hin Hc]. split; [exact Hin|].
  unfold Difflib.close_enough in Hc.
  apply andb_true_iff in Hc. destruct Hc as [_ Hc]. exact Hc.
Qed.

Lemma get_close_matches_length word possibilities n cutoff :
  (List.length (Difflib.get_close_matches word possibilities n cutoff) <= n)%nat.
Proof.
  unfold Difflib.get_close_matches, Difflib.nlargest.
  rewrite length_map. apply firstn_le_length.
Qed.

Lemma dict_set_In d k v k' v' :
  In (k', v') (dict_set d k v) -> (k' = k /\ v' = v) \/ In (k', v') d.
Proof.
  induction d as [|[k0 v0] d IH]; simpl.
  - intros [H | []]. inversion H. now left.
  - destruct (String.eqb k0 k) eqn:E; simpl.
    + intros [H | H]; [|right; now right].
      inversion H. subst. apply String.eqb_eq in E. now left.
    + intros [H | H]; [right; now left|].
      destruct (IH H) as [? | ?]; [now left | right; now right].
Qed.

Lemma dict_set_has d k v : exists v0, In (k, v0) (dict_set d k v) /\ v0 = v.
Proof.
  exists v. split; [|reflexivity].
  induction d as [|[k0 v0] d IH]; simpl; [now left|].
  destruct (String.eqb k0 k) eqn:E; simpl.
  - apply String.eqb_eq in E. subst. now left.
  - now right.
Qed.

Lemma dict_set_keeps d k v k' v' :
  In (k', v') d -> k' <> k -> In (k', v') (dict_set d k v).
Proof.
  intros H Hne. induction d as [|[k0 v0] d IH]; [contradiction|]. simpl.
  destruct H as [H | H].
  - inversion H. subst.
    destruct (String.eqb k' k) eqn:E; [apply String.eqb_eq in E; contradiction | now left].
  - destruct (String.eqb k0 k); right; [exact H | now apply IH].
Qed.

(** What [suggest_typo_fixes] looks up for one column, and whether the
    column gets an entry. *)
Definition candidates_for (col : string) : list string :=
  Difflib.get_close_matches (PyStr.lower col) common_words 3 Difflib.cutoff_06.

Definition suggested (col : string) : bool :=
  match candidates_for col with
  | _ :: _ => negb (PyStr.mem (PyStr.lower col) common_words)
  | [] => false
  end.

Lemma suggest_column_eq found col :
  suggest_column found col
  = if suggested col then dict_set found col (candidates_for col) else found.
Proof.
  unfold suggest_column, suggested, candidates_for.
  destruct (Difflib.get_close_matches (PyStr.lower col) common_words 3 Difflib.cutoff_06);
    [reflexivity|].
  now destruct (negb (PyStr.mem (PyStr.lower col) common_words)).
Qed.

Lemma suggest_fold_sound cols found col candidates :
  In (col, candidates) (fold_left suggest_column cols found) ->
  In (col, candidates) found
  \/ (In col cols /\ suggested col = true /\ candidates = candidates_for col).
Proof.
  revert found. induction cols as [|c cols IH]; intros found H; simpl in H; [now left|].
  destruct (IH _ H) as [Hf | [Hin [Hs Hc]]].
  - rewrite suggest_column_eq in Hf. destruct (suggested c) eqn:S; [|now left].
    destruct (dict_set_In _ _ _ _ _ Hf) as [[-> ->] | Hd]; [|now left].
    right. repeat split; [now left | exact S].
  - right. repeat split; [now right | exact Hs | exact Hc].
Qed.

Lemma suggest_fold_keeps cols found col :
  In (col, candidates_for col) found ->
  In (col, candidates_for col) (fold_left suggest_column cols found).
Proof.
  revert found. induction cols as [|c cols IH]; intros found H; simpl; [exact H|].
  apply IH. rewrite suggest_column_eq. destruct (suggested c); [|exact H].
  destruct (String.eqb col c) eqn:E.
  - apply String.eqb_eq in E. subst c.
    destruct (dict_set_has found col (candidates_for col)) as [v0 [Hin ->]]. exact Hin.
  - apply dict_set_keeps; [exact H|]. now apply String.eqb_neq.
Qed.

Lemma suggest_fold_complete cols found col :
  In col cols -> suggested col = true ->
  In (col, candidates_for col) (fold_left suggest_column cols found).
Proof.
  revert found. induction cols as [|c cols IH]; intros found Hin Hs; [contradiction|].
  simpl. destruct Hin as [-> | Hin]; [|now apply IH].
  apply suggest_fold_keeps. rewrite suggest_column_eq, Hs.
  destruct (dict_set_has found col (candidates_for col)) as [v0 [H ->]]. exact H.
Qed.

Lemma suggest_typo_fixes_columns df w :
  suggest_typo_fixes df None w
  = (Return {| column_suggestions := suggest_columns df; data_suggestions := [] |}, w).
Proof. reflexivity. Qed.

Lemma suggest_typo_fixes_returns df column w :
  exists s w', suggest_typo_fixes df column w = (Return s, w').
Proof.
  unfold suggest_typo_fixes. run; eexists _, _; reflexivity.
Qed.

Lemma candidates_for_nam : candidates_for "nam" = ["name"].
Proof. vm_compute. reflexivity. Qed.

Lemma suggested_nam : suggested "nam" = true.
Proof. vm_compute. reflexivity. Qed.

Lemma suggested_xyz123 : suggested "xyz123" = false.
Proof. vm_compute. reflexivity. Qed.


(* ------------------------------------------------------------------ *)
(** ** The ledger and the log, step by step *)
(* ------------------------------------------------------------------ *)

(** How one invocation moves the state: not at all, by one ERROR line, or by
    one record with the tag [tag] and the TRANSFORM line that goes with it. *)
Definition moves_as (tag : string) (w w' : World) : Prop :=
  clock w' = clock w
  /\ ((transformation_history w' = transformation_history w
       /\ logger_lines w' = logger_lines w)
      \/ (transformation_history w' = transformation_history w
          /\ exists message,
               logger_lines w' = (logger_lines w ++ [("[ERROR] " ++ message)%string])%list)
      \/ (exists r,
             transformation_history w' = (transformation_history w ++ [r])%list
             /\ operation r = tag
             /\ timestamp r = clock w
             /\ logger_lines w'
                = (logger_lines w
                   ++ [("[TRANSFORM] " ++ tag ++ ": " ++ details r)%string])%list)).

Ltac close_moves :=
  split; [reflexivity|];
  first [ left; split; reflexivity
        | right; left; split; [reflexivity | eexists; reflexivity]
        | right; right; eexists; repeat split; reflexivity ].


(* ------------------------------------------------------------------ *)
(** ** Rows that are taken out *)
(* ------------------------------------------------------------------ *)

Lemma mask_list_length {A : Type} (m : list bool) (l : list A) :
  (List.length (mask_list m l) <= List.length l)%nat.
Proof.
  revert l. induction m as [|b m IH]; intros [|x l]; simpl; try lia.
  specialize (IH l). destruct b; simpl; lia.
Qed.

Lemma mask_list_app {A : Type} (m m' : list bool) (l l' : list A) :
  List.length m = List.length l ->
  mask_list (m ++ m') (l ++ l') = (mask_list m l ++ mask_list m' l')%list.
Proof.
  revert l. induction m as [|b m IH]; intros [|x l] H; simpl in *; try discriminate.
  - reflexivity.
  - injection H as H. rewrite (IH l H). now destruct b.
Qed.

Lemma columns_of_map_columns (f : Series -> Series) (df : DataFrame) :
  map fst (map_columns f df) = columns_of df.
Proof.
  unfold map_columns, columns_of. rewrite map_map. reflexivity.
Qed.

Lemma len_mask_rows df m : (len (mask_rows df m) <= len df)%Z.
Proof.
  unfold len, mask_rows. simpl.
  pose proof (mask_list_length m (index df)). lia.
Qed.

Lemma duplicated_first_length rows :
  forall seen ds, duplicated_first seen rows = Ok ds -> List.length ds = List.length rows.
Proof.
  induction rows as [|k rows IH]; intros seen ds H; simpl in H.
  - now inversion H.
  - destruct (occurs k seen) as [d|]; simpl in H; [|discriminate H].
    destruct (duplicated_first (k :: seen) rows) as [ds'|] eqn:E; simpl in H; [|discriminate H].
    inversion H. simpl. now rewrite (IH _ _ E).
Qed.

Lemma duplicated_first_head k rows ds :
  duplicated_first [] (k :: rows) = Ok ds -> exists ds', ds = false :: ds'.
Proof.
  simpl. destruct (duplicated_first [k] rows) as [ds'|]; simpl; intros H; inversion H.
  now exists ds'.
Qed.

Lemma duplicated_length rows keep dup :
  duplicated rows keep = Ok dup -> List.length dup = List.length rows.
Proof.
  unfold duplicated. intros H.
  destruct keep as [s|].
  - destruct (String.eqb s "first") eqn:E1.
    + apply String.eqb_eq in E1. subst s. now apply duplicated_first_length in H.
    + destruct (String.eqb s "last") eqn:E2.
      * apply String.eqb_eq in E2. subst s.
        destruct (duplicated_first [] (rev rows)) as [ds|] eqn:E; simpl in H; [|discriminate H].
        inversion H. rewrite length_rev, (duplicated_first_length _ _ _ E). apply length_rev.
      * exfalso. revert H.
        repeat match goal with
               | |- context [match ?x with _ => _ end] => destruct x; try discriminate
               end;
          simpl in E1, E2; try discriminate.
  - destruct (duplicated_first [] rows) as [a|] eqn:Ea; simpl in H; [|discriminate H].
    destruct (duplicated_first [] (rev rows)) as [b|] eqn:Eb; simpl in H; [|discriminate H].
    inversion H. rewrite length_map, length_combine, length_rev.
    rewrite (duplicated_first_length _ _ _ Ea), (duplicated_first_length _ _ _ Eb), length_rev.
    lia.
Qed.

Lemma remove_duplicates_applied df columns keep w df_result message w' :
  remove_duplicates df columns keep w = (Return (df_result, message), w') ->
  transformation_history w' <> transformation_history w ->
  (exists subset, drop_duplicates df subset keep = Ok df_result)
  /\ message = "Removed " ++ PyStr.of_Z (len df - len df_result) ++ " duplicate rows".
Proof.
  intros H Hh. revert H. unfold remove_duplicates. run; intros H; inversion H; subst;
    try (exfalso; apply Hh; reflexivity); split; eauto.
Qed.

Lemma drop_duplicates_rows df subset keep d :
  drop_duplicates df subset keep = Ok d ->
  d = df
  \/ exists rows dup,
       duplicated rows keep = Ok dup
       /\ List.length rows = List.length (index df)
       /\ d = mask_rows df (map negb dup).
Proof.
  unfold drop_duplicates. destruct (empty df); [intros H; inversion H; now left|].
  destruct (unique _); [|discriminate].
  match goal with
  | |- context [duplicated ?rows keep] => destruct (duplicated rows keep) as [dup|] eqn:E
  end; simpl; intros H; inversion H.
  right. eexists _, dup. split; [exact E|]. split; [|reflexivity].
  unfold positions. now rewrite length_map, length_seq.
Qed.

(** X2.  [remove_duplicates] only takes rows out.  When it succeeds, the
    table it returns is the input table, or the input table with the rows
    under one mask removed from the index and from every column alike: the
    columns are the same, no row is added, and the message gives the number of
    rows that went, [rows_before - rows_after].  With [keep='first'] the first
    row of the table always stays, with [keep='last'] the last one. *)
Theorem remove_duplicates_only_takes_rows_out :
  forall df columns keep w df_result message w',
    remove_duplicates df columns keep w = (Return (df_result, message), w') ->
    transformation_history w' <> transformation_history w ->
    (df_result = df
     \/ exists dup,
          List.length dup = List.length (index df)
          /\ df_result = mask_rows df (map negb dup))
    /\ columns_of df_result = columns_of df
    /\ (len df_result <= len df)%Z
    /\ message = "Removed " ++ PyStr.of_Z (len df - len df_result) ++ " duplicate rows"
    /\ (forall i rest,
           index df = i :: rest -> keep = KeepStr "first" ->
           exists rest', index df_result = i :: rest')
    /\ (forall i front,
           index df = (front ++ [i])%list -> keep = KeepStr "last" ->
           exists front', index df_result = (front' ++ [i])%list).
Proof.
  intros df columns keep w df_result message w' H Hh.
  destruct (remove_duplicates_applied _ _ _ _ _ _ _ H Hh) as [[subset Hd] Hm].
  destruct (drop_duplicates_rows _ _ _ _ Hd) as [-> | [rows [dup [Hdup [Hlen ->]]]]].
  - repeat split; try assumption; try lia; eauto.
  - pose proof (duplicated_length _ _ _ Hdup) as Hl. rewrite Hlen in Hl.
    split; [right; eauto|].
    split; [apply columns_of_map_columns|].
    split; [apply len_mask_rows|].
    split; [exact Hm|].
    split.
    + intros i rest Hi ->. simpl. rewrite Hi.
      destruct rows as [|k rows]; [rewrite Hi in Hlen; discriminate Hlen|].
      destruct (duplicated_first_head _ _ _ Hdup) as [ds' ->].
      simpl. eauto.
    + intros i front Hi ->. simpl. rewrite Hi.
      simpl in Hdup.
      destruct (duplicated_first [] (rev rows)) as [ds|] eqn:E; simpl in Hdup;
        [|discriminate Hdup].
      inversion Hdup; subst dup.
      destruct (rev rows) as [|k rrows] eqn:Er.
      * apply (f_equal (@List.length _)) in Er. rewrite length_rev, Hlen, Hi in Er.
        rewrite length_app in Er. simpl in Er. lia.
      * destruct (duplicated_first_head _ _ _ E) as [ds' ->].
        simpl. rewrite map_app. simpl.
        rewrite mask_list_app.
        -- simpl. eauto.
        -- rewrite length_map, length_rev.
           rewrite Hi in Hl. simpl in Hl.
           rewrite !length_app, ?length_rev in Hl. simpl in Hl. lia.
Qed.

Lemma mask_list_In {A : Type} (m : list bool) (l : list A) (x : A) :
  In x (mask_list m l) ->
  exists i, nth_error l i = Some x /\ nth_error m i = Some true.
Proof.
  revert l. induction m as [|b m IH]; intros [|y l] H; simpl in H; try contradiction.
  destruct b.
  - destruct H as [<- | H]; [exists 0%nat; now split|].
    destruct (IH _ H) as [i Hi]. now exists (S i).
  - destruct (IH _ H) as [i Hi]. now exists (S i).
Qed.

Lemma lookup_all_mask_rows df m c :
  lookup_all (mask_rows df m) c = map (mask_list m) (lookup_all df c).
Proof.
  unfold lookup_all, mask_rows, map_columns. simpl.
  induction (data df) as [|nc l IH]; simpl; [reflexivity|].
  destruct (String.eqb (fst nc) c); simpl; now rewrite IH.
Qed.

Lemma mem_In (x : string) (l : list string) : PyStr.mem x l = true <-> In x l.
Proof.
  unfold PyStr.mem. rewrite existsb_exists. split.
  - intros [y [Hy E]]. apply String.eqb_eq in E. now subst.
  - intros H. exists x. split; [exact H | apply String.eqb_refl].
Qed.

Lemma nth_error_seq_eq (n : nat) :
  forall a i j, nth_error (seq a n) i = Some j -> j = (a + i)%nat.
Proof.
  induction n as [|n IH]; intros a [|i] j H; simpl in H; try discriminate.
  - inversion H. lia.
  - apply IH in H. lia.
Qed.

(** The rows [dropna] keeps hold no null in the columns it looks at. *)
Lemma dropna_no_null df names c s v :
  In c names -> In s (lookup_all (dropna df names) c) -> In v s -> isnull v = false.
Proof.
  intros Hc Hs Hv. unfold dropna in Hs. rewrite lookup_all_mask_rows in Hs.
  apply in_map_iff in Hs. destruct Hs as [s0 [<- Hs0]].
  destruct (mask_list_In _ _ _ Hv) as [i [Hi Hm]].
  rewrite nth_error_map in Hm. unfold positions in Hm.
  destruct (nth_error (seq 0 (List.length (index df))) i) as [j|] eqn:Ej;
    simpl in Hm; [|discriminate Hm].
  apply nth_error_seq_eq in Ej. simpl in Ej. subst j.
  inversion Hm as [Hm']. apply negb_true_iff in Hm'.
  destruct (isnull v) eqn:Ev; [|reflexivity].
  assert (existsb isnull
            (row_at (VNull NaN)
               (map snd (filter (fun nc => PyStr.mem (fst nc) names) (data df))) i) = true);
    [|congruence].
  apply existsb_exists. exists v. split; [|exact Ev].
  unfold row_at. apply in_map_iff. exists s0. split.
  - now apply nth_error_nth.
  - unfold lookup_all in Hs0. apply in_map_iff in Hs0.
    destruct Hs0 as [nc [<- Hnc]]. apply filter_In in Hnc. destruct Hnc as [Hin E].
    apply in_map. apply filter_In. split; [exact Hin|].
    apply String.eqb_eq in E. rewrite E. now apply mem_In.
Qed.

Lemma filter_isnull_none (s : Series) :
  (forall v, In v s -> isnull v = false) -> filter isnull s = [].
Proof.
  induction s as [|x s IH]; intros H; simpl; [reflexivity|].
  rewrite (H x) by now left. apply IH. intros v Hv. apply H. now right.
Qed.

(** A frame without a null in its columns counts none. *)
Lemma count_nulls_none (d : DataFrame) :
  (forall nc v, In nc (data d) -> In v (snd nc) -> isnull v = false) ->
  count_nulls d = 0%Z.
Proof.
  unfold count_nulls. intros H.
  assert (E : list_sum (map (fun c => List.length (filter isnull (snd c))) (data d)) = 0%nat);
    [|now rewrite E].
  induction (data d) as [|nc l IH]; simpl; [reflexivity|].
  rewrite IH by (intros nc' v Hnc Hv; apply (H nc' v); [now right | exact Hv]).
  rewrite filter_isnull_none; [reflexivity|].
  intros v Hv. apply (H nc v); [now left | exact Hv].
Qed.

Lemma getitem_list_columns df keys sub nc :
  getitem_list df keys = Ok sub ->
  In nc (data sub) ->
  In (fst nc) keys /\ In (snd nc) (lookup_all df (fst nc)).
Proof.
  unfold getitem_list. destruct keys as [|k keys]; [intros H; inversion H; contradiction|].
  destruct (unique _); [|discriminate]. intros H Hin. inversion H; subst sub. cbn [data] in Hin.
  assert (Hk : exists k0, In k0 (k :: keys)
                          /\ In nc (filter (fun nc => String.eqb (fst nc) k0) (data df))).
  { apply in_app_or in Hin. destruct Hin as [Hin | Hin].
    - exists k. split; [now left | exact Hin].
    - apply in_flat_map in Hin. destruct Hin as [k0 [H1 H2]].
      exists k0. split; [now right | exact H2]. }
  destruct Hk as [k0 [Hk Hnc]].
  apply filter_In in Hnc. destruct Hnc as [Hd E]. apply String.eqb_eq in E.
  split; [now rewrite E|].
  unfold lookup_all. apply in_map. apply filter_In. split; [exact Hd | apply String.eqb_refl].
Qed.

(** What a successful [handle_missing_values] has done, method by method. *)
Lemma handle_missing_values_drop_applied df columns fill_value w d message w' :
  handle_missing_values df "drop" columns fill_value w = (Return (d, message), w') ->
  transformation_history w' <> transformation_history w ->
  d = dropna df (target_columns_of df columns)
  /\ exists sub sub_after,
       getitem_list df (target_columns_of df columns) = Ok sub
       /\ getitem_list d (target_columns_of df columns) = Ok sub_after
       /\ message = "Handled " ++ PyStr.of_Z (count_nulls sub - count_nulls sub_after)
                    ++ " missing values using drop".
Proof.
  intros H Hh. revert H. unfold handle_missing_values.
  fold (target_columns_of df columns). simpl (String.eqb _ _).
  run; intros H; inversion H; subst;
    try (exfalso; apply Hh; reflexivity).
  split; [reflexivity|]. eauto.
Qed.

(** X3.  After a successful [handle_missing_values] with the method [drop]
    no target column holds a missing value: the table returned is the input
    table without the rows that have one there (the target columns are the
    ones given, or all of them).  Columns are kept, no row is added, and the
    number in the message is the number of missing cells the target columns
    had, not the number of rows that went. *)
Theorem dropping_rows_leaves_no_missing_value :
  forall df columns fill_value w df_result message w',
    handle_missing_values df "drop" columns fill_value w
    = (Return (df_result, message), w') ->
    transformation_history w' <> transformation_history w ->
    let targets := target_columns_of df columns in
    df_result = dropna df targets
    /\ (forall c s v,
           In c targets -> In s (lookup_all df_result c) -> In v s -> isnull v = false)
    /\ columns_of df_result = columns_of df
    /\ (len df_result <= len df)%Z
    /\ exists sub,
         getitem_list df targets = Ok sub
         /\ message = "Handled " ++ PyStr.of_Z (count_nulls sub)
                      ++ " missing values using drop".
Proof.
  intros df columns fill_value w df_result message w' H Hh targets.
  destruct (handle_missing_values_drop_applied _ _ _ _ _ _ _ H Hh)
    as [Hd [sub [sub_after [Hs [Ha Hm]]]]].
  fold targets in Hd, Hs, Ha.
  assert (Hn : forall c s v,
             In c targets -> In s (lookup_all df_result c) -> In v s -> isnull v = false).
  { intros c s v. rewrite Hd. apply dropna_no_null. }
  split; [exact Hd|]. split; [exact Hn|].
  split; [rewrite Hd; apply columns_of_map_columns|].
  split; [rewrite Hd; apply len_mask_rows|].
  exists sub. split; [exact Hs|].
  rewrite Hm. rewrite (count_nulls_none sub_after), Z.sub_0_r; [reflexivity|].
  intros nc v Hnc Hv. destruct (getitem_list_columns _ _ _ _ Ha Hnc) as [Hk Hl].
  exact (Hn _ _ _ Hk Hl Hv).
Qed.

Lemma lookup_all_update_columns df names f c :
  lookup_all (update_columns df names f) c
  = if PyStr.mem c names then map f (lookup_all df c) else lookup_all df c.
Proof.
  unfold lookup_all, update_columns. simpl.
  induction (data df) as [|nc l IH]; simpl; [now destruct (PyStr.mem c names)|].
  destruct (PyStr.mem (fst nc) names) eqn:Em; simpl;
    destruct (String.eqb (fst nc) c) eqn:E; simpl; rewrite IH;
    try (apply String.eqb_eq in E; rewrite E in Em; rewrite Em);
    try reflexivity; now destruct (PyStr.mem c names).
Qed.

Lemma columns_of_update_columns df names f :
  columns_of (update_columns df names f) = columns_of df.
Proof.
  unfold columns_of, update_columns. simpl. rewrite map_map.
  apply map_ext. intros nc. now destruct (PyStr.mem (fst nc) names).
Qed.

Lemma fillna_no_null v s x : isnull v = false -> In x (fillna v s) -> isnull x = false.
Proof.
  intros Hv Hx. unfold fillna in Hx. apply in_map_iff in Hx.
  destruct Hx as [y [<- _]]. destruct (isnull y) eqn:E; assumption.
Qed.

Lemma handle_missing_values_fill_value_applied df columns v w d message w' :
  handle_missing_values df "fill_value" columns (Some v) w = (Return (d, message), w') ->
  transformation_history w' <> transformation_history w ->
  d = update_columns df (target_columns_of df columns) (fillna v)
  /\ exists sub sub_after,
       getitem_list df (target_columns_of df columns) = Ok sub
       /\ getitem_list d (target_columns_of df columns) = Ok sub_after
       /\ message = "Handled " ++ PyStr.of_Z (count_nulls sub - count_nulls sub_after)
                    ++ " missing values using fill_value".
Proof.
  intros H Hh. revert H. unfold handle_missing_values.
  fold (target_columns_of df columns). simpl (String.eqb _ _).
  run; intros H; inversion H; subst;
    try (exfalso; apply Hh; reflexivity).
  split; [reflexivity|]. eauto.
Qed.

Lemma handle_missing_values_fill_nothing df columns sub w :
  getitem_list df (target_columns_of df columns) = Ok sub ->
  handle_missing_values df "fill_value" columns None w
  = (Return (df, "Error handling missing values: Must specify a fill 'value' or 'method'."),
     logged "ERROR"
       "Error handling missing values: Must specify a fill 'value' or 'method'." w).
Proof.
  intros H. unfold handle_missing_values.
  fold (target_columns_of df columns). simpl (String.eqb _ _).
  cbv beta iota delta [try_except bind call ret raise local copy].
  rewrite H. reflexivity.
Qed.

(** X4.  [handle_missing_values] with the method [fill_value].  With a fill
    value that is not itself missing, a successful call leaves no missing
    value in the target columns: each target column is the input column with
    its missing cells replaced by the value, the other columns, the column
    names and the index are as they were, and the message gives the number of
    missing cells the target columns had.  Without a fill value (the default
    [None]) the call is an error: the input table comes back, the log gets an
    ERROR line and the ledger stays as it was. *)
Theorem filling_a_value_leaves_no_missing_value :
  (forall df columns v w df_result message w',
      handle_missing_values df "fill_value" columns (Some v) w
      = (Return (df_result, message), w') ->
      transformation_history w' <> transformation_history w ->
      isnull v = false ->
      let targets := target_columns_of df columns in
      (forall c s x, In c targets -> In s (lookup_all df_result c) -> In x s ->
                     isnull x = false)
      /\ (forall c, In c targets ->
                    lookup_all df_result c = map (fillna v) (lookup_all df c))
      /\ (forall c, ~ In c targets -> lookup_all df_result c = lookup_all df c)
      /\ columns_of df_result = columns_of df
      /\ index df_result = index df
      /\ exists sub,
           getitem_list df targets = Ok sub
           /\ message = "Handled " ++ PyStr.of_Z (count_nulls sub)
                        ++ " missing values using fill_value")
  /\ (forall df columns sub w,
         getitem_list df (target_columns_of df columns) = Ok sub ->
         exists message,
           handle_missing_values df "fill_value" columns None w
           = (Return (df, message), logged "ERROR" message w)).
Proof.
  split.
  - intros df columns v w df_result message w' H Hh Hv targets.
    destruct (handle_missing_values_fill_value_applied _ _ _ _ _ _ _ H Hh)
      as [Hd [sub [sub_after [Hs [Ha Hm]]]]].
    fold targets in Hd, Hs, Ha.
    assert (Ht : forall c, In c targets ->
                           lookup_all df_result c = map (fillna v) (lookup_all df c)).
    { intros c Hc. rewrite Hd, lookup_all_update_columns.
      apply mem_In in Hc. now rewrite Hc. }
    assert (Hn : forall c s x, In c targets -> In s (lookup_all df_result c) -> In x s ->
                               isnull x = false).
    { intros c s x Hc Hin Hx. rewrite (Ht c Hc) in Hin.
      apply in_map_iff in Hin. destruct Hin as [s0 [<- _]].
      eapply fillna_no_null; eassumption. }
    split; [exact Hn|]. split; [exact Ht|].
    split.
    { intros c Hc. rewrite Hd, lookup_all_update_columns.
      destruct (PyStr.mem c targets) eqn:E; [|reflexivity].
      apply mem_In in E. contradiction. }
    split; [rewrite Hd; apply columns_of_update_columns|].
    split; [now rewrite Hd|].
    exists sub. split; [exact Hs|].
    rewrite Hm. rewrite (count_nulls_none sub_after), Z.sub_0_r; [reflexivity|].
    intros nc x Hnc Hx. destruct (getitem_list_columns _ _ _ _ Ha Hnc) as [Hk Hl].
    exact (Hn _ _ _ Hk Hl Hx).
  - intros df columns sub w H. eexists.
    apply (handle_missing_values_fill_nothing _ _ _ _ H).
Qed.

(* ------------------------------------------------------------------ *)
(** ** Forward and backward fill *)
(* ------------------------------------------------------------------ *)

Lemma ffill_from_length s : forall last, List.length (ffill_from last s) = List.length s.
Proof.
  induction s as [|x s IH]; intros last; simpl; [reflexivity|].
  destruct (isnull x); [destruct last|]; simpl; now rewrite IH.
Qed.

Lemma ffill_from_some s :
  forall v, isnull v = false -> Forall (fun x => isnull x = false) (ffill_from (Some v) s).
Proof.
  induction s as [|x s IH]; intros v Hv; simpl; [constructor|].
  destruct (isnull x) eqn:E; constructor; auto.
Qed.

Lemma ffill_leading s :
  exists top rest,
    ffill s = (top ++ rest)%list
    /\ s = (top ++ skipn (List.length top) s)%list
    /\ Forall (fun x => isnull x = true) top
    /\ Forall (fun x => isnull x = false) rest.
Proof.
  unfold ffill. induction s as [|x s IH]; simpl.
  - exists [], []. repeat split; constructor.
  - destruct (isnull x) eqn:E.
    + destruct IH as [top [rest [H1 [H2 [H3 H4]]]]].
      exists (x :: top), rest. simpl. rewrite H1, <- H2. repeat split; auto.
    + exists [], (x :: ffill_from (Some x) s). simpl. repeat split; auto.
      constructor; [exact E | now apply ffill_from_some].
Qed.

(** A cell after a forward fill: the nearest value above it that is not
    missing, or the cell itself when there is none. *)
Lemma ffill_from_nearest s :
  forall last i y,
    nth_error (ffill_from last s) i = Some y ->
    (exists j, (j <= i)%nat /\ nth_error s j = Some y /\ isnull y = false
               /\ forall k x, (j < k <= i)%nat -> nth_error s k = Some x -> isnull x = true)
    \/ ((forall k x, (k <= i)%nat -> nth_error s k = Some x -> isnull x = true)
        /\ match last with
           | Some v => y = v
           | None => nth_error s i = Some y
           end).
Proof.
  induction s as [|x s IH]; intros last i y H; [destruct i; discriminate H|].
  destruct i as [|i].
  - simpl in H. destruct (isnull x) eqn:E.
    + right. split.
      * intros k x0 Hk Hx. assert (k = 0%nat) by lia. subst k. simpl in Hx.
        inversion Hx. now subst.
      * destruct last; simpl in H; inversion H; reflexivity.
    + left. exists 0%nat. simpl in H. inversion H; subst.
      repeat split; auto. intros k x0 Hk. lia.
  - assert (H' : nth_error (ffill_from (if isnull x then last else Some x) s) i = Some y).
    { simpl in H. destruct (isnull x); [destruct last|]; exact H. }
    destruct (IH _ _ _ H') as [[j [Hj [Hs [Hy Hb]]]] | [Hall Hl]].
    + left. exists (S j). repeat split; auto; [lia|].
      intros k x0 Hk Hx. destruct k as [|k]; [lia|]. simpl in Hx.
      apply (Hb k x0); [lia | exact Hx].
    + destruct (isnull x) eqn:E.
      * right. split; [|destruct last; exact Hl].
        intros k x0 Hk Hx. destruct k as [|k]; simpl in Hx.
        -- inversion Hx. now subst.
        -- apply (Hall k x0); [lia | exact Hx].
      * left. exists 0%nat. subst y. repeat split; auto; [lia|].
        intros k x0 Hk Hx. destruct k as [|k]; [lia|]. simpl in Hx.
        apply (Hall k x0); [lia | exact Hx].
Qed.

Lemma bfill_trailing s :
  exists rest bottom,
    bfill s = (rest ++ bottom)%list
    /\ Forall (fun x => isnull x = false) rest
    /\ Forall (fun x => isnull x = true) bottom.
Proof.
  unfold bfill. destruct (ffill_leading (rev s)) as [top [rest [H1 [_ [H3 H4]]]]].
  exists (rev rest), (rev top). rewrite H1, rev_app_distr.
  repeat split; now apply Forall_rev.
Qed.

Lemma handle_missing_values_fill_applied df method columns fill_value w d message w' :
  method = "forward_fill" \/ method = "backward_fill" ->
  handle_missing_values df method columns fill_value w = (Return (d, message), w') ->
  transformation_history w' <> transformation_history w ->
  d = update_columns df (target_columns_of df columns)
        (if String.eqb method "forward_fill" then ffill else bfill).
Proof.
  intros Hm H Hh. revert H. unfold handle_missing_values.
  fold (target_columns_of df columns).
  destruct Hm as [-> | ->]; simpl (String.eqb _ _);
    run; intros H; inversion H; subst;
    try (exfalso; apply Hh; reflexivity); reflexivity.
Qed.

(** X5.  Forward and backward fill only copy values down (up) a column.
    After a successful [handle_missing_values] with [forward_fill] every cell
    of a target column holds the nearest value above it in the input column
    that is not missing, or is the input cell itself when every cell down to
    it is missing: the missing cells at the top of a column stay, and no
    missing cell is left below a value.  With [backward_fill] the missing
    cells that stay are at the bottom.  Index, column names and the other
    columns are as they were. *)
Theorem fills_copy_the_nearest_value :
  forall df method columns fill_value w df_result message w',
    method = "forward_fill" \/ method = "backward_fill" ->
    handle_missing_values df method columns fill_value w
    = (Return (df_result, message), w') ->
    transformation_history w' <> transformation_history w ->
    let targets := target_columns_of df columns in
    index df_result = index df
    /\ columns_of df_result = columns_of df
    /\ (forall c, ~ In c targets -> lookup_all df_result c = lookup_all df c)
    /\ (method = "forward_fill" ->
        forall c, In c targets ->
          lookup_all df_result c = map ffill (lookup_all df c)
          /\ forall s, In s (lookup_all df c) ->
               List.length (ffill s) = List.length s
               /\ (exists top rest,
                      ffill s = (top ++ rest)%list
                      /\ s = (top ++ skipn (List.length top) s)%list
                      /\ Forall (fun x => isnull x = true) top
                      /\ Forall (fun x => isnull x = false) rest)
               /\ forall i y,
                    nth_error (ffill s) i = Some y ->
                    (exists j, (j <= i)%nat /\ nth_error s j = Some y /\ isnull y = false
                               /\ forall k x, (j < k <= i)%nat -> nth_error s k = Some x ->
                                              isnull x = true)
                    \/ ((forall k x, (k <= i)%nat -> nth_error s k = Some x ->
                                     isnull x = true)
                        /\ nth_error s i = Some y))
    /\ (method = "backward_fill" ->
        forall c, In c targets ->
          lookup_all df_result c = map bfill (lookup_all df c)
          /\ forall s, In s (lookup_all df c) ->
               exists rest bottom,
                 bfill s = (rest ++ bottom)%list
                 /\ Forall (fun x => isnull x = false) rest
                 /\ Forall (fun x => isnull x = true) bottom).
Proof.
  intros df method columns fill_value w df_result message w' Hm H Hh targets.
  pose proof (handle_missing_values_fill_applied _ _ _ _ _ _ _ _ Hm H Hh) as Hd.
  fold targets in Hd.
  split; [now rewrite Hd|].
  split; [rewrite Hd; apply columns_of_update_columns|].
  split.
  { intros c Hc. rewrite Hd, lookup_all_update_columns.
    destruct (PyStr.mem c targets) eqn:E; [|reflexivity].
    apply mem_In in E. contradiction. }
  split.
  - intros -> c Hc. split.
    + rewrite Hd, lookup_all_update_columns. apply mem_In in Hc. now rewrite Hc.
    + intros s _. split; [apply ffill_from_length|].
      split; [apply ffill_leading|].
      intros i y Hy. apply (ffill_from_nearest s None i y Hy).
  - intros -> c Hc. split.
    + rewrite Hd, lookup_all_update_columns. apply mem_In in Hc. now rewrite Hc.
    + intros s _. apply bfill_trailing.
Qed.

(* ------------------------------------------------------------------ *)
(** ** Comparison filters *)
(* ------------------------------------------------------------------ *)

Definition comparison_operator (operator : string) : bool :=
  PyStr.mem operator ["=="; "!="; ">"; "<"; ">="; "<="].

Lemma filter_data_compare_applied df column operator value0 s w d message w' :
  comparison_operator operator = true ->
  lookup_all df column = [s] ->
  filter_data df column operator value0 w = (Return (d, message), w') ->
  transformation_history w' <> transformation_history w ->
  exists mask,
    res_map (compare_cell operator value0) s = Ok mask
    /\ d = mask_rows df mask
    /\ message = "Filtered to " ++ PyStr.of_Z (len d) ++ " rows where Column '"
                 ++ column ++ "' " ++ operator ++ " '" ++ str_value value0 ++ "'".
Proof.
  intros Hop Hs H Hh.
  assert (Hsel : forall op, select_compare df column op value0
                            = let? mask := res_map (compare_cell op value0) s in
                              Ok (mask_rows df mask)).
  { intros op. unfold select_compare, getitem. rewrite Hs. reflexivity. }
  unfold comparison_operator, PyStr.mem in Hop. simpl in Hop.
  revert H. unfold filter_data. rewrite !Hsel.
  repeat (apply orb_prop in Hop;
          destruct Hop as [Hop | Hop];
          [apply String.eqb_eq in Hop; subst operator; simpl (String.eqb _ _);
           run; intros H; inversion H; subst;
           try (exfalso; apply Hh; reflexivity);
           match goal with
           | E : res_bind (res_map ?f s) _ = Ok _ |- _ =>
               destruct (res_map f s) as [mask|] eqn:Em; simpl in E;
               [inversion E; subst; exists mask; repeat split; reflexivity
               | discriminate E]
           end
          |]).
  discriminate Hop.
Qed.


(* ------------------------------------------------------------------ *)
(** ** Sorting on one key *)
(* ------------------------------------------------------------------ *)

Lemma take_list_In {A : Type} (pos : list nat) (l : list A) (x : A) :
  In x (take_list pos l) -> In x l.
Proof.
  unfold take_list. intros H. apply in_flat_map in H. destruct H as [i [_ H]].
  destruct (nth_error l i) eqn:E; [|contradiction].
  destruct H as [<- | []]. eapply nth_error_In, E.
Qed.

Lemma take_list_all {A : Type} (l : list A) : take_list (seq 0 (List.length l)) l = l.
Proof.
  unfold take_list.
  assert (H : forall a (pre : list A),
             List.length pre = a ->
             flat_map (fun i => match nth_error (pre ++ l)%list i with
                                | Some x => [x]
                                | None => []
                                end) (seq a (List.length l)) = l).
  { induction l as [|x l IH]; intros a pre Hp; simpl; [reflexivity|].
    rewrite nth_error_app2 by lia. replace (a - List.length pre)%nat with 0%nat by lia.
    simpl. f_equal.
    specialize (IH (S a) (pre ++ [x])%list). rewrite <- app_assoc in IH. simpl in IH.
    apply IH. rewrite length_app. simpl. lia. }
  apply (H 0%nat []). reflexivity.
Qed.

Lemma take_list_permutation {A : Type} (pos : list nat) (l : list A) :
  Permutation pos (seq 0 (List.length l)) -> Permutation (take_list pos l) l.
Proof.
  intros H. rewrite <- (take_list_all l) at 2.
  unfold take_list. now apply Permutation_flat_map.
Qed.

Lemma mask_list_partition {A : Type} (m : list bool) (l : list A) :
  List.length m = List.length l ->
  Permutation (mask_list (map negb m) l ++ mask_list m l) l.
Proof.
  revert l. induction m as [|b m IH]; intros [|x l] H; simpl in *; try discriminate.
  - constructor.
  - injection H as H. specialize (IH l H). destruct b; simpl.
    + apply Permutation_sym, Permutation_cons_app, Permutation_sym, IH.
    + now constructor.
Qed.

Lemma mask_list_positions (k : Series) (keep : value -> bool) (p : nat) :
  In p (mask_list (map keep k) (seq 0 (List.length k)))
  <-> exists v, nth_error k p = Some v /\ keep v = true.
Proof.
  assert (H : forall a,
             In p (mask_list (map keep k) (seq a (List.length k)))
             <-> exists v, (a <= p)%nat /\ nth_error k (p - a) = Some v /\ keep v = true).
  { induction k as [|x k IH]; intros a; simpl.
    - split; [contradiction|]. intros [v [_ [Hn _]]]. destruct (p - a)%nat; discriminate Hn.
    - destruct (keep x) eqn:E; simpl; rewrite IH; split.
      + intros [<- | [v [Ha [Hn Hv]]]].
        * exists x. rewrite Nat.sub_diag. repeat split; auto.
        * exists v. split; [lia|]. replace (p - a)%nat with (S (p - S a)) by lia.
          now split.
      + intros [v [Ha [Hn Hv]]]. destruct (p - a)%nat as [|q] eqn:Eq.
        * left. lia.
        * right. exists v. split; [lia|]. replace (p - S a)%nat with q by lia. now split.
      + intros [v [Ha [Hn Hv]]]. exists v. split; [lia|].
        replace (p - a)%nat with (S (p - S a)) by lia. now split.
      + intros [v [Ha [Hn Hv]]]. destruct (p - a)%nat as [|q] eqn:Eq.
        * simpl in Hn. inversion Hn. subst. congruence.
        * exists v. split; [lia|]. replace (p - S a)%nat with q by lia. now split. }
  rewrite H. split.
  - intros [v [_ [Hn Hv]]]. rewrite Nat.sub_0_r in Hn. eauto.
  - intros [v [Hn Hv]]. exists v. rewrite Nat.sub_0_r. repeat split; auto. lia.
Qed.

Lemma mask_list_length_map {A : Type} (f : A -> bool) (l : list A) :
  List.length (mask_list (map f l) l) = List.length (filter f l).
Proof.
  induction l as [|x l IH]; simpl; [reflexivity|].
  destruct (f x); simpl; now rewrite IH.
Qed.

Lemma mask_list_seq_length {A : Type} (f : A -> bool) (l : list A) (a : nat) :
  List.length (mask_list (map f l) (seq a (List.length l)))
  = List.length (mask_list (map f l) l).
Proof.
  revert a. induction l as [|x l IH]; intros a; simpl; [reflexivity|].
  destruct (f x); simpl; now rewrite IH.
Qed.

(** What [nargsort] returns: the positions of the keys that are not missing,
    in the order numpy gives them, then the positions of the missing keys as
    they stand. *)
Lemma nargsort_missing_last k ascending indexer :
  nargsort k ascending = Ok indexer ->
  exists front,
    indexer = (front ++ mask_list (map isnull k) (seq 0 (List.length k)))%list
    /\ (forall p, In p front -> exists v, nth_error k p = Some v /\ isnull v = false)
    /\ ((forall s order, np_argsort s = Ok order ->
                         Permutation order (seq 0 (List.length s))) ->
        Permutation indexer (seq 0 (List.length k))).
Proof.
  unfold nargsort. rewrite map_map.
  set (idx := seq 0 (List.length k)).
  set (live := mask_list (map (fun v => negb (isnull v)) k) idx).
  set (vals := mask_list (map (fun v => negb (isnull v)) k) k).
  assert (Hlive : forall p, In p live -> exists v, nth_error k p = Some v /\ isnull v = false).
  { intros p Hp. apply (mask_list_positions k (fun v => negb (isnull v))) in Hp.
    destruct Hp as [v [Hn Hv]]. exists v. split; [exact Hn|]. now apply negb_true_iff. }
  assert (Hlen : List.length live = List.length vals).
  { apply mask_list_seq_length. }
  assert (Hpart : Permutation (live ++ mask_list (map isnull k) idx) idx).
  { unfold live.
    replace (map (fun v => negb (isnull v)) k) with (map negb (map isnull k))
      by (rewrite map_map; reflexivity).
    apply mask_list_partition. unfold idx. now rewrite length_map, length_seq. }
  destruct ascending.
  - destruct (np_argsort vals) as [order|] eqn:E; simpl; intros H; inversion H.
    exists (take_list order live). split; [reflexivity|]. split.
    + intros p Hp. apply Hlive. eapply take_list_In, Hp.
    + intros Hperm. eapply Permutation_trans; [|exact Hpart].
      apply Permutation_app_tail. apply take_list_permutation.
      rewrite Hlen. apply (Hperm _ _ E).
  - destruct (np_argsort (rev vals)) as [order|] eqn:E; simpl; intros H; inversion H.
    exists (rev (take_list order (rev live))). split; [reflexivity|]. split.
    + intros p Hp. apply Hlive. apply in_rev in Hp. apply take_list_In in Hp.
      now apply in_rev in Hp.
    + intros Hperm. eapply Permutation_trans; [|exact Hpart].
      apply Permutation_app_tail.
      eapply Permutation_trans; [apply Permutation_sym, Permutation_rev|].
      eapply Permutation_trans; [|apply Permutation_sym, Permutation_rev].
      apply take_list_permutation.
      rewrite length_rev, Hlen, <- (length_rev vals). apply (Hperm _ _ E).
Qed.

Lemma mask_list_seq_sorted (m : list bool) :
  forall a n, StronglySorted Nat.lt (mask_list m (seq a n)).
Proof.
  induction m as [|b m IH]; intros a [|n]; simpl; try constructor.
  destruct b; [|apply IH].
  constructor; [apply IH|].
  apply Forall_forall. intros x Hx.
  destruct (mask_list_In _ _ _ Hx) as [i [Hi _]].
  apply nth_error_seq_eq in Hi. lia.
Qed.

Lemma sort_values_single df c flags d :
  sort_values df [c] flags = Ok d ->
  exists k asc indexer,
    label_values df c = Ok k /\ nargsort k asc = Ok indexer /\ d = take_rows df indexer.
Proof.
  unfold sort_values.
  destruct (negb (List.length [c] =? List.length flags)%nat) eqn:El; [discriminate|].
  simpl. destruct (label_values df c) as [k|] eqn:Ek; [|discriminate].
  destruct flags as [|asc flags]; [discriminate El|].
  intros H. simpl in H.
  destruct (nargsort k asc) as [indexer|] eqn:E; simpl in H; [|discriminate H].
  inversion H. exists k, asc, indexer. auto.
Qed.

(** X7.  Sorting on one column puts the rows without a key last.  After a
    successful [sort_data] on a single column, ascending or descending, the
    table returned is the input table with its rows taken in this order: first
    rows whose key is not missing (in the order numpy's argsort gives them),
    then every row whose key is missing, in the order they had.  When the
    argsort returns a permutation, as numpy's does, every row of the input is
    there exactly once. *)
Theorem single_key_sort_puts_missing_keys_last :
  forall df c ascending w df_result message w',
    sort_data df [c] ascending w = (Return (df_result, message), w') ->
    transformation_history w' <> transformation_history w ->
    exists k front missing,
      label_values df c = Ok k
      /\ df_result = take_rows df (front ++ missing)%list
      /\ (forall p, In p front -> exists v, nth_error k p = Some v /\ isnull v = false)
      /\ (forall p, In p missing <-> exists v, nth_error k p = Some v /\ isnull v = true)
      /\ StronglySorted Nat.lt missing
      /\ ((forall s order, np_argsort s = Ok order ->
                           Permutation order (seq 0 (List.length s))) ->
          Permutation (front ++ missing)%list (seq 0 (List.length k))).
Proof.
  intros df c ascending w df_result message w' H Hh.
  pose proof (sort_data_applied _ _ _ _ _ _ _ H Hh) as Hs.
  destruct (sort_values_single _ _ _ _ Hs) as [k [asc [indexer [Hk [Hn ->]]]]].
  destruct (nargsort_missing_last _ _ _ Hn) as [front [-> [Hf Hp]]].
  exists k, front, (mask_list (map isnull k) (seq 0 (List.length k))).
  split; [exact Hk|]. split; [reflexivity|]. split; [exact Hf|].
  split; [apply mask_list_positions|].
  split; [apply mask_list_seq_sorted | exact Hp].
Qed.

(* ------------------------------------------------------------------ *)
(** ** Renaming columns, and renaming them back *)
(* ------------------------------------------------------------------ *)

(** The name [df.rename(columns=mapping)] gives a label, and a mapping turned
    round. *)
Definition renamed (mapping : list (string * string)) (label : string) : string :=
  match dict_get mapping label with
  | Some new => new
  | None => label
  end.

Definition turned_round (mapping : list (string * string)) : list (string * string) :=
  map (fun kv => (snd kv, fst kv)) mapping.

Lemma dict_get_In (d : list (string * string)) (k v : string) :
  dict_get d k = Some v -> In (k, v) d.
Proof.
  induction d as [|[k' v'] d IH]; simpl; [discriminate|].
  destruct (String.eqb k' k) eqn:E.
  - apply String.eqb_eq in E. intros H. inversion H. subst. now left.
  - intros H. right. now apply IH.
Qed.

Lemma dict_get_None (d : list (string * string)) (k : string) :
  dict_get d k = None <-> ~ In k (map fst d).
Proof.
  induction d as [|[k' v'] d IH]; simpl; [split; [intros _ [] | reflexivity]|].
  destruct (String.eqb k' k) eqn:E.
  - apply String.eqb_eq in E. split; [discriminate | intros H; exfalso; apply H; now left].
  - apply String.eqb_neq in E. rewrite IH. split.
    + intros H [H1 | H1]; contradiction.
    + intros H H1. apply H. now right.
Qed.

Lemma dict_get_first (d : list (string * string)) (k v : string) :
  NoDup (map fst d) -> In (k, v) d -> dict_get d k = Some v.
Proof.
  induction d as [|[k' v'] d IH]; simpl; [contradiction|].
  intros Hn [H | H].
  - inversion H. subst. now rewrite String.eqb_refl.
  - inversion Hn as [|x l Hx Hl]; subst.
    destruct (String.eqb k' k) eqn:E; [|now apply IH].
    apply String.eqb_eq in E. subst k'. exfalso. apply Hx.
    apply in_map_iff. now exists (k, v).
Qed.

Lemma turned_round_keys mapping : map fst (turned_round mapping) = map snd mapping.
Proof. unfold turned_round. rewrite map_map. reflexivity. Qed.

Lemma turned_round_In mapping k v : In (k, v) mapping -> In (v, k) (turned_round mapping).
Proof.
  intros H. unfold turned_round. apply in_map_iff. now exists (k, v).
Qed.

Lemma renamed_back mapping label :
  NoDup (map snd mapping) ->
  (~ In label (map fst mapping) -> ~ In label (map snd mapping)) ->
  renamed (turned_round mapping) (renamed mapping label) = label.
Proof.
  intros Hn Hfresh. unfold renamed at 2.
  destruct (dict_get mapping label) as [new|] eqn:E.
  - apply dict_get_In, turned_round_In in E.
    assert (Hk : NoDup (map fst (turned_round mapping)))
      by (rewrite turned_round_keys; exact Hn).
    unfold renamed. now rewrite (dict_get_first _ _ _ Hk E).
  - apply dict_get_None in E. unfold renamed.
    assert (H : dict_get (turned_round mapping) label = None)
      by (apply dict_get_None; rewrite turned_round_keys; auto).
    now rewrite H.
Qed.

Lemma rename_columns_applied df mapping w :
  not_in_columns df (map fst mapping) = [] ->
  rename_columns df mapping w
  = (Return (rename df mapping,
             "Renamed " ++ PyStr.of_nat (List.length mapping) ++ " columns"),
     recorded "RENAME_COLUMNS"
       ("Renamed " ++ PyStr.of_nat (List.length mapping) ++ " columns")
       (len df) (len (rename df mapping)) (len_columns df) (len_columns (rename df mapping)) w).
Proof.
  intros H. unfold rename_columns. rewrite H. reflexivity.
Qed.

Lemma rename_columns_succeeded df mapping w d message w' :
  rename_columns df mapping w = (Return (d, message), w') ->
  transformation_history w' <> transformation_history w ->
  not_in_columns df (map fst mapping) = [] /\ d = rename df mapping.
Proof.
  intros H Hh. destruct (not_in_columns df (map fst mapping)) as [|c l] eqn:E.
  - rewrite (rename_columns_applied _ _ _ E) in H. inversion H. auto.
  - rewrite rename_columns_invalid in H by (rewrite E; discriminate).
    inversion H. subst. now contradiction Hh.
Qed.

Lemma columns_of_rename df mapping :
  columns_of (rename df mapping) = map (renamed mapping) (columns_of df).
Proof.
  unfold columns_of, rename, renamed. simpl. rewrite !map_map. reflexivity.
Qed.

Lemma not_in_columns_nil df cols :
  not_in_columns df cols = [] <-> forall c, In c cols -> In c (columns_of df).
Proof.
  split.
  - intros H c Hc. destruct (PyStr.mem c (columns_of df)) eqn:E; [now apply mem_In|].
    assert (Hin : In c (not_in_columns df cols)).
    { unfold not_in_columns. apply filter_In. split; [exact Hc | now rewrite E]. }
    rewrite H in Hin. contradiction.
  - intros H. unfold not_in_columns.
    induction cols as [|c cols IH]; simpl; [reflexivity|].
    assert (E : PyStr.mem c (columns_of df) = true) by (apply mem_In, H; now left).
    rewrite E. simpl. apply IH. intros c' Hc'. apply H. now right.
Qed.

Lemma rename_round_trip df mapping :
  NoDup (map snd mapping) ->
  (forall c, In c (columns_of df) -> ~ In c (map fst mapping) -> ~ In c (map snd mapping)) ->
  rename (rename df mapping) (turned_round mapping) = df.
Proof.
  intros Hn Hfresh. destruct df as [idx cols]. unfold rename. simpl. f_equal.
  rewrite map_map. simpl.
  assert (H : forall nc, In nc cols ->
                         (renamed (turned_round mapping) (renamed mapping (fst nc)), snd nc) = nc).
  { intros [n s] Hin. simpl. rewrite renamed_back; [reflexivity | exact Hn |].
    apply Hfresh. unfold columns_of. simpl. apply in_map_iff. now exists (n, s). }
  clear Hfresh. induction cols as [|nc cols IH]; simpl; [reflexivity|].
  f_equal; [apply H; now left | apply IH; intros; apply H; now right].
Qed.

(** X8.  Renaming touches names only, and can be undone.  After a successful
    [rename_columns] the index and the cells of every column are as they were,
    in the same order, and each column carries the name the mapping gives it
    (its own when the mapping has none).  [fix_column_typos] with the same
    mapping returns the same table.  When the mapping is a dict whose new names
    are distinct and none of them is the name of a column that is not renamed,
    a second [rename_columns] with the mapping turned round succeeds and gives
    the input table back. *)
Theorem renaming_is_undone_by_the_mapping_turned_round :
  forall df mapping w df_result message w',
    rename_columns df mapping w = (Return (df_result, message), w') ->
    transformation_history w' <> transformation_history w ->
    index df_result = index df
    /\ map snd (data df_result) = map snd (data df)
    /\ columns_of df_result = map (renamed mapping) (columns_of df)
    /\ (forall w0, exists message0 w0',
           fix_column_typos df mapping w0 = (Return (df_result, message0), w0'))
    /\ (NoDup (map fst mapping) ->
        NoDup (map snd mapping) ->
        (forall c, In c (columns_of df) -> ~ In c (map fst mapping) ->
                   ~ In c (map snd mapping)) ->
        rename_columns df_result (turned_round mapping) w'
        = (Return (df, "Renamed " ++ PyStr.of_nat (List.length mapping) ++ " columns"),
           recorded "RENAME_COLUMNS"
             ("Renamed " ++ PyStr.of_nat (List.length mapping) ++ " columns")
             (len df) (len df) (len_columns df) (len_columns df) w')).
Proof.
  intros df mapping w df_result message w' H Hh.
  destruct (rename_columns_succeeded _ _ _ _ _ _ H Hh) as [Hv ->].
  split; [reflexivity|].
  split; [unfold rename; simpl; rewrite map_map; reflexivity|].
  split; [apply columns_of_rename|].
  split.
  - intros w0. unfold fix_column_typos. rewrite Hv. eexists _, _. reflexivity.
  - intros Hk Hn Hfresh.
    rewrite rename_columns_applied.
    + rewrite (rename_round_trip _ _ Hn Hfresh).
      unfold turned_round. rewrite length_map.
      assert (Hl : len (rename df mapping) = len df) by reflexivity.
      assert (Hc : len_columns (rename df mapping) = len_columns df).
      { unfold len_columns. now rewrite columns_of_rename, length_map. }
      now rewrite Hl, Hc.
    + apply not_in_columns_nil. intros v Hv'. rewrite turned_round_keys in Hv'.
      apply in_map_iff in Hv'. destruct Hv' as [[k v'] [Hs Hin]]. simpl in Hs. subst v'.
      rewrite columns_of_rename. apply in_map_iff. exists k. split.
      * unfold renamed. now rewrite (dict_get_first _ _ _ Hk Hin).
      * apply (proj1 (not_in_columns_nil df (map fst mapping)) Hv).
        apply in_map_iff. now exists (k, v).
Qed.

(* ------------------------------------------------------------------ *)
(** ** Dropping columns *)
(* ------------------------------------------------------------------ *)

(** [df] without the columns named in [cols]. *)
Definition without_columns (df : DataFrame) (cols : list string) : DataFrame :=
  {| index := index df;
     data := filter (fun nc => negb (PyStr.mem (fst nc) cols)) (data df) |}.

Lemma drop_columns_applied df cols w :
  not_in_columns df cols = [] ->
  drop_columns df cols w
  = (Return (without_columns df cols,
             "Dropped " ++ PyStr.of_nat (List.length cols) ++ " columns"),
     recorded "DROP_COLUMNS" ("Dropped columns: " ++ PyStr.join ", " cols)
       (len df) (len (without_columns df cols))
       (len_columns df) (len_columns (without_columns df cols)) w).
Proof.
  intros H. unfold drop_columns, drop. rewrite H. reflexivity.
Qed.

Lemma drop_columns_succeeded df cols w d message w' :
  drop_columns df cols w = (Return (d, message), w') ->
  transformation_history w' <> transformation_history w ->
  not_in_columns df cols = [] /\ d = without_columns df cols.
Proof.
  intros H Hh. destruct (not_in_columns df cols) as [|c l] eqn:E.
  - rewrite (drop_columns_applied _ _ _ E) in H. inversion H. split; reflexivity.
  - rewrite drop_columns_invalid in H by (rewrite E; discriminate).
    inversion H. subst. now contradiction Hh.
Qed.

Lemma lookup_all_without_columns df cols c :
  lookup_all (without_columns df cols) c
  = if PyStr.mem c cols then [] else lookup_all df c.
Proof.
  unfold lookup_all, without_columns. simpl.
  induction (data df) as [|nc l IH]; simpl; [now destruct (PyStr.mem c cols)|].
  destruct (PyStr.mem (fst nc) cols) eqn:Em; simpl;
    destruct (String.eqb (fst nc) c) eqn:E; simpl; rewrite IH;
    try (apply String.eqb_eq in E; rewrite E in Em; rewrite Em);
    reflexivity.
Qed.

Lemma columns_of_without_columns df cols :
  columns_of (without_columns df cols)
  = filter (fun c => negb (PyStr.mem c cols)) (columns_of df).
Proof.
  unfold columns_of, without_columns. simpl.
  induction (data df) as [|nc l IH]; simpl; [reflexivity|].
  destruct (PyStr.mem (fst nc) cols); simpl; now rewrite IH.
Qed.

Lemma without_no_columns df : without_columns df [] = df.
Proof.
  destruct df as [idx cols]. unfold without_columns. simpl. f_equal.
  induction cols as [|nc l IH]; simpl; [reflexivity | now rewrite IH].
Qed.

Lemma not_in_columns_all df cols :
  (forall c, In c cols -> ~ In c (columns_of df)) -> not_in_columns df cols = cols.
Proof.
  intros H. unfold not_in_columns. induction cols as [|c cols IH]; simpl; [reflexivity|].
  destruct (PyStr.mem c (columns_of df)) eqn:E.
  - apply mem_In in E. exfalso. apply (H c); [now left | exact E].
  - simpl. f_equal. apply IH. intros c' Hc'. apply H. now right.
Qed.

(** X9.  Dropping columns.  After a successful [drop_columns] the table has
    the columns that were not named, in their order and with their cells, and
    none under a name that was; the index is as it was, and with an empty list
    the table comes back whole (and a record is appended all the same).  The
    same call a second time, on the table returned, is a validation failure
    that names every column of the list: nothing is left to drop. *)
Theorem dropped_columns_are_gone :
  forall df cols w df_result message w',
    drop_columns df cols w = (Return (df_result, message), w') ->
    transformation_history w' <> transformation_history w ->
    index df_result = index df
    /\ columns_of df_result = filter (fun c => negb (PyStr.mem c cols)) (columns_of df)
    /\ (forall c, In c cols -> lookup_all df_result c = [])
    /\ (forall c, ~ In c cols -> lookup_all df_result c = lookup_all df c)
    /\ (cols = [] -> df_result = df)
    /\ (cols <> [] ->
        drop_columns df_result cols w'
        = (Return (df_result, "Columns not found: " ++ PyStr.join ", " cols), w')).
Proof.
  intros df cols w df_result message w' H Hh.
  destruct (drop_columns_succeeded _ _ _ _ _ _ H Hh) as [Hv ->].
  split; [reflexivity|].
  split; [apply columns_of_without_columns|].
  split.
  { intros c Hc. rewrite lookup_all_without_columns. apply mem_In in Hc. now rewrite Hc. }
  split.
  { intros c Hc. rewrite lookup_all_without_columns.
    destruct (PyStr.mem c cols) eqn:E; [apply mem_In in E; contradiction | reflexivity]. }
  split.
  { intros ->. apply without_no_columns. }
  intros Hne.
  assert (Hall : not_in_columns (without_columns df cols) cols = cols).
  { apply not_in_columns_all. intros c Hc Hin.
    rewrite columns_of_without_columns in Hin. apply filter_In in Hin.
    destruct Hin as [_ Hm]. apply mem_In in Hc. rewrite Hc in Hm. discriminate Hm. }
  rewrite drop_columns_invalid by (rewrite Hall; exact Hne).
  now rewrite Hall.
Qed.

(* ------------------------------------------------------------------ *)
(** ** Target types the conversion does not know *)
(* ------------------------------------------------------------------ *)

Definition known_type (target_type : string) : bool :=
  PyStr.mem target_type ["int"; "float"; "string"; "datetime"; "boolean"; "category"].

Lemma convert_column_unknown df_result column target_type :
  known_type target_type = false -> convert_column df_result column target_type = Ok df_result.
Proof.
  intros H. unfold known_type, PyStr.mem in H. simpl in H.
  repeat (apply orb_false_elim in H; destruct H as [?E H]).
  unfold convert_column. now rewrite E, E0, E1, E2, E3, E4.
Qed.

Lemma conversions_unknown df type_mapping :
  (forall column target_type,
      In (column, target_type) type_mapping ->
      In column (columns_of df) /\ known_type target_type = false) ->
  forall st,
    fold_left (convert_step df) type_mapping st
    = {| converted_frame := converted_frame st;
         conversion_errors := conversion_errors st;
         successful_conversions :=
           (successful_conversions st
            ++ map (fun entry => fst entry ++ " " ++ arrow ++ " " ++ snd entry)%string
                 type_mapping)%list |}.
Proof.
  induction type_mapping as [|[column target_type] l IH]; intros H st; simpl.
  - rewrite app_nil_r. now destruct st.
  - destruct (H column target_type ltac:(now left)) as [Hc Ht].
    rewrite IH by (intros c t Hin; apply H; now right).
    unfold convert_step. simpl.
    apply mem_In in Hc. rewrite Hc. simpl.
    rewrite (convert_column_unknown _ _ _ Ht). simpl.
    now rewrite <- app_assoc.
Qed.

(** X10.  A target type that is none of [int], [float], [string],
    [datetime], [boolean] and [category] is not refused.  When every entry of
    the mapping names a column of the table and a type that is none of the
    six, [convert_data_types] returns the table exactly as it was and reports
    every entry as converted: the message is [Successfully converted N
    columns] with N the number of entries, without an error part, and a
    CONVERT_TYPES record is appended. *)
Theorem unknown_target_types_count_as_converted :
  forall df type_mapping w,
    (forall column target_type,
        In (column, target_type) type_mapping ->
        In column (columns_of df) /\ known_type target_type = false) ->
    convert_data_types df type_mapping w
    = (Return (df, "Successfully converted "
                   ++ PyStr.of_nat (List.length type_mapping) ++ " columns"),
       recorded "CONVERT_TYPES"
         ("Converted " ++ PyStr.of_nat (List.length type_mapping) ++ " columns")
         (len df) (len df) (len_columns df) (len_columns df) w).
Proof.
  intros df type_mapping w H.
  rewrite convert_data_types_eq. unfold conversions.
  rewrite (conversions_unknown _ _ H). unfold conversion_message. simpl.
  now rewrite length_map.
Qed.

(* ------------------------------------------------------------------ *)
(** ** Calculated columns *)
(* ------------------------------------------------------------------ *)

Lemma replace_from_absent (old new : string) (fuel : nat) :
  forall s, PyStr.contains s old = false -> PyStr.replace_from fuel old new s = s.
Proof.
  induction fuel as [|fuel IH]; intros s H; simpl; [reflexivity|].
  rewrite contains_unfold in H.
  destruct (String.prefix old s); [discriminate H|].
  destruct s as [|c s]; [reflexivity|]. now rewrite IH.
Qed.

Lemma replace_absent (s old new : string) :
  PyStr.contains s old = false -> PyStr.replace s old new = s.
Proof.
  intros H. unfold PyStr.replace. destruct old as [|c old].
  - rewrite contains_unfold in H. destruct s; discriminate H.
  - now apply replace_from_absent.
Qed.

Lemma rewrite_expression_absent (cols : list string) (expression : string) :
  (forall c, In c cols -> PyStr.contains expression c = false) ->
  rewrite_expression cols expression = expression.
Proof.
  unfold rewrite_expression. induction cols as [|c cols IH]; intros H; simpl; [reflexivity|].
  rewrite replace_absent by (apply H; now left).
  apply IH. intros c' Hc'. apply H. now right.
Qed.

Lemma lookup_all_absent df c : PyStr.mem c (columns_of df) = false -> lookup_all df c = [].
Proof.
  unfold PyStr.mem, columns_of, lookup_all. intros H.
  induction (data df) as [|nc l IH]; simpl in *; [reflexivity|].
  apply orb_false_elim in H. destruct H as [H1 H2].
  rewrite String.eqb_sym, H1. now apply IH.
Qed.

Lemma lookup_all_setitem_self df c s s' :
  In s' (lookup_all (setitem df c s) c) -> s' = s.
Proof.
  destruct (PyStr.mem c (columns_of df)) eqn:E.
  - rewrite lookup_all_setitem by exact E. intros H. apply in_map_iff in H.
    now destruct H as [_ [<- _]].
  - unfold setitem. rewrite E. unfold lookup_all. simpl.
    rewrite filter_app, map_app. fold (lookup_all df c).
    rewrite (lookup_all_absent _ _ E). simpl. rewrite String.eqb_refl. simpl.
    intros [<- | []]. reflexivity.
Qed.

Lemma len_columns_setitem df c s :
  len_columns (setitem df c s)
  = if PyStr.mem c (columns_of df) then len_columns df else (len_columns df + 1)%Z.
Proof.
  unfold len_columns. destruct (PyStr.mem c (columns_of df)) eqn:E.
  - now rewrite columns_of_setitem.
  - unfold setitem. rewrite E. unfold columns_of. simpl.
    rewrite map_app, length_app. simpl. lia.
Qed.

Lemma index_setitem df c s : index (setitem df c s) = index df.
Proof. unfold setitem. now destruct (PyStr.mem c (columns_of df)). Qed.

Lemma create_calculated_column_applied df new_column expression w d message w' :
  create_calculated_column df new_column expression w = (Return (d, message), w') ->
  transformation_history w' <> transformation_history w ->
  exists r,
    py_eval (rewrite_expression (columns_of df) expression) df df = Return r
    /\ setitem_result df new_column r = Ok d
    /\ message = "Created calculated column '" ++ new_column ++ "'".
Proof.
  intros H Hh. revert H. unfold create_calculated_column.
  run; intros H; inversion H; subst; try (exfalso; apply Hh; reflexivity).
  eexists. repeat split; eassumption.
Qed.


(* ------------------------------------------------------------------ *)
(** ** Corrections of data values *)
(* ------------------------------------------------------------------ *)

(** A cell the corrections speak of: a text that is one of their keys. *)
Definition is_typo (corrections : list (string * string)) (v : value) : bool :=
  match v with
  | VStr t => PyStr.mem t (map fst corrections)
  | _ => false
  end.

Lemma fold_left_add_from (l : list Z) (a : Z) :
  fold_left Z.add l a = (a + fold_left Z.add l 0)%Z.
Proof.
  revert a. induction l as [|x l IH]; intros a; simpl; [lia|].
  rewrite (IH (a + x)%Z), (IH x). lia.
Qed.

Lemma sum_Z_cons (x : Z) (l : list Z) : sum_Z (x :: l) = (x + sum_Z l)%Z.
Proof. unfold sum_Z. simpl. apply fold_left_add_from. Qed.

Definition hit (v : value) (k : string) : Z :=
  match v with
  | VStr t => if String.eqb t k then 1%Z else 0%Z
  | _ => 0%Z
  end.

Lemma count_equal_cons x s k : count_equal (x :: s) k = (hit x k + count_equal s k)%Z.
Proof.
  unfold count_equal, hit. cbn [filter].
  destruct x as [| | |t| |]; try lia.
  destruct (String.eqb t k); cbn [List.length]; lia.
Qed.

Lemma sum_Z_add {A : Type} (f g : A -> Z) (l : list A) :
  sum_Z (map (fun a => f a + g a)%Z l) = (sum_Z (map f l) + sum_Z (map g l))%Z.
Proof.
  induction l as [|a l IH]; simpl; [reflexivity|].
  rewrite !sum_Z_cons, IH. lia.
Qed.

Lemma sum_Z_zero {A : Type} (f : A -> Z) (l : list A) :
  (forall a, In a l -> f a = 0%Z) -> sum_Z (map f l) = 0%Z.
Proof.
  induction l as [|a l IH]; intros H; simpl; [reflexivity|].
  rewrite sum_Z_cons, (H a) by now left.
  rewrite IH; [reflexivity|]. intros a' Ha'. apply H. now right.
Qed.

Lemma hits_counted (corrections : list (string * string)) (x : value) :
  NoDup (map fst corrections) ->
  sum_Z (map (fun kv => hit x (fst kv)) corrections)
  = if is_typo corrections x then 1%Z else 0%Z.
Proof.
  destruct x as [| | |t| |]; simpl;
    try (intros _; apply sum_Z_zero; reflexivity).
  induction corrections as [|[k v] l IH]; intros Hn; simpl; [reflexivity|].
  inversion Hn as [|k' l' Hk Hl]; subst.
  rewrite sum_Z_cons, (IH Hl). unfold PyStr.mem. simpl.
  destruct (String.eqb t k) eqn:E; simpl; [|reflexivity].
  apply String.eqb_eq in E. subst t.
  destruct (existsb (String.eqb k) (map fst l)) eqn:Em; [|reflexivity].
  exfalso. apply Hk. now apply mem_In.
Qed.

(** The number [fix_data_typos] reports: with the distinct keys of a dict,
    the number of cells whose text is a key. *)
Lemma changes_counted (corrections : list (string * string)) (s : Series) :
  NoDup (map fst corrections) ->
  sum_Z (map (fun kv => count_equal s (fst kv)) corrections)
  = Z.of_nat (List.length (filter (is_typo corrections) s)).
Proof.
  intros Hn. induction s as [|x s IH]; cbn [filter].
  - apply sum_Z_zero. reflexivity.
  - rewrite (map_ext _ (fun kv => hit x (fst kv) + count_equal s (fst kv))%Z)
      by (intros kv; apply count_equal_cons).
    rewrite sum_Z_add, IH, (hits_counted _ _ Hn).
    destruct (is_typo corrections x); cbn [List.length]; lia.
Qed.

Lemma replace_values_cell corrections s i x :
  nth_error s i = Some x ->
  exists y,
    nth_error (replace_values corrections s) i = Some y
    /\ (is_typo corrections x = false -> y = x)
    /\ (forall t, x = VStr t -> is_typo corrections x = true ->
                  exists new, dict_get corrections t = Some new /\ y = VStr new).
Proof.
  intros Hi. unfold replace_values. rewrite nth_error_map, Hi. simpl.
  eexists. split; [reflexivity|]. split.
  - intros Hf. destruct x as [| | |t| |]; try reflexivity. simpl in Hf.
    destruct (dict_get corrections t) eqn:E; [|reflexivity].
    apply dict_get_In in E. exfalso.
    assert (PyStr.mem t (map fst corrections) = true); [|congruence].
    apply mem_In. apply in_map_iff. now exists (t, s0).
  - intros t -> Ht. simpl in Ht. destruct (dict_get corrections t) eqn:E; [eauto|].
    apply dict_get_None in E. apply mem_In in Ht. contradiction.
Qed.

Lemma fix_data_typos_applied df column corrections s w :
  lookup_all df column = [s] ->
  fix_data_typos df column corrections w
  = (Return (setitem df column (replace_values corrections s),
             "Successfully fixed " ++ PyStr.of_nat (List.length corrections)
             ++ " typos in column '" ++ column ++ "' ("
             ++ PyStr.of_Z (sum_Z (map (fun kv => count_equal s (fst kv)) corrections))
             ++ " values changed)"),
     recorded "FIX_DATA_TYPOS"
       ("Fixed data typos in '" ++ column ++ "': " ++ PyStr.repr_dict corrections
        ++ " (" ++ PyStr.of_Z (sum_Z (map (fun kv => count_equal s (fst kv)) corrections))
        ++ " values changed)")
       (len df) (len (setitem df column (replace_values corrections s)))
       (len_columns df) (len_columns (setitem df column (replace_values corrections s))) w).
Proof.
  intros Hs.
  assert (Hm : PyStr.mem column (columns_of df) = true).
  { destruct (PyStr.mem column (columns_of df)) eqn:E; [reflexivity|].
    rewrite (lookup_all_absent _ _ E) in Hs. discriminate Hs. }
  unfold fix_data_typos, assign_converted, getitem, copy. rewrite Hm, Hs. reflexivity.
Qed.

(** X12.  [fix_data_typos] on a column whose label is unique always
    succeeds, and in one pass: a text cell that is a key of the corrections
    becomes the value the dict has for it (also when that value is itself a
    key), every other cell of the column, the other columns and the index are
    as they were.  With the distinct keys of a dict the number of [values
    changed] in the message is the number of cells whose text is a key; these
    are the cells that differ afterwards when no correction maps a text to
    itself. *)
Theorem data_corrections_are_applied_in_one_pass :
  forall df column corrections s w,
    lookup_all df column = [s] ->
    exists df_result message w',
      fix_data_typos df column corrections w = (Return (df_result, message), w')
      /\ transformation_history w' <> transformation_history w
      /\ lookup_all df_result column = [replace_values corrections s]
      /\ (forall c, c <> column -> lookup_all df_result c = lookup_all df c)
      /\ index df_result = index df
      /\ columns_of df_result = columns_of df
      /\ (forall i x, nth_error s i = Some x ->
            exists y,
              nth_error (replace_values corrections s) i = Some y
              /\ (is_typo corrections x = false -> y = x)
              /\ (forall t, x = VStr t -> is_typo corrections x = true ->
                    exists new, dict_get corrections t = Some new /\ y = VStr new)
              /\ ((forall k v, In (k, v) corrections -> k <> v) ->
                  is_typo corrections x = true -> y <> x))
      /\ (NoDup (map fst corrections) ->
          message
          = "Successfully fixed " ++ PyStr.of_nat (List.length corrections)
            ++ " typos in column '" ++ column ++ "' ("
            ++ PyStr.of_nat (List.length (filter (is_typo corrections) s))
            ++ " values changed)").
Proof.
  intros df column corrections s w Hs.
  assert (Hm : PyStr.mem column (columns_of df) = true).
  { destruct (PyStr.mem column (columns_of df)) eqn:E; [reflexivity|].
    rewrite (lookup_all_absent _ _ E) in Hs. discriminate Hs. }
  eexists _, _, _. split; [apply (fix_data_typos_applied _ _ _ _ _ Hs)|].
  split; [intros E; symmetry in E; exact (app_one_neq _ _ E)|].
  split; [rewrite lookup_all_setitem by exact Hm; now rewrite Hs|].
  split; [intros c Hc; now apply lookup_all_setitem_other|].
  split; [apply index_setitem|].
  split; [now apply columns_of_setitem|].
  split.
  - intros i x Hi. destruct (replace_values_cell corrections s i x Hi) as [y [Hy [Hk Ht]]].
    exists y. repeat split; try assumption.
    intros Hne Htypo. destruct x as [| | |t| |]; try discriminate Htypo.
    destruct (Ht t eq_refl Htypo) as [new [Hg ->]].
    intros E. inversion E. subst new. apply dict_get_In in Hg. now apply (Hne t t).
  - intros Hn. rewrite (changes_counted _ _ Hn). reflexivity.
Qed.

(* ------------------------------------------------------------------ *)
(** ** Suggestions for the values of a column *)
(* ------------------------------------------------------------------ *)

(** A value that occurs three times or more, as a text. *)
Definition frequent_text (counts : list (value * nat)) (m : string) : Prop :=
  exists v n, In (v, n) counts /\ (2 < n)%nat /\ m = str_value v.

Definition sound_value_suggestion (counts : list (value * nat))
    (entry : string * list string) : Prop :=
  (exists v n, In (v, n) counts /\ (n <= 2)%nat /\ fst entry = str_value v)
  /\ snd entry <> []
  /\ (List.length (snd entry) <= 2)%nat
  /\ forall m, In m (snd entry) ->
               frequent_text counts m
               /\ PrimFloat.leb Difflib.cutoff_08
                    (Difflib.ratio (PyStr.chars m) (PyStr.chars (fst entry))) = true.

Lemma suggest_value_sound counts found entry :
  In entry counts ->
  Forall (sound_value_suggestion counts) found ->
  Forall (sound_value_suggestion counts) (suggest_value counts found entry).
Proof.
  intros Hin Hf. unfold suggest_value.
  destruct (snd entry <=? 2)%nat eqn:El; [|exact Hf].
  destruct (Difflib.get_close_matches _ _ _ _) as [|m0 ms] eqn:E; [exact Hf|].
  apply Forall_forall. intros [k cands] Hk.
  apply dict_set_In in Hk. destruct Hk as [[-> ->] | Hk];
    [|exact (proj1 (Forall_forall _ _) Hf _ Hk)].
  unfold sound_value_suggestion. cbn [fst snd]. split.
  - exists (fst entry), (snd entry). apply Nat.leb_le in El.
    repeat split; [now destruct entry | exact El].
  - split; [discriminate|].
    split; [rewrite <- E; apply get_close_matches_length|].
    intros m Hm. rewrite <- E in Hm.
    destruct (get_close_matches_sound _ _ _ _ _ Hm) as [Hp Hr].
    split; [|exact Hr].
    apply in_map_iff in Hp. destruct Hp as [[v n] [Hv Hp]].
    apply filter_In in Hp. destruct Hp as [Hp Hn]. cbn [fst snd] in *.
    apply Nat.ltb_lt in Hn. exists v, n. auto.
Qed.

Lemma suggest_values_sound counts :
  forall entries found,
    (forall e, In e entries -> In e counts) ->
    Forall (sound_value_suggestion counts) found ->
    Forall (sound_value_suggestion counts) (fold_left (suggest_value counts) entries found).
Proof.
  induction entries as [|e entries IH]; intros found Hin Hf; simpl; [exact Hf|].
  apply IH; [intros e' He'; apply Hin; now right|].
  apply suggest_value_sound; [apply Hin; now left | exact Hf].
Qed.

Lemma suggest_typo_fixes_for_column df c s w :
  c <> "" ->
  lookup_all df c = [s] ->
  suggest_typo_fixes df (Some c) w
  = (Return {| column_suggestions := [];
               data_suggestions :=
                 if is_object_dtype s
                 then fold_left (suggest_value (value_counts s)) (value_counts s) []
                 else [] |}, w).
Proof.
  intros Hc Hs.
  assert (Hm : PyStr.mem c (columns_of df) = true).
  { destruct (PyStr.mem c (columns_of df)) eqn:E; [reflexivity|].
    rewrite (lookup_all_absent _ _ E) in Hs. discriminate Hs. }
  apply String.eqb_neq in Hc.
  unfold suggest_typo_fixes, getitem. rewrite Hc, Hm, Hs.
  cbv beta iota delta [try_except bind call ret raise negb andb].
  now destruct (is_object_dtype s).
Qed.


(* ------------------------------------------------------------------ *)
(** ** A session: each invocation takes the table the last one returned *)
(* ------------------------------------------------------------------ *)

(** One invocation of a Catalog operation that returns: the table and the
    state before, the table returned and the state after. *)
Inductive invocation (df : DataFrame) (w : World) (df' : DataFrame) (w' : World) : Prop :=
| invoke_remove_duplicates columns keep message :
    remove_duplicates df columns keep w = (Return (df', message), w') ->
    invocation df w df' w'
| invoke_handle_missing_values method columns fill_value message :
    handle_missing_values df method columns fill_value w = (Return (df', message), w') ->
    invocation df w df' w'
| invoke_filter_data column operator value0 message :
    filter_data df column operator value0 w = (Return (df', message), w') ->
    invocation df w df' w'
| invoke_sort_data columns ascending message :
    sort_data df columns ascending w = (Return (df', message), w') ->
    invocation df w df' w'
| invoke_rename_columns column_mapping message :
    rename_columns df column_mapping w = (Return (df', message), w') ->
    invocation df w df' w'
| invoke_drop_columns columns message :
    drop_columns df columns w = (Return (df', message), w') ->
    invocation df w df' w'
| invoke_convert_data_types type_mapping message :
    convert_data_types df type_mapping w = (Return (df', message), w') ->
    invocation df w df' w'
| invoke_create_calculated_column new_column expression message :
    create_calculated_column df new_column expression w = (Return (df', message), w') ->
    invocation df w df' w'
| invoke_text_operations column operation kwargs message :
    text_operations df column operation kwargs w = (Return (df', message), w') ->
    invocation df w df' w'
| invoke_fix_column_typos corrections message :
    fix_column_typos df corrections w = (Return (df', message), w') ->
    invocation df w df' w'
| invoke_fix_data_typos column corrections message :
    fix_data_typos df column corrections w = (Return (df', message), w') ->
    invocation df w df' w'.

(** A session, as the transform page runs one: the table an invocation
    returns (the input table itself when it failed) is the table the next one
    is given. *)
Inductive session : DataFrame -> World -> DataFrame -> World -> Prop :=
| session_start df w : session df w df w
| session_step df w df1 w1 df2 w2 :
    session df w df1 w1 -> invocation df1 w1 df2 w2 -> session df w df2 w2.

(** Records that follow on from one another: each starts from the
    dimensions the one before ended with. *)
Fixpoint chained (rows cols : Z) (records : list HistoryRecord) (rows' cols' : Z) : Prop :=
  match records with
  | [] => rows = rows' /\ cols = cols'
  | r :: rest =>
      rows_before r = rows /\ cols_before r = cols
      /\ rows_changed r = (rows_after r - rows_before r)%Z
      /\ cols_changed r = (cols_after r - cols_before r)%Z
      /\ chained (rows_after r) (cols_after r) rest rows' cols'
  end.

Lemma chained_app rows cols l1 rows1 cols1 l2 rows2 cols2 :
  chained rows cols l1 rows1 cols1 ->
  chained rows1 cols1 l2 rows2 cols2 ->
  chained rows cols (l1 ++ l2)%list rows2 cols2.
Proof.
  revert rows cols. induction l1 as [|r l1 IH]; intros rows cols H1 H2; simpl in *.
  - destruct H1 as [-> ->]. exact H2.
  - destruct H1 as [Hr [Hc [Hrc [Hcc H1]]]].
    split; [exact Hr|]. split; [exact Hc|]. split; [exact Hrc|]. split; [exact Hcc|].
    eapply IH; eassumption.
Qed.

Lemma chained_net rows cols records rows' cols' :
  chained rows cols records rows' cols' ->
  sum_Z (map rows_changed records) = (rows' - rows)%Z
  /\ sum_Z (map cols_changed records) = (cols' - cols)%Z.
Proof.
  revert rows cols. induction records as [|r l IH]; intros rows cols H; simpl in *.
  - destruct H as [-> ->]. unfold sum_Z. simpl. lia.
  - destruct H as [Hr [Hc [Hrc [Hcc H]]]]. destruct (IH _ _ H) as [H1 H2].
    rewrite !sum_Z_cons, H1, H2, Hrc, Hcc. lia.
Qed.

Lemma contained_chained context df w df' message w' :
  contained context df w (Return (df', message), w') ->
  exists records,
    transformation_history w' = (transformation_history w ++ records)%list
    /\ (List.length records <= 1)%nat
    /\ chained (len df) (len_columns df) records (len df') (len_columns df').
Proof.
  intros H. inversion H; subst.
  - exists []. rewrite app_nil_r. repeat split; auto.
  - exists []. rewrite app_nil_r. repeat split; auto.
  - eexists [_]. split; [reflexivity|]. split; [simpl; lia|]. simpl. repeat split.
Qed.

Lemma invocation_chained df w df' w' :
  invocation df w df' w' ->
  exists records,
    transformation_history w' = (transformation_history w ++ records)%list
    /\ (List.length records <= 1)%nat
    /\ chained (len df) (len_columns df) records (len df') (len_columns df').
Proof.
  intros [columns keep message H | method columns fill_value message H
         | column operator value0 message H | columns ascending message H
         | column_mapping message H | columns message H | type_mapping message H
         | new_column expression message H | column operation kwargs message H
         | corrections message H | column corrections message H];
    eapply contained_chained; rewrite <- H.
  - apply remove_duplicates_contained.
  - apply handle_missing_values_contained.
  - apply filter_data_contained.
  - apply sort_data_contained.
  - apply rename_columns_contained.
  - apply drop_columns_contained.
  - apply convert_data_types_contained.
  - destruct (create_calculated_column_contained df new_column expression w)
      as [Hc | [r [Hr _]]]; [exact Hc|].
    rewrite H in Hr. discriminate Hr.
  - apply text_operations_contained.
  - apply fix_column_typos_contained.
  - apply fix_data_typos_contained.
Qed.

Lemma session_chained df w df' w' :
  session df w df' w' ->
  exists records,
    transformation_history w' = (transformation_history w ++ records)%list
    /\ chained (len df) (len_columns df) records (len df') (len_columns df').
Proof.
  induction 1 as [df w | df w df1 w1 df2 w2 _ IH Hi].
  - exists []. rewrite app_nil_r. simpl. auto.
  - destruct IH as [l1 [H1 C1]].
    destruct (invocation_chained _ _ _ _ Hi) as [l2 [H2 [_ C2]]].
    exists (l1 ++ l2)%list. split.
    + rewrite H2, H1. now rewrite app_assoc.
    + eapply chained_app; eassumption.
Qed.



(* ------------------------------------------------------------------ *)
(** ** Conversion to string *)
(* ------------------------------------------------------------------ *)

Lemma res_map_total {A B : Type} (f : A -> B) (l : list A) :
  res_map (fun x => Ok (f x)) l = Ok (map f l).
Proof.
  induction l as [|x l IH]; simpl; [reflexivity | now rewrite IH].
Qed.

Lemma assign_converted_total df c (f : Series -> Series) :
  PyStr.mem c (columns_of df) = true ->
  exists d,
    assign_converted df c (fun s => Ok (f s)) = Ok d
    /\ lookup_all d c = map f (lookup_all df c).
Proof.
  intros Hm. pose proof (lookup_all_nonempty _ _ Hm) as Hn.
  unfold assign_converted, getitem.
  destruct (lookup_all df c) as [|s [|s' l]] eqn:E; [congruence| |]; cbn [res_bind].
  - eexists. split; [reflexivity|]. rewrite lookup_all_setitem by exact Hm. now rewrite E.
  - rewrite res_map_total. cbn [res_bind]. eexists. split; [reflexivity|].
    unfold lookup_all. cbn [data]. apply assign_each_self.
    rewrite length_map. unfold lookup_all in E.
    rewrite <- (length_map snd (filter _ (data df))), E. reflexivity.
Qed.

Lemma astype_str_text s v : In v (astype_str s) -> isnull v = false /\ exists t, v = VStr t.
Proof.
  unfold astype_str. intros H. apply in_map_iff in H. destruct H as [x [<- _]].
  split; [reflexivity | eauto].
Qed.

(** X15.  Conversion to [string] never fails and leaves nothing missing.
    For a mapping with the distinct keys of a dict, a column of the table that
    the mapping sends to [string] comes back with every cell turned into its
    text, the missing ones too ([nan], [None], [NaT], [<NA>]): no cell of it is
    missing afterwards, whatever happens to the other columns of the
    mapping. *)
Theorem string_conversion_leaves_nothing_missing :
  forall df type_mapping w c,
    NoDup (map fst type_mapping) ->
    In (c, "string") type_mapping ->
    In c (columns_of df) ->
    exists df_result message w',
      convert_data_types df type_mapping w = (Return (df_result, message), w')
      /\ lookup_all df_result c = map astype_str (lookup_all df c)
      /\ (forall s v, In s (lookup_all df_result c) -> In v s ->
                      isnull v = false /\ exists t, v = VStr t).
Proof.
  intros df type_mapping w c Hn Hin Hc.
  eexists _, _, _. split; [apply convert_data_types_eq|].
  destruct (conversions_independent df type_mapping Hn) as [Hout _].
  specialize (Hout c "string" Hin). unfold column_outcome in Hout.
  apply mem_In in Hc. rewrite Hc in Hout.
  destruct (assign_converted_total df c astype_str Hc) as [d [Hd Hl]].
  assert (Hcc : convert_column df c "string" = Ok d) by exact Hd.
  rewrite Hcc in Hout.
  assert (Hr : lookup_all (converted_frame (conversions df type_mapping)) c
               = map astype_str (lookup_all df c)) by now rewrite Hout.
  split; [exact Hr|].
  intros s v Hs Hv. rewrite Hr in Hs. apply in_map_iff in Hs.
  destruct Hs as [s0 [<- _]]. now apply astype_str_text in Hv.
Qed.

(* ------------------------------------------------------------------ *)
(** ** Text operations touch one column *)
(* ------------------------------------------------------------------ *)

Lemma text_operations_applied df column operation kwargs w d message w' :
  text_operations df column operation kwargs w = (Return (d, message), w') ->
  transformation_history w' <> transformation_history w ->
  PyStr.mem column (columns_of df) = true
  /\ message = "Applied " ++ operation ++ " operation to '" ++ column ++ "'"
  /\ ((operation = "extract"
       /\ exists texts cells,
            column_texts df column = Ok texts
            /\ str_extract texts (kwargs_get kwargs "pattern") = Ok cells
            /\ d = setitem df (column ++ "_extracted") cells)
      \/ (operation = "replace"
          /\ exists texts replaced,
               column_texts df column = Ok texts
               /\ str_replace texts (kwargs_get kwargs "old_value")
                    (kwargs_get kwargs "new_value") = Ok replaced
               /\ d = setitem df column (map VStr replaced))
      \/ (case_operation operation = true
          /\ exists texts,
               column_texts df column = Ok texts
               /\ d = setitem df column
                        (map (fun t => VStr (case_map operation t)) texts))).
Proof.
  intros H Hh. revert H. unfold text_operations.
  run; intros H; inversion H; subst; try (exfalso; apply Hh; reflexivity);
    repeat match goal with
           | E : negb _ = false |- _ => apply negb_false_iff in E
           | E : String.eqb operation _ = true |- _ => apply String.eqb_eq in E; subst operation
           end;
    (split; [assumption|]); (split; [reflexivity|]).
  - right. right. split; [reflexivity|]. eauto.
  - right. right. split; [reflexivity|]. eauto.
  - right. right. split; [reflexivity|]. eauto.
  - right. right. split; [reflexivity|]. eauto.
  - right. left. split; [reflexivity|]. eauto 6.
  - left. split; [reflexivity|]. eauto 6.
Qed.

Lemma length_append (a b : string) :
  String.length (a ++ b) = (String.length a + String.length b)%nat.
Proof.
  induction a as [|c a IH]; simpl; [reflexivity | now rewrite IH].
Qed.

Lemma append_longer (a b : string) : b <> "" -> (a ++ b)%string <> a.
Proof.
  intros Hb E. apply (f_equal String.length) in E.
  rewrite length_append in E.
  destruct b as [|c b]; [now apply Hb|]. simpl in E. lia.
Qed.

(** X16.  A text operation touches one column.  After a successful
    [text_operations] the index and every column under another name than the
    target are as they were.  For [upper], [lower], [title], [strip] and
    [replace] the target is the column itself and the column names are
    unchanged; [replace] hands [str.replace] the texts of the column with
    [old_value] and [new_value], each the empty text when it is not given.
    For [extract] the target is [<column>_extracted]: the column the pattern
    is read from is not changed, and the table has one column more unless that
    name was taken. *)
Theorem text_operations_touch_one_column :
  forall df column operation kwargs w df_result message w',
    text_operations df column operation kwargs w = (Return (df_result, message), w') ->
    transformation_history w' <> transformation_history w ->
    let target := if String.eqb operation "extract"
                  then column ++ "_extracted" else column in
    index df_result = index df
    /\ (forall c, c <> target -> lookup_all df_result c = lookup_all df c)
    /\ message = "Applied " ++ operation ++ " operation to '" ++ column ++ "'"
    /\ (operation <> "extract" -> columns_of df_result = columns_of df)
    /\ (operation = "extract" ->
        lookup_all df_result column = lookup_all df column
        /\ len_columns df_result
           = (if PyStr.mem target (columns_of df)
              then len_columns df else (len_columns df + 1)%Z))
    /\ (operation = "replace" ->
        exists texts replaced,
          column_texts df column = Ok texts
          /\ str_replace texts (kwargs_get kwargs "old_value")
               (kwargs_get kwargs "new_value") = Ok replaced
          /\ forall s, In s (lookup_all df_result column) -> s = map VStr replaced).
Proof.
  intros df column operation kwargs w df_result message w' H Hh target.
  destruct (text_operations_applied _ _ _ _ _ _ _ _ H Hh) as [Hm [Hmsg Hcase]].
  assert (Hd : exists cells, df_result = setitem df target cells).
  { unfold target.
    destruct Hcase as [[-> [texts [cells [_ [_ ->]]]]]
                      | [[-> [texts [replaced [_ [_ ->]]]]]
                        | [Hop [texts [_ ->]]]]]; simpl (String.eqb _ _); eauto.
    destruct (case_operation_cases _ Hop) as [-> | [-> | [-> | ->]]];
      simpl (String.eqb _ _); eauto. }
  destruct Hd as [cells Hd].
  split; [rewrite Hd; apply index_setitem|].
  split; [intros c Hc; rewrite Hd; now apply lookup_all_setitem_other|].
  split; [exact Hmsg|].
  split.
  { intros Hne. rewrite Hd. unfold target.
    destruct (String.eqb operation "extract") eqn:E;
      [apply String.eqb_eq in E; contradiction|].
    now apply columns_of_setitem. }
  split.
  { intros ->. unfold target in *. simpl (String.eqb _ _) in *. split.
    - rewrite Hd. apply lookup_all_setitem_other.
      intros E. symmetry in E. revert E. apply append_longer. discriminate.
    - rewrite Hd. apply len_columns_setitem. }
  intros ->.
  destruct Hcase as [[Habs _] | [[_ [texts [replaced [Ht [Hr ->]]]]] | [Hop _]]];
    [discriminate Habs | | discriminate Hop].
  exists texts, replaced. split; [exact Ht|]. split; [exact Hr|].
  intros s. apply lookup_all_setitem_self.
Qed.

(* ------------------------------------------------------------------ *)
(** ** Filling never alters a value that is there *)
(* ------------------------------------------------------------------ *)

(** [s'] has the values of [s]: the same length, and every cell of [s] that
    is not missing stands unchanged at its place in [s']. *)
Definition keeps_values (s s' : Series) : Prop :=
  List.length s' = List.length s
  /\ forall i x, nth_error s i = Some x -> isnull x = false -> nth_error s' i = Some x.

(** The same for a table: the index, the names and order of the columns, and
    the values of every column. *)
Definition keeps_table (df d : DataFrame) : Prop :=
  index d = index df
  /\ Forall2 (fun nc nc' => fst nc' = fst nc /\ keeps_values (snd nc) (snd nc'))
       (data df) (data d).

Lemma keeps_values_refl s : keeps_values s s.
Proof. split; auto. Qed.

Lemma keeps_values_trans s1 s2 s3 :
  keeps_values s1 s2 -> keeps_values s2 s3 -> keeps_values s1 s3.
Proof.
  intros [L1 H1] [L2 H2]. split; [congruence|].
  intros i x Hi Hx. apply H2; [now apply H1 | exact Hx].
Qed.

Lemma keeps_table_refl df : keeps_table df df.
Proof.
  split; [reflexivity|]. induction (data df) as [|nc l IH]; constructor; auto.
  split; [reflexivity | apply keeps_values_refl].
Qed.

Lemma keeps_table_trans d1 d2 d3 :
  keeps_table d1 d2 -> keeps_table d2 d3 -> keeps_table d1 d3.
Proof.
  intros [I1 F1] [I2 F2]. split; [congruence|].
  revert F2. generalize (data d3). induction F1 as [|a b l l' [Hn Hk] _ IH];
    intros l3 F2; inversion F2 as [|b' c l2 l3' [Hn' Hk'] F2']; subst; constructor.
  - split; [congruence | eapply keeps_values_trans; eassumption].
  - now apply IH.
Qed.

Lemma fillna_keeps v s : keeps_values s (fillna v s).
Proof.
  unfold fillna. split; [apply length_map|].
  intros i x Hi Hx. rewrite nth_error_map, Hi. simpl. now rewrite Hx.
Qed.

Lemma ffill_from_keeps s :
  forall last i x, nth_error s i = Some x -> isnull x = false ->
                   nth_error (ffill_from last s) i = Some x.
Proof.
  induction s as [|y s IH]; intros last i x Hi Hx; [destruct i; discriminate Hi|].
  destruct i as [|i]; simpl in *.
  - inversion Hi. subst. now rewrite Hx.
  - destruct (isnull y); [destruct last|]; simpl; now apply IH.
Qed.

Lemma ffill_keeps s : keeps_values s (ffill s).
Proof.
  split; [apply ffill_from_length | intros i x; apply ffill_from_keeps].
Qed.

Lemma rev_keeps s s' : keeps_values s s' -> keeps_values (rev s) (rev s').
Proof.
  intros [L H]. split; [now rewrite !length_rev|].
  intros i x Hi Hx. rewrite nth_error_rev in *. rewrite L.
  destruct (i <? List.length s)%nat; [|discriminate Hi].
  now apply H.
Qed.

Lemma bfill_keeps s : keeps_values s (bfill s).
Proof.
  unfold bfill. rewrite <- (rev_involutive s) at 1.
  apply rev_keeps, ffill_keeps.
Qed.

Lemma update_columns_keeps df names f :
  (forall s, keeps_values s (f s)) -> keeps_table df (update_columns df names f).
Proof.
  intros H. split; [reflexivity|]. unfold update_columns. simpl.
  induction (data df) as [|nc l IH]; simpl; constructor; auto.
  destruct (PyStr.mem (fst nc) names); simpl; split; auto using keeps_values_refl.
Qed.

Lemma setitem_keeps df c s s' :
  lookup_all df c = [s] -> keeps_values s s' -> keeps_table df (setitem df c s').
Proof.
  intros Hs Hk.
  assert (Hm : PyStr.mem c (columns_of df) = true).
  { destruct (PyStr.mem c (columns_of df)) eqn:E; [reflexivity|].
    rewrite (lookup_all_absent _ _ E) in Hs. discriminate Hs. }
  unfold setitem. rewrite Hm. split; [reflexivity|]. simpl.
  assert (Hall : forall nc, In nc (data df) -> String.eqb (fst nc) c = true -> snd nc = s).
  { intros nc Hin E.
    assert (Hl : In (snd nc) (lookup_all df c)).
    { unfold lookup_all. apply in_map. apply filter_In. now split. }
    rewrite Hs in Hl. destruct Hl as [<- | []]. reflexivity. }
  clear Hs Hm. induction (data df) as [|nc l IH]; simpl; constructor.
  - destruct (String.eqb (fst nc) c) eqn:E; simpl; split; auto using keeps_values_refl.
    rewrite (Hall nc) by (auto; now left). exact Hk.
  - apply IH. intros nc' Hin. apply Hall. now right.
Qed.

Lemma fill_mode_column_keeps d col d' :
  fill_mode_column d col = Ok d' -> keeps_table d d'.
Proof.
  unfold fill_mode_column, getitem.
  destruct (lookup_all d col) as [|s [|s' l]] eqn:E; cbn [res_bind]; [discriminate| |].
  - destruct (series_mode s) as [|mode_value modes]; intros H; inversion H.
    + apply keeps_table_refl.
    + eapply setitem_keeps; [exact E | apply fillna_keeps].
  - destruct (empty d); intros H; inversion H. apply keeps_table_refl.
Qed.

Lemma fill_mode_columns_keep cols :
  forall d d', res_fold fill_mode_column cols d = Ok d' -> keeps_table d d'.
Proof.
  induction cols as [|c cols IH]; intros d d' H; simpl in H.
  - inversion H. apply keeps_table_refl.
  - destruct (fill_mode_column d c) as [d1|] eqn:E; simpl in H; [|discriminate H].
    eapply keeps_table_trans; [eapply fill_mode_column_keeps, E | now apply IH].
Qed.

(** X17.  Filling never alters a value that is there.  After a successful
    [handle_missing_values] with any method but [drop] (so with [fill_mean],
    [fill_median], [fill_mode], [fill_value], [forward_fill] or
    [backward_fill]) the table has the index it had and the same columns under
    the same names in the same order, each as long as before, and every cell
    that was not missing holds the value it held: only missing cells are ever
    written. *)
Theorem filling_keeps_every_value :
  forall df method columns fill_value w df_result message w',
    method <> "drop" ->
    handle_missing_values df method columns fill_value w
    = (Return (df_result, message), w') ->
    transformation_history w' <> transformation_history w ->
    keeps_table df df_result
    /\ columns_of df_result = columns_of df
    /\ len df_result = len df.
Proof.
  intros df method columns fill_value w df_result message w' Hm H Hh.
  assert (Hk : keeps_table df df_result).
  { revert H. unfold handle_missing_values.
    run; intros H; inversion H; subst; try (exfalso; apply Hh; reflexivity);
      try match goal with
          | E : String.eqb method "drop" = true |- _ =>
              apply String.eqb_eq in E; contradiction
          end;
      first [ apply update_columns_keeps; intros ?; cbv beta;
              first [ apply fillna_keeps | apply ffill_keeps | apply bfill_keeps ]
            | eapply fill_mode_columns_keep; eassumption
            | apply keeps_table_refl ]. }
  split; [exact Hk|]. destruct Hk as [Hi Hf].
  split.
  - unfold columns_of. clear - Hf.
    induction Hf as [|a b l l' [Hn _] _ IH]; simpl; [reflexivity | now rewrite Hn, IH].
  - unfold len. now rewrite Hi.
Qed.

(* ------------------------------------------------------------------ *)
(** ** A case operation twice *)
(* ------------------------------------------------------------------ *)

Ltac every_character c :=
  destruct c as [[] [] [] [] [] [] [] []]; vm_compute; reflexivity.

Lemma upper_char_twice c : PyStr.upper_char (PyStr.upper_char c) = PyStr.upper_char c.
Proof. every_character c. Qed.

Lemma lower_char_twice c : PyStr.lower_char (PyStr.lower_char c) = PyStr.lower_char c.
Proof. every_character c. Qed.

Lemma is_alpha_upper_char c : PyStr.is_alpha (PyStr.upper_char c) = PyStr.is_alpha c.
Proof. every_character c. Qed.

Lemma is_alpha_lower_char c : PyStr.is_alpha (PyStr.lower_char c) = PyStr.is_alpha c.
Proof. every_character c. Qed.

Lemma chars_of_chars l : PyStr.chars (PyStr.of_chars l) = l.
Proof. apply list_ascii_of_string_of_list_ascii. Qed.

Lemma upper_twice t : PyStr.upper (PyStr.upper t) = PyStr.upper t.
Proof.
  unfold PyStr.upper. rewrite chars_of_chars, map_map. f_equal.
  apply map_ext. apply upper_char_twice.
Qed.

Lemma lower_twice t : PyStr.lower (PyStr.lower t) = PyStr.lower t.
Proof.
  unfold PyStr.lower. rewrite chars_of_chars, map_map. f_equal.
  apply map_ext. apply lower_char_twice.
Qed.

Lemma title_chars_twice l :
  forall prev, PyStr.title_chars prev (PyStr.title_chars prev l) = PyStr.title_chars prev l.
Proof.
  induction l as [|c l IH]; intros prev; simpl; [reflexivity|].
  destruct prev.
  - now rewrite lower_char_twice, is_alpha_lower_char, IH.
  - now rewrite upper_char_twice, is_alpha_upper_char, IH.
Qed.

Lemma title_twice t : PyStr.title (PyStr.title t) = PyStr.title t.
Proof.
  unfold PyStr.title. now rewrite chars_of_chars, title_chars_twice.
Qed.

Lemma lstrip_chars_twice l :
  PyStr.lstrip_chars (PyStr.lstrip_chars l) = PyStr.lstrip_chars l.
Proof.
  induction l as [|c l IH]; simpl; [reflexivity|].
  destruct (PyStr.is_space c) eqn:E; [exact IH|]. simpl. now rewrite E.
Qed.

Lemma lstrip_chars_head l c m :
  PyStr.lstrip_chars l = c :: m -> PyStr.is_space c = false.
Proof.
  induction l as [|x l IH]; simpl; [discriminate|].
  destruct (PyStr.is_space x) eqn:E; [exact IH|].
  intros H. inversion H. now subst.
Qed.

Lemma lstrip_chars_suffix l : exists p, l = (p ++ PyStr.lstrip_chars l)%list.
Proof.
  induction l as [|x l [p IH]]; [now exists []|]. simpl.
  destruct (PyStr.is_space x).
  - exists (x :: p). simpl. now f_equal.
  - now exists [].
Qed.

Lemma lstrip_chars_clean l :
  match l with c :: _ => PyStr.is_space c = false | [] => True end ->
  PyStr.lstrip_chars l = l.
Proof. destruct l as [|c l]; [reflexivity|]. simpl. now intros ->. Qed.

Lemma strip_chars_twice l :
  let once := PyStr.lstrip_chars (rev (PyStr.lstrip_chars l)) in
  PyStr.lstrip_chars (rev (PyStr.lstrip_chars (rev once))) = once.
Proof.
  intros once.
  assert (Hb : PyStr.lstrip_chars (rev once) = rev once).
  { apply lstrip_chars_clean.
    destruct (lstrip_chars_suffix (rev (PyStr.lstrip_chars l))) as [p Hp].
    fold once in Hp.
    assert (Ha : PyStr.lstrip_chars l = (rev once ++ rev p)%list).
    { rewrite <- rev_app_distr, <- Hp. now rewrite rev_involutive. }
    destruct (rev once) as [|c m]; [exact I|].
    simpl in Ha. exact (lstrip_chars_head _ _ _ Ha). }
  rewrite Hb, rev_involutive. apply lstrip_chars_twice.
Qed.

Lemma strip_twice t : PyStr.strip (PyStr.strip t) = PyStr.strip t.
Proof.
  unfold PyStr.strip. rewrite chars_of_chars. f_equal. f_equal.
  apply strip_chars_twice.
Qed.

Lemma case_map_twice operation t :
  case_operation operation = true ->
  case_map operation (case_map operation t) = case_map operation t.
Proof.
  intros H. destruct (case_operation_cases _ H) as [-> | [-> | [-> | ->]]];
    unfold case_map; simpl (String.eqb _ _); cbv iota.
  - apply upper_twice.
  - apply lower_twice.
  - apply title_twice.
  - apply strip_twice.
Qed.

Lemma setitem_setitem df c x y :
  PyStr.mem c (columns_of df) = true ->
  setitem (setitem df c x) c y = setitem df c y.
Proof.
  intros H. unfold setitem at 1. rewrite (columns_of_setitem _ _ _ H), H.
  unfold setitem. rewrite H. simpl. f_equal. rewrite map_map.
  apply map_ext. intros nc. destruct (String.eqb (fst nc) c) eqn:E; simpl; now rewrite E.
Qed.

Lemma text_operations_case_eq df column operation kwargs s w :
  case_operation operation = true ->
  lookup_all df column = [s] ->
  exists details,
    text_operations df column operation kwargs w
    = (Return (setitem df column
                 (map (fun v => VStr (case_map operation (str_value v))) s),
               "Applied " ++ operation ++ " operation to '" ++ column ++ "'"),
       recorded "TEXT_OPERATION" details
         (len df) (len df) (len_columns df) (len_columns df) w).
Proof.
  intros Hop Hs.
  assert (Hm : PyStr.mem column (columns_of df) = true).
  { destruct (PyStr.mem column (columns_of df)) eqn:E; [reflexivity|].
    rewrite (lookup_all_absent _ _ E) in Hs. discriminate Hs. }
  assert (Hl : forall cells, len_columns (setitem df column cells) = len_columns df).
  { intros cells. now rewrite len_columns_setitem, Hm. }
  assert (Hr : forall cells, len (setitem df column cells) = len df).
  { intros cells. unfold len. now rewrite index_setitem. }
  destruct (case_operation_cases _ Hop) as [-> | [-> | [-> | ->]]];
    eexists; unfold text_operations, column_texts, getitem, str_accessor, copy;
    rewrite Hm, Hs; cbv beta iota delta [try_except bind call ret raise negb res_bind];
    simpl (String.eqb _ _); cbv beta iota;
    rewrite log_transformation_eq; cbv beta iota;
    rewrite Hl, Hr, map_map; reflexivity.
Qed.


End Engine.

(* ------------------------------------------------------------------ *)
(** ** The operations on concrete tables *)
(* ------------------------------------------------------------------ *)


(** C2 (counterexample).  [convert_data_types(ages, {'age': 'boolean',
    'zzz': 'int'})]: the column [zzz] is missing, and under no engine the
    table comes back as it was; [age] is converted all the same. *)
Lemma convert_data_types_converts_beside_missing_column :
  ~ (exists float_str datetime_str parse_number parse_datetime message w',
        convert_data_types float_str datetime_str parse_number parse_datetime
          ages [("age", "boolean"); ("zzz", "int")] empty_world
        = (Return (ages, message), w')).
Proof.
  intros [fs [ds [pn [pd [message [w' H]]]]]].
  rewrite convert_data_types_eq in H.
  apply (f_equal fst) in H. cbn [fst] in H. vm_compute in H. discriminate H.
Qed.


(** C5 (counterexample).  [convert_data_types(ages, {'age': 'boolean'})]
    converts the column [age], and under no engine the message names it: the
    message is [Successfully converted 1 columns]. *)
Lemma conversion_message_does_not_name_converted_column :
  ~ (exists float_str datetime_str parse_number parse_datetime df_result message w',
        convert_data_types float_str datetime_str parse_number parse_datetime
          ages [("age", "boolean")] empty_world
        = (Return (df_result, message), w')
        /\ mentions message "age").
Proof.
  intros [fs [ds [pn [pd [d [message [w' [H Hm]]]]]]]].
  rewrite convert_data_types_eq in H.
  apply (f_equal fst) in H. cbn [fst] in H.
  assert (Hmsg : message
                 = conversion_message (conversions fs ds pn pd ages [("age", "boolean")]))
    by (injection H; auto).
  rewrite Hmsg in Hm. vm_compute in Hm. discriminate Hm.
Qed.

(** C6 (counterexample).  [sort_data(eighteen, ['k'])] on eighteen rows with
    the same key, with numpy's quicksort for object arrays: the rows 1 to 15
    come back in reverse, so row 15 now stands before row 1, which has the same
    key and stood before it. *)
Lemma single_key_sort_reorders_equal_rows :
  exists df_result message w',
    sort_data compare_plain argsort_quicksort eighteen ["k"] None empty_world
    = (Return (df_result, message), w')
    /\ index eighteen = [0; 1; 2; 3; 4; 5; 6; 7; 8; 9; 10; 11; 12; 13; 14; 15; 16; 17]%Z
    /\ index df_result
       = [0; 15; 14; 13; 12; 11; 10; 9; 8; 7; 6; 5; 4; 3; 2; 1; 16; 17]%Z
    /\ lookup_all df_result "k" = lookup_all eighteen "k"
    /\ List.length (transformation_history w') = 1%nat.
Proof.
  eexists _, _, _. split; [vm_compute; reflexivity|].
  repeat split.
Qed.



(** The amended C2 at work: [sort_data(orders, ['city', 'zzz', 'yyy'])]. *)
Lemma missing_columns_witness :
  not_in_columns orders ["city"; "zzz"; "yyy"] <> []
  /\ exists message,
       sort_data compare_plain argsort_quicksort orders ["city"; "zzz"; "yyy"] None empty_world
       = (Return (orders, message), empty_world)
       /\ names_every_missing orders ["city"; "zzz"; "yyy"] message.
Proof.
  assert (H : not_in_columns orders ["city"; "zzz"; "yyy"] <> []) by discriminate.
  split; [exact H|].
  exact (proj1 (missing_columns_return_input_table
                  (fun _ => "") (fun _ => "") short_index_repr (fun l => l) unbound_local_311
                  compare_plain (fun d _ _ _ => Ok d) (fun l _ => Ok (map (fun _ => false) l))
                  (fun l _ _ => Ok l) (fun l _ => Ok (map VStr l)) argsort_quicksort
                  (fun _ => false) (fun _ => VNull NaN) (fun _ => VNull NaN) (fun _ => [])
                  (fun _ => ""))
           orders ["city"; "zzz"; "yyy"] None empty_world H).
Defined.


(** C10 at work: [text_operations(people, 'name', 'upper')]. *)
Lemma text_case_witness :
  case_operation "upper" = true
  /\ text_operations (fun _ => "") (fun _ => "") (fun l _ _ => Ok l) (fun l _ => Ok (map VStr l))
       people "name" "upper" [] empty_world
     = (Return ({| index := [0; 1; 2]%Z;
                   data := [("name", [VStr "NANCY"; VStr "NAN"; VStr "BOB"])] |},
                "Applied upper operation to 'name'"),
        recorded "TEXT_OPERATION" "Converted 'name' to uppercase" 3 3 1 1 empty_world)
  /\ exists s,
       lookup_all people "name" = [s]
       /\ lookup_all {| index := [0; 1; 2]%Z;
                        data := [("name", [VStr "NANCY"; VStr "NAN"; VStr "BOB"])] |} "name"
          = [map (fun v => VStr (case_map "upper" (str_value (fun _ => "") (fun _ => "") v))) s].
Proof.
  assert (E : text_operations (fun _ => "") (fun _ => "") (fun l _ _ => Ok l)
                (fun l _ => Ok (map VStr l)) people "name" "upper" [] empty_world
              = (Return ({| index := [0; 1; 2]%Z;
                            data := [("name", [VStr "NANCY"; VStr "NAN"; VStr "BOB"])] |},
                         "Applied upper operation to 'name'"),
                 recorded "TEXT_OPERATION" "Converted 'name' to uppercase" 3 3 1 1 empty_world))
    by reflexivity.
  assert (H : transformation_history
                (recorded "TEXT_OPERATION" "Converted 'name' to uppercase" 3 3 1 1 empty_world)
              <> transformation_history empty_world) by discriminate.
  split; [reflexivity|]. split; [exact E|].
  exact (proj1 (text_case_operations_materialize_nulls
                  (fun _ => "") (fun _ => "") (fun l _ _ => Ok l) (fun l _ => Ok (map VStr l))
                  people "name" "upper" [] empty_world _ _ _ eq_refl E H)).
Defined.

(** The amended C5 at work: [convert_data_types(ages, {'age': 'boolean',
    'zzz': 'int'})] with no text that parses; the column [zzz] is missing and
    is reported, the column [age] is converted beside it. *)
Lemma conversion_witness :
  NoDup (map fst [("age", "boolean"); ("zzz", "int")])
  /\ In ("zzz", "int") [("age", "boolean"); ("zzz", "int")]
  /\ column_outcome (fun _ => "") (fun _ => "") (fun _ => None) (fun _ => None) ages
       (conversions (fun _ => "") (fun _ => "") (fun _ => None) (fun _ => None) ages
          [("age", "boolean"); ("zzz", "int")])
       "zzz" "int".
Proof.
  assert (Hd : NoDup (map fst [("age", "boolean"); ("zzz", "int")])).
  { repeat constructor; simpl; intuition discriminate. }
  assert (Hi : In ("zzz", "int") [("age", "boolean"); ("zzz", "int")])
    by (right; left; reflexivity).
  split; [exact Hd|]. split; [exact Hi|].
  pose proof (convert_data_types_is_column_wise
                (fun _ => "") (fun _ => "") (fun _ => None) (fun _ => None)
                ages [("age", "boolean"); ("zzz", "int")] empty_world) as T.
  cbv zeta in T. destruct T as [_ [T _]].
  exact (proj1 (T Hd) "zzz" "int" Hi).
Defined.

(** The amended C6 at work: [sort_data(orders, ['city', 'qty'])]; rows 1 and
    3 agree on both keys and so do rows 0 and 2, and each pair keeps its
    order. *)
Lemma stable_sort_witness :
  rectangular orders
  /\ (2 <= List.length ["city"; "qty"])%nat
  /\ sort_data compare_plain argsort_quicksort orders ["city"; "qty"] None empty_world
     = (Return ({| index := [1; 3; 0; 2]%Z;
                   data := [("city", [VStr "a"; VStr "a"; VStr "b"; VStr "b"]);
                            ("qty", [VInt 1; VInt 1; VInt 2; VInt 2])] |},
                "Sorted data by 2 columns"),
        recorded "SORT_DATA" "Sorted by: city (asc), qty (asc)" 4 4 2 2 empty_world)
  /\ exists keys indexer,
       res_map (label_values orders) ["city"; "qty"] = Ok keys
       /\ {| index := [1; 3; 0; 2]%Z;
             data := [("city", [VStr "a"; VStr "a"; VStr "b"; VStr "b"]);
                      ("qty", [VInt 1; VInt 1; VInt 2; VInt 2])] |}
          = take_rows orders indexer
       /\ Permutation indexer (seq 0 (List.length (index orders)))
       /\ (exists codes,
              res_map (fun ka => key_codes compare_plain (fst ka) (snd ka))
                (combine keys (flags_of ["city"; "qty"] None)) = Ok codes
              /\ Sorted (fun p q => lex_leb (row_at 0%Z codes p) (row_at 0%Z codes q) = true)
                   indexer)
       /\ forall i j,
            (i < j)%nat -> (j < List.length (index orders))%nat ->
            row_at (VNull NaN) keys i = row_at (VNull NaN) keys j ->
            before i j indexer.
Proof.
  assert (Hr : rectangular orders) by (repeat constructor).
  assert (Hl : (2 <= List.length ["city"; "qty"])%nat) by (simpl; lia).
  assert (E : sort_data compare_plain argsort_quicksort orders ["city"; "qty"] None empty_world
              = (Return ({| index := [1; 3; 0; 2]%Z;
                            data := [("city", [VStr "a"; VStr "a"; VStr "b"; VStr "b"]);
                                     ("qty", [VInt 1; VInt 1; VInt 2; VInt 2])] |},
                         "Sorted data by 2 columns"),
                 recorded "SORT_DATA" "Sorted by: city (asc), qty (asc)" 4 4 2 2 empty_world))
    by reflexivity.
  assert (H : transformation_history
                (recorded "SORT_DATA" "Sorted by: city (asc), qty (asc)" 4 4 2 2 empty_world)
              <> transformation_history empty_world) by discriminate.
  split; [exact Hr|]. split; [exact Hl|]. split; [exact E|].
  exact (proj2 (proj2 (sort_data_is_stable_on_several_keys compare_plain argsort_quicksort))
           orders ["city"; "qty"] None empty_world _ _ _ Hr Hl E H).
Defined.


(* ------------------------------------------------------------------ *)
(** ** The further properties on concrete tables *)
(* ------------------------------------------------------------------ *)

(** Four visits, two without a city and one without a number. *)
Definition visits : DataFrame :=
  {| index := [0; 1; 2; 3]%Z;
     data := [("city", [VStr "x"; VNull NaN; VStr "y"; VNull PyNone]);
              ("n", [VInt 1; VInt 2; VNull NaN; VInt 4])] |}.

(** X2 at work: [remove_duplicates(orders)] keeps rows 0 and 1. *)
Lemma remove_duplicates_witness :
  remove_duplicates short_index_repr (fun l => l) compare_plain
    orders None (KeepStr "first") empty_world
  = (Return ({| index := [0; 1]%Z;
                data := [("city", [VStr "b"; VStr "a"]); ("qty", [VInt 2; VInt 1])] |},
             "Removed 2 duplicate rows"),
     recorded "REMOVE_DUPLICATES" "All columns, keep='first'" 4 2 2 2 empty_world)
  /\ columns_of {| index := [0; 1]%Z;
                   data := [("city", [VStr "b"; VStr "a"]); ("qty", [VInt 2; VInt 1])] |}
     = columns_of orders.
Proof.
  assert (E : remove_duplicates short_index_repr (fun l => l) compare_plain
                orders None (KeepStr "first") empty_world
              = (Return ({| index := [0; 1]%Z;
                            data := [("city", [VStr "b"; VStr "a"]);
                                     ("qty", [VInt 2; VInt 1])] |},
                         "Removed 2 duplicate rows"),
                 recorded "REMOVE_DUPLICATES" "All columns, keep='first'" 4 2 2 2 empty_world))
    by reflexivity.
  split; [exact E|].
  exact (proj1 (proj2 (remove_duplicates_only_takes_rows_out
                         short_index_repr (fun l => l) compare_plain
                         _ _ _ _ _ _ _ E ltac:(discriminate)))).
Defined.

(** X3 at work: [handle_missing_values(visits, 'drop', ['city'])]. *)
Lemma dropping_rows_witness :
  handle_missing_values (fun _ => "") (fun _ => "") short_index_repr unbound_local_311
    (fun _ => false) (fun _ => VNull NaN) (fun _ => VNull NaN) (fun _ => [])
    visits "drop" (Some ["city"]) None empty_world
  = (Return ({| index := [0; 2]%Z;
                data := [("city", [VStr "x"; VStr "y"]); ("n", [VInt 1; VNull NaN])] |},
             "Handled 2 missing values using drop"),
     recorded "HANDLE_MISSING" "Dropped rows with missing values in 1 columns"
       4 2 2 2 empty_world)
  /\ {| index := [0; 2]%Z;
        data := [("city", [VStr "x"; VStr "y"]); ("n", [VInt 1; VNull NaN])] |}
     = dropna visits ["city"].
Proof.
  assert (E : handle_missing_values (fun _ => "") (fun _ => "") short_index_repr
                unbound_local_311 (fun _ => false) (fun _ => VNull NaN)
                (fun _ => VNull NaN) (fun _ => [])
                visits "drop" (Some ["city"]) None empty_world
              = (Return ({| index := [0; 2]%Z;
                            data := [("city", [VStr "x"; VStr "y"]);
                                     ("n", [VInt 1; VNull NaN])] |},
                         "Handled 2 missing values using drop"),
                 recorded "HANDLE_MISSING" "Dropped rows with missing values in 1 columns"
                   4 2 2 2 empty_world))
    by reflexivity.
  split; [exact E|].
  exact (proj1 (dropping_rows_leaves_no_missing_value
                  (fun _ => "") (fun _ => "") short_index_repr unbound_local_311
                  (fun _ => false) (fun _ => VNull NaN) (fun _ => VNull NaN) (fun _ => [])
                  _ _ _ _ _ _ _ E ltac:(discriminate))).
Defined.

(** X4 at work: [handle_missing_values(visits, 'fill_value', ['n'], 0)]. *)
Lemma filling_a_value_witness :
  handle_missing_values (fun _ => "") (fun _ => "") short_index_repr unbound_local_311
    (fun _ => false) (fun _ => VNull NaN) (fun _ => VNull NaN) (fun _ => [])
    visits "fill_value" (Some ["n"]) (Some (VInt 0)) empty_world
  = (Return ({| index := [0; 1; 2; 3]%Z;
                data := [("city", [VStr "x"; VNull NaN; VStr "y"; VNull PyNone]);
                         ("n", [VInt 1; VInt 2; VInt 0; VInt 4])] |},
             "Handled 1 missing values using fill_value"),
     recorded "HANDLE_MISSING" "Filled with '0' for 1 columns" 4 4 2 2 empty_world)
  /\ isnull (VInt 0) = false
  /\ lookup_all {| index := [0; 1; 2; 3]%Z;
                   data := [("city", [VStr "x"; VNull NaN; VStr "y"; VNull PyNone]);
                            ("n", [VInt 1; VInt 2; VInt 0; VInt 4])] |} "n"
     = map (fillna (VInt 0)) (lookup_all visits "n").
Proof.
  assert (E : handle_missing_values (fun _ => "") (fun _ => "") short_index_repr
                unbound_local_311 (fun _ => false) (fun _ => VNull NaN)
                (fun _ => VNull NaN) (fun _ => [])
                visits "fill_value" (Some ["n"]) (Some (VInt 0)) empty_world
              = (Return ({| index := [0; 1; 2; 3]%Z;
                            data := [("city", [VStr "x"; VNull NaN; VStr "y"; VNull PyNone]);
                                     ("n", [VInt 1; VInt 2; VInt 0; VInt 4])] |},
                         "Handled 1 missing values using fill_value"),
                 recorded "HANDLE_MISSING" "Filled with '0' for 1 columns" 4 4 2 2
                   empty_world))
    by reflexivity.
  split; [exact E|]. split; [reflexivity|].
  exact (proj1 (proj2 (proj1 (filling_a_value_leaves_no_missing_value
                                (fun _ => "") (fun _ => "") short_index_repr
                                unbound_local_311 (fun _ => false) (fun _ => VNull NaN)
                                (fun _ => VNull NaN) (fun _ => []))
                         _ _ _ _ _ _ _ E ltac:(discriminate) eq_refl))
           "n" ltac:(now left)).
Defined.

(** X5 at work: [handle_missing_values(visits, 'forward_fill')]. *)
Lemma forward_fill_witness :
  ("forward_fill" = "forward_fill" \/ "forward_fill" = "backward_fill")
  /\ handle_missing_values (fun _ => "") (fun _ => "") short_index_repr unbound_local_311
       (fun _ => false) (fun _ => VNull NaN) (fun _ => VNull NaN) (fun _ => [])
       visits "forward_fill" None None empty_world
     = (Return ({| index := [0; 1; 2; 3]%Z;
                   data := [("city", [VStr "x"; VStr "x"; VStr "y"; VStr "y"]);
                            ("n", [VInt 1; VInt 2; VInt 2; VInt 4])] |},
                "Handled 3 missing values using forward_fill"),
        recorded "HANDLE_MISSING" "Forward fill for 2 columns" 4 4 2 2 empty_world)
  /\ index {| index := [0; 1; 2; 3]%Z;
              data := [("city", [VStr "x"; VStr "x"; VStr "y"; VStr "y"]);
                       ("n", [VInt 1; VInt 2; VInt 2; VInt 4])] |}
     = index visits.
Proof.
  assert (E : handle_missing_values (fun _ => "") (fun _ => "") short_index_repr
                unbound_local_311 (fun _ => false) (fun _ => VNull NaN)
                (fun _ => VNull NaN) (fun _ => [])
                visits "forward_fill" None None empty_world
              = (Return ({| index := [0; 1; 2; 3]%Z;
                            data := [("city", [VStr "x"; VStr "x"; VStr "y"; VStr "y"]);
                                     ("n", [VInt 1; VInt 2; VInt 2; VInt 4])] |},
                         "Handled 3 missing values using forward_fill"),
                 recorded "HANDLE_MISSING" "Forward fill for 2 columns" 4 4 2 2 empty_world))
    by reflexivity.
  split; [now left|]. split; [exact E|].
  exact (proj1 (fills_copy_the_nearest_value
                  (fun _ => "") (fun _ => "") short_index_repr unbound_local_311
                  (fun _ => false) (fun _ => VNull NaN) (fun _ => VNull NaN) (fun _ => [])
                  _ _ _ _ _ _ _ _ (or_introl eq_refl) E ltac:(discriminate))).
Defined.

(** X17 at work on the same call. *)
Lemma filling_keeps_witness :
  "forward_fill" <> "drop"
  /\ handle_missing_values (fun _ => "") (fun _ => "") short_index_repr unbound_local_311
       (fun _ => false) (fun _ => VNull NaN) (fun _ => VNull NaN) (fun _ => [])
       visits "forward_fill" None None empty_world
     = (Return ({| index := [0; 1; 2; 3]%Z;
                   data := [("city", [VStr "x"; VStr "x"; VStr "y"; VStr "y"]);
                            ("n", [VInt 1; VInt 2; VInt 2; VInt 4])] |},
                "Handled 3 missing values using forward_fill"),
        recorded "HANDLE_MISSING" "Forward fill for 2 columns" 4 4 2 2 empty_world)
  /\ keeps_table visits
       {| index := [0; 1; 2; 3]%Z;
          data := [("city", [VStr "x"; VStr "x"; VStr "y"; VStr "y"]);
                   ("n", [VInt 1; VInt 2; VInt 2; VInt 4])] |}.
Proof.
  assert (Hm : "forward_fill" <> "drop") by discriminate.
  assert (E : handle_missing_values (fun _ => "") (fun _ => "") short_index_repr
                unbound_local_311 (fun _ => false) (fun _ => VNull NaN)
                (fun _ => VNull NaN) (fun _ => [])
                visits "forward_fill" None None empty_world
              = (Return ({| index := [0; 1; 2; 3]%Z;
                            data := [("city", [VStr "x"; VStr "x"; VStr "y"; VStr "y"]);
                                     ("n", [VInt 1; VInt 2; VInt 2; VInt 4])] |},
                         "Handled 3 missing values using forward_fill"),
                 recorded "HANDLE_MISSING" "Forward fill for 2 columns" 4 4 2 2 empty_world))
    by reflexivity.
  split; [exact Hm|]. split; [exact E|].
  exact (proj1 (filling_keeps_every_value
                  (fun _ => "") (fun _ => "") short_index_repr unbound_local_311
                  (fun _ => false) (fun _ => VNull NaN) (fun _ => VNull NaN) (fun _ => [])
                  _ _ _ _ _ _ _ _ Hm E ltac:(discriminate))).
Defined.


(** X7 at work: [sort_data(visits, ['n'])]; row 2, without a number, comes
    last. *)
Lemma single_key_sort_witness :
  sort_data compare_plain argsort_quicksort visits ["n"] None empty_world
  = (Return ({| index := [0; 1; 3; 2]%Z;
                data := [("city", [VStr "x"; VNull NaN; VNull PyNone; VStr "y"]);
                         ("n", [VInt 1; VInt 2; VInt 4; VNull NaN])] |},
             "Sorted data by 1 columns"),
     recorded "SORT_DATA" "Sorted by: n (asc)" 4 4 2 2 empty_world)
  /\ exists k front missing,
       label_values visits "n" = Ok k
       /\ {| index := [0; 1; 3; 2]%Z;
             data := [("city", [VStr "x"; VNull NaN; VNull PyNone; VStr "y"]);
                      ("n", [VInt 1; VInt 2; VInt 4; VNull NaN])] |}
          = take_rows visits (front ++ missing)%list
       /\ StronglySorted Nat.lt missing.
Proof.
  assert (E : sort_data compare_plain argsort_quicksort visits ["n"] None empty_world
              = (Return ({| index := [0; 1; 3; 2]%Z;
                            data := [("city", [VStr "x"; VNull NaN; VNull PyNone; VStr "y"]);
                                     ("n", [VInt 1; VInt 2; VInt 4; VNull NaN])] |},
                         "Sorted data by 1 columns"),
                 recorded "SORT_DATA" "Sorted by: n (asc)" 4 4 2 2 empty_world))
    by reflexivity.
  split; [exact E|].
  destruct (single_key_sort_puts_missing_keys_last compare_plain argsort_quicksort
              _ _ _ _ _ _ _ E ltac:(discriminate))
    as [k [front [missing [Hk [Hd [_ [_ [Hs _]]]]]]]].
  exists k, front, missing. auto.
Defined.

(** X8 at work: [rename_columns(orders, {'city': 'town'})] and back. *)
Lemma renaming_witness :
  rename_columns orders [("city", "town")] empty_world
  = (Return ({| index := [0; 1; 2; 3]%Z;
                data := [("town", [VStr "b"; VStr "a"; VStr "b"; VStr "a"]);
                         ("qty", [VInt 2; VInt 1; VInt 2; VInt 1])] |},
             "Renamed 1 columns"),
     recorded "RENAME_COLUMNS" "Renamed 1 columns" 4 4 2 2 empty_world)
  /\ NoDup (map fst [("city", "town")])
  /\ NoDup (map snd [("city", "town")])
  /\ rename_columns
       {| index := [0; 1; 2; 3]%Z;
          data := [("town", [VStr "b"; VStr "a"; VStr "b"; VStr "a"]);
                   ("qty", [VInt 2; VInt 1; VInt 2; VInt 1])] |}
       (turned_round [("city", "town")])
       (recorded "RENAME_COLUMNS" "Renamed 1 columns" 4 4 2 2 empty_world)
     = (Return (orders, "Renamed " ++ PyStr.of_nat (List.length [("city", "town")])
                        ++ " columns"),
        recorded "RENAME_COLUMNS"
          ("Renamed " ++ PyStr.of_nat (List.length [("city", "town")]) ++ " columns")
          (len orders) (len orders) (len_columns orders) (len_columns orders)
          (recorded "RENAME_COLUMNS" "Renamed 1 columns" 4 4 2 2 empty_world)).
Proof.
  assert (E : rename_columns orders [("city", "town")] empty_world
              = (Return ({| index := [0; 1; 2; 3]%Z;
                            data := [("town", [VStr "b"; VStr "a"; VStr "b"; VStr "a"]);
                                     ("qty", [VInt 2; VInt 1; VInt 2; VInt 1])] |},
                         "Renamed 1 columns"),
                 recorded "RENAME_COLUMNS" "Renamed 1 columns" 4 4 2 2 empty_world))
    by reflexivity.
  assert (H1 : NoDup (map fst [("city", "town")]))
    by (repeat constructor; simpl; intros []).
  assert (H2 : NoDup (map snd [("city", "town")]))
    by (repeat constructor; simpl; intros []).
  split; [exact E|]. split; [exact H1|]. split; [exact H2|].
  apply (proj2 (proj2 (proj2 (proj2
           (renaming_is_undone_by_the_mapping_turned_round
              _ _ _ _ _ _ E ltac:(discriminate))))) H1 H2).
  intros c Hc Hk [Ht | []]. subst c.
  destruct Hc as [Hc | [Hc | []]]; discriminate Hc.
Defined.

(** X9 at work: [drop_columns(orders, ['qty'])], once and again. *)
Lemma dropping_columns_witness :
  drop_columns orders ["qty"] empty_world
  = (Return ({| index := [0; 1; 2; 3]%Z;
                data := [("city", [VStr "b"; VStr "a"; VStr "b"; VStr "a"])] |},
             "Dropped 1 columns"),
     recorded "DROP_COLUMNS" "Dropped columns: qty" 4 4 2 1 empty_world)
  /\ ["qty"] <> []
  /\ drop_columns
       {| index := [0; 1; 2; 3]%Z;
          data := [("city", [VStr "b"; VStr "a"; VStr "b"; VStr "a"])] |}
       ["qty"] (recorded "DROP_COLUMNS" "Dropped columns: qty" 4 4 2 1 empty_world)
     = (Return ({| index := [0; 1; 2; 3]%Z;
                   data := [("city", [VStr "b"; VStr "a"; VStr "b"; VStr "a"])] |},
                "Columns not found: " ++ PyStr.join ", " ["qty"]),
        recorded "DROP_COLUMNS" "Dropped columns: qty" 4 4 2 1 empty_world).
Proof.
  assert (E : drop_columns orders ["qty"] empty_world
              = (Return ({| index := [0; 1; 2; 3]%Z;
                            data := [("city", [VStr "b"; VStr "a"; VStr "b"; VStr "a"])] |},
                         "Dropped 1 columns"),
                 recorded "DROP_COLUMNS" "Dropped columns: qty" 4 4 2 1 empty_world))
    by reflexivity.
  assert (Hne : ["qty"] <> []) by discriminate.
  split; [exact E|]. split; [exact Hne|].
  exact (proj2 (proj2 (proj2 (proj2 (proj2
           (dropped_columns_are_gone _ _ _ _ _ _ E ltac:(discriminate))))))
           Hne).
Defined.

(** X10 at work: [convert_data_types(ages, {'age': 'integer'})]. *)
Lemma unknown_target_type_witness :
  (forall column target_type,
      In (column, target_type) [("age", "integer")] ->
      In column (columns_of ages) /\ known_type target_type = false)
  /\ convert_data_types (fun _ => "") (fun _ => "") (fun _ => None) (fun _ => None)
       ages [("age", "integer")] empty_world
     = (Return (ages, "Successfully converted "
                      ++ PyStr.of_nat (List.length [("age", "integer")]) ++ " columns"),
        recorded "CONVERT_TYPES"
          ("Converted " ++ PyStr.of_nat (List.length [("age", "integer")]) ++ " columns")
          (len ages) (len ages) (len_columns ages) (len_columns ages) empty_world).
Proof.
  assert (H : forall column target_type,
             In (column, target_type) [("age", "integer")] ->
             In column (columns_of ages) /\ known_type target_type = false).
  { intros column target_type [E | []]. inversion E. split; [now left | reflexivity]. }
  split; [exact H|].
  exact (unknown_target_types_count_as_converted
           (fun _ => "") (fun _ => "") (fun _ => None) (fun _ => None)
           ages [("age", "integer")] empty_world H).
Defined.


(** X12 at work: [fix_data_typos(people, 'name', {'bob': 'rob'})]. *)
Lemma data_corrections_witness :
  lookup_all people "name" = [[VStr "nancy"; VNull NaN; VStr "bob"]]
  /\ exists df_result message w',
       fix_data_typos (fun _ => "") people "name" [("bob", "rob")] empty_world
       = (Return (df_result, message), w')
       /\ lookup_all df_result "name"
          = [replace_values [("bob", "rob")] [VStr "nancy"; VNull NaN; VStr "bob"]].
Proof.
  split; [reflexivity|].
  destruct (data_corrections_are_applied_in_one_pass (fun _ => "")
              people "name" [("bob", "rob")] [VStr "nancy"; VNull NaN; VStr "bob"]
              empty_world eq_refl)
    as [d [m [w' [E [_ [Hl _]]]]]].
  exists d, m, w'. split; [exact E | exact Hl].
Defined.


(** X15 at work: [convert_data_types(ages, {'age': 'string'})]. *)
Lemma string_conversion_witness :
  NoDup (map fst [("age", "string")])
  /\ In ("age", "string") [("age", "string")]
  /\ In "age" (columns_of ages)
  /\ exists df_result message w',
       convert_data_types (fun _ => "") (fun _ => "") (fun _ => None) (fun _ => None)
         ages [("age", "string")] empty_world
       = (Return (df_result, message), w')
       /\ lookup_all df_result "age"
          = map (astype_str (fun _ => "") (fun _ => "")) (lookup_all ages "age").
Proof.
  assert (H1 : NoDup (map fst [("age", "string")]))
    by (repeat constructor; simpl; intros []).
  assert (H2 : In ("age", "string") [("age", "string")]) by now left.
  assert (H3 : In "age" (columns_of ages)) by now left.
  split; [exact H1|]. split; [exact H2|]. split; [exact H3|].
  destruct (string_conversion_leaves_nothing_missing
              (fun _ => "") (fun _ => "") (fun _ => None) (fun _ => None)
              ages [("age", "string")] empty_world "age" H1 H2 H3)
    as [d [m [w' [E [Hl _]]]]].
  exists d, m, w'. split; [exact E | exact Hl].
Defined.

(** X16 at work: [text_operations(people, 'name', 'extract', pattern='(n)')]
    under a [str.extract] that gives the texts back. *)
Lemma text_operation_witness :
  text_operations (fun _ => "") (fun _ => "") (fun l _ _ => Ok l) (fun l _ => Ok (map VStr l))
    people "name" "extract" [("pattern", "(n)")] empty_world
  = (Return ({| index := [0; 1; 2]%Z;
                data := [("name", [VStr "nancy"; VNull NaN; VStr "bob"]);
                         ("name_extracted", [VStr "nancy"; VStr "nan"; VStr "bob"])] |},
             "Applied extract operation to 'name'"),
     recorded "TEXT_OPERATION" "Extracted pattern '(n)' from 'name'" 3 3 1 2 empty_world)
  /\ index {| index := [0; 1; 2]%Z;
              data := [("name", [VStr "nancy"; VNull NaN; VStr "bob"]);
                       ("name_extracted", [VStr "nancy"; VStr "nan"; VStr "bob"])] |}
     = index people.
Proof.
  assert (E : text_operations (fun _ => "") (fun _ => "") (fun l _ _ => Ok l)
                (fun l _ => Ok (map VStr l))
                people "name" "extract" [("pattern", "(n)")] empty_world
              = (Return ({| index := [0; 1; 2]%Z;
                            data := [("name", [VStr "nancy"; VNull NaN; VStr "bob"]);
                                     ("name_extracted",
                                      [VStr "nancy"; VStr "nan"; VStr "bob"])] |},
                         "Applied extract operation to 'name'"),
                 recorded "TEXT_OPERATION" "Extracted pattern '(n)' from 'name'" 3 3 1 2
                   empty_world))
    by reflexivity.
  split; [exact E|].
  exact (proj1 (text_operations_touch_one_column
                  (fun _ => "") (fun _ => "") (fun l _ _ => Ok l) (fun l _ => Ok (map VStr l))
                  _ _ _ _ _ _ _ _ E ltac:(discriminate))).
Defined.



(* ------------------------------------------------------------------ *)
(** * The progress tracker of [src/utils/helpers.py] *)
(* ------------------------------------------------------------------ *)

(** The transform page reports to the tracker each time it is shown:
    [update_progress_tracker(st.session_state.progress_tracker, 'Transform')].
    The tracker is a dict; instants are numbers here. *)
Module Helpers.

Record tracker : Type := mkTracker {
  steps : list string;
  current_step : Z;
  completed_steps : list string;
  start_time : Z;
  step_times : list (string * Z)
}.

(** [create_progress_tracker(steps)], at the instant [now] *)
Definition create_progress_tracker (steps : list string) (now : Z) : tracker :=
  {| steps := steps;
     current_step := 0;
     completed_steps := [];
     start_time := now;
     step_times := [] |}.

(** [l.index(x)] for an [x] that is in [l] *)
Fixpoint list_index (x : string) (l : list string) : Z :=
  match l with
  | [] => 0
  | y :: l' => if String.eqb y x then 0 else (1 + list_index x l')%Z
  end.

(** [d[k] = v] on a dict kept in insertion order *)
Fixpoint times_set (d : list (string * Z)) (k : string) (v : Z) : list (string * Z) :=
  match d with
  | [] => [(k, v)]
  | (k', v') :: d' =>
      if String.eqb k' k then (k', v) :: d' else (k', v') :: times_set d' k v
  end.

(** [update_progress_tracker(tracker, step, completed=True)], at the instant
    [now]; the dict is changed in place, so the tracker after the call is
    returned. *)
Definition update_progress_tracker (t : option tracker) (step : string) (completed : bool)
    (now : Z) : option tracker :=
  match t with
  | None => None
  | Some t =>
      if completed && negb (PyStr.mem step (completed_steps t))
      then Some {| steps := steps t;
                   current_step :=
                     if PyStr.mem step (steps t)
                     then (list_index step (steps t) + 1)%Z
                     else current_step t;
                   completed_steps := (completed_steps t ++ [step])%list;
                   start_time := start_time t;
                   step_times := times_set (step_times t) step now |}
      else Some t
  end.

(** What a tracker that was made by [create_progress_tracker] and only
    changed by [update_progress_tracker] looks like. *)
Definition well_formed (t : tracker) : Prop :=
  NoDup (completed_steps t)
  /\ map fst (step_times t) = completed_steps t
  /\ (0 <= current_step t <= Z.of_nat (List.length (steps t)))%Z.

Lemma list_index_bound (x : string) (l : list string) :
  In x l -> (0 <= list_index x l < Z.of_nat (List.length l))%Z.
Proof.
  induction l as [|y l IH]; [contradiction|]. intros H.
  cbn [list_index List.length]. destruct (String.eqb y x) eqn:E; [lia|].
  destruct H as [-> | H]; [rewrite String.eqb_refl in E; discriminate E|].
  specialize (IH H). lia.
Qed.

Lemma list_index_nth (x : string) (l : list string) :
  In x l -> nth_error l (Z.to_nat (list_index x l)) = Some x.
Proof.
  induction l as [|y l IH]; [contradiction|]. intros H.
  cbn [list_index]. destruct (String.eqb y x) eqn:E.
  - apply String.eqb_eq in E. now subst.
  - destruct H as [-> | H]; [rewrite String.eqb_refl in E; discriminate E|].
    pose proof (list_index_bound x l H) as Hb.
    replace (Z.to_nat (1 + list_index x l)) with (S (Z.to_nat (list_index x l))) by lia.
    now apply IH.
Qed.

Lemma times_set_new (d : list (string * Z)) (k : string) (v : Z) :
  ~ In k (map fst d) -> map fst (times_set d k v) = (map fst d ++ [k])%list.
Proof.
  induction d as [|[k' v'] d IH]; intros H; simpl; [reflexivity|].
  destruct (String.eqb k' k) eqn:E.
  - apply String.eqb_eq in E. subst. exfalso. apply H. now left.
  - simpl. f_equal. apply IH. intros Hin. apply H. now right.
Qed.

Lemma mem_true_In (x : string) (l : list string) : PyStr.mem x l = true <-> In x l.
Proof.
  unfold PyStr.mem. rewrite existsb_exists. split.
  - intros [y [Hy E]]. apply String.eqb_eq in E. now subst.
  - intros H. exists x. split; [exact H | apply String.eqb_refl].
Qed.

Lemma mem_false_In (x : string) (l : list string) : PyStr.mem x l = false <-> ~ In x l.
Proof.
  rewrite <- mem_true_In. destruct (PyStr.mem x l); split; congruence.
Qed.

(** X18.  The progress tracker counts a step once.  A tracker fresh from
    [create_progress_tracker] has no step completed twice, a completion time
    for exactly the completed steps, in the order they were completed, and a
    current step between 0 and the number of planned steps; every
    [update_progress_tracker] keeps it so.  Reporting a step again changes
    nothing, not even its completion time, and neither does a report with
    [completed=False] or on no tracker.  The first report of a planned step
    makes the current step the place of that step in the plan (counted from
    1), whichever steps were reported before; a step outside the plan is
    recorded as completed and leaves the current step where it was. *)
Theorem tracker_counts_a_step_once :
  (forall steps now, well_formed (create_progress_tracker steps now))
  /\ (forall t step completed now t',
         well_formed t ->
         update_progress_tracker (Some t) step completed now = Some t' ->
         well_formed t')
  /\ (forall t step now now',
         update_progress_tracker
           (update_progress_tracker (Some t) step true now) step true now'
         = update_progress_tracker (Some t) step true now)
  /\ (forall t step now, update_progress_tracker (Some t) step false now = Some t)
  /\ (forall step completed now, update_progress_tracker None step completed now = None)
  /\ (forall t step now t',
         ~ In step (completed_steps t) ->
         update_progress_tracker (Some t) step true now = Some t' ->
         completed_steps t' = (completed_steps t ++ [step])%list
         /\ steps t' = steps t
         /\ (In step (steps t) ->
             nth_error (steps t) (Z.to_nat (current_step t' - 1)) = Some step
             /\ (1 <= current_step t')%Z)
         /\ (~ In step (steps t) -> current_step t' = current_step t)).
Proof.
  repeat match goal with |- _ /\ _ => split end.
  - intros steps0 now. unfold well_formed, create_progress_tracker. simpl.
    repeat split; [constructor | lia | lia].
  - intros t step completed now t' [Hn [Hk Hc]] H.
    unfold update_progress_tracker in H.
    destruct (completed && negb (PyStr.mem step (completed_steps t))) eqn:E;
      inversion H; subst; [|now repeat split].
    apply andb_prop in E. destruct E as [_ E]. apply negb_true_iff in E.
    apply mem_false_In in E.
    unfold well_formed. simpl. split; [|split].
    + apply NoDup_app; [exact Hn | repeat constructor; auto |].
      intros x Hx [<- | []]. contradiction.
    + rewrite times_set_new by (rewrite Hk; exact E). now rewrite Hk.
    + destruct (PyStr.mem step (steps t)) eqn:Es; [|exact Hc].
      apply mem_true_In in Es. pose proof (list_index_bound _ _ Es). lia.
  - intros t step now now'. unfold update_progress_tracker. simpl.
    destruct (PyStr.mem step (completed_steps t)) eqn:E; simpl; [now rewrite E|].
    assert (Hm : PyStr.mem step (completed_steps t ++ [step]) = true).
    { apply mem_true_In. apply in_or_app. right. now left. }
    now rewrite Hm.
  - reflexivity.
  - reflexivity.
  - intros t step now t' Hn H. unfold update_progress_tracker in H.
    apply mem_false_In in Hn. rewrite Hn in H. simpl in H. inversion H. simpl.
    split; [reflexivity|]. split; [reflexivity|]. split.
    + intros Hs. pose proof (list_index_bound _ _ Hs) as Hb.
      apply mem_true_In in Hs. rewrite Hs. split; [|lia].
      replace (list_index step (steps t) + 1 - 1)%Z with (list_index step (steps t)) by lia.
      apply list_index_nth. now apply mem_true_In.
    + intros Hs. apply mem_false_In in Hs. now rewrite Hs.
Qed.

(** X18 at work: the first report of [Transform] to a fresh tracker of the
    four steps of the pipeline. *)
Lemma tracker_witness :
  ~ In "Transform"
      (completed_steps (create_progress_tracker ["Extract"; "Transform"; "Load"; "Complete"] 0))
  /\ update_progress_tracker
       (Some (create_progress_tracker ["Extract"; "Transform"; "Load"; "Complete"] 0))
       "Transform" true 5
     = Some {| steps := ["Extract"; "Transform"; "Load"; "Complete"];
               current_step := 2;
               completed_steps := ["Transform"];
               start_time := 0;
               step_times := [("Transform", 5%Z)] |}
  /\ (In "Transform"
         (steps (create_progress_tracker ["Extract"; "Transform"; "Load"; "Complete"] 0)) ->
       nth_error (steps (create_progress_tracker ["Extract"; "Transform"; "Load"; "Complete"] 0))
         (Z.to_nat (current_step
                      {| steps := ["Extract"; "Transform"; "Load"; "Complete"];
                         current_step := 2;
                         completed_steps := ["Transform"];
                         start_time := 0;
                         step_times := [("Transform", 5%Z)] |} - 1))
       = Some "Transform"
       /\ (1 <= current_step
                  {| steps := ["Extract"; "Transform"; "Load"; "Complete"];
                     current_step := 2;
                     completed_steps := ["Transform"];
                     start_time := 0;
                     step_times := [("Transform", 5%Z)] |})%Z).
Proof.
  assert (Hn : ~ In "Transform"
                 (completed_steps
                    (create_progress_tracker ["Extract"; "Transform"; "Load"; "Complete"] 0)))
    by (intros []).
  split; [exact Hn|]. split; [reflexivity|].
  exact (proj1 (proj2 (proj2
           (proj2 (proj2 (proj2 (proj2 (proj2 tracker_counts_a_step_once))))
              _ "Transform" 5%Z _ Hn eq_refl)))).
Defined.

End Helpers.

(* ------------------------------------------------------------------ *)
(** * The logger of [src/utils/logger.py] *)
(* ------------------------------------------------------------------ *)

(** [FlowForgeLogger] wraps a [logging.Logger] with two handlers.  A handler
    is modelled by the records it has written; the format string, which only
    decorates a record with the time, the logger's name and the level's name,
    is left out. *)
Module Logger.

Inductive levelno : Type := DEBUG | INFO | WARNING | ERROR.

(** [logging.DEBUG], [logging.INFO], [logging.WARNING], [logging.ERROR] *)
Definition severity (l : levelno) : Z :=
  match l with
  | DEBUG => 10
  | INFO => 20
  | WARNING => 30
  | ERROR => 40
  end.

Inductive sink : Type := LogFile | Stdout.

Definition same_sink (a b : sink) : bool :=
  match a, b with
  | LogFile, LogFile | Stdout, Stdout => true
  | _, _ => false
  end.

Record Handler : Type := mkHandler {
  target : sink;
  handler_level : Z;
  emitted : list (levelno * string)
}.

Record FlowForgeLogger : Type := mkLogger {
  level : Z;
  handlers : list Handler
}.

(** [logging.getLogger(name)] for a name not used before: level [NOTSET],
    no handler *)
Definition getLogger : FlowForgeLogger := {| level := 0; handlers := [] |}.

(** [setup_logger()] *)
Definition setup_logger (lg : FlowForgeLogger) : FlowForgeLogger :=
  match handlers lg with
  | _ :: _ => lg
  | [] =>
      let file_handler := mkHandler LogFile (severity INFO) [] in
      let console_handler := mkHandler Stdout (severity WARNING) [] in
      {| level := severity INFO; handlers := [file_handler; console_handler] |}
  end.

(** [Logger.getEffectiveLevel]: a logger left at [NOTSET] takes the root
    logger's level, [WARNING]. *)
Definition getEffectiveLevel (lg : FlowForgeLogger) : Z :=
  if (level lg =? 0)%Z then severity WARNING else level lg.

(** [Logger.callHandlers] on one handler: [if record.levelno >= hdlr.level] *)
Definition handle (l : levelno) (msg : string) (h : Handler) : Handler :=
  if (handler_level h <=? severity l)%Z then
    {| target := target h; handler_level := handler_level h;
       emitted := emitted h ++ [(l, msg)] |}
  else h.

(** [self.logger.info(msg)] and its siblings *)
Definition log (lg : FlowForgeLogger) (l : levelno) (msg : string) : FlowForgeLogger :=
  if (getEffectiveLevel lg <=? severity l)%Z then
    {| level := level lg; handlers := map (handle l msg) (handlers lg) |}
  else lg.

(** [log_etl_step(step, message, level)] *)
Definition log_etl_step (lg : FlowForgeLogger) (step message level : string)
  : FlowForgeLogger :=
  let log_message := "[" ++ PyStr.upper step ++ "] " ++ message in
  if String.eqb (PyStr.lower level) "info" then log lg INFO log_message
  else if String.eqb (PyStr.lower level) "warning" then log lg WARNING log_message
  else if String.eqb (PyStr.lower level) "error" then log lg ERROR log_message
  else if String.eqb (PyStr.lower level) "debug" then log lg DEBUG log_message
  else lg.

(** [log_data_info(operation, rows, cols, file_name)] *)
Definition log_data_info (lg : FlowForgeLogger) (operation : string) (rows cols : Z)
    (file_name : string) : FlowForgeLogger :=
  let message :=
    operation ++ " - Rows: " ++ PyStr.of_Z rows ++ ", Columns: " ++ PyStr.of_Z cols in
  let message :=
    if String.eqb file_name EmptyString then message
    else message ++ ", File: " ++ file_name in
  log_etl_step lg "TRANSFORM" message "info".

(** [log_user_action(action, details)] *)
Definition log_user_action (lg : FlowForgeLogger) (action details : string)
  : FlowForgeLogger :=
  let message := "User Action: " ++ action in
  let message :=
    if String.eqb details EmptyString then message
    else message ++ " - " ++ details in
  log_etl_step lg "USER" message "info".

(** The calls the modules and the pages make: none of them passes a level. *)
Inductive call : Type :=
| etl_step (step message : string)
| data_info (operation : string) (rows cols : Z) (file_name : string)
| user_action (action details : string).

Definition perform (lg : FlowForgeLogger) (c : call) : FlowForgeLogger :=
  match c with
  | etl_step step message => log_etl_step lg step message "info"
  | data_info operation rows cols file_name => log_data_info lg operation rows cols file_name
  | user_action action details => log_user_action lg action details
  end.

(** What a sink has received. *)
Definition written (t : sink) (lg : FlowForgeLogger) : list (levelno * string) :=
  flat_map (fun h => if same_sink (target h) t then emitted h else []) (handlers lg).

(** The logger the module creates, after some records at level [INFO]. *)
Definition at_work (file console : list (levelno * string)) : FlowForgeLogger :=
  {| level := 20;
     handlers := [mkHandler LogFile 20 file; mkHandler Stdout 30 console] |}.

Lemma log_etl_step_info file console step message :
  log_etl_step (at_work file console) step message "info"
  = at_work (file ++ [(INFO, "[" ++ PyStr.upper step ++ "] " ++ message)]) console.
Proof. reflexivity. Qed.

Lemma perform_at_work file console c :
  exists m, perform (at_work file console) c = at_work (file ++ [(INFO, m)]) console.
Proof.
  destruct c; simpl; unfold log_data_info, log_user_action;
    rewrite log_etl_step_info; eauto.
Qed.

Lemma calls_at_work cs :
  forall file console,
  exists more,
    fold_left perform cs (at_work file console) = at_work (file ++ more) console
    /\ map fst more = repeat INFO (List.length cs).
Proof.
  induction cs as [|c cs IH]; intros file console; simpl.
  - exists []. now rewrite app_nil_r.
  - destruct (perform_at_work file console c) as [m ->].
    destruct (IH (file ++ [(INFO, m)])%list console) as [more [E Hm]].
    exists ((INFO, m) :: more). rewrite E, <- app_assoc. simpl. now rewrite Hm.
Qed.

(** X20.  The log keeps every default-level call in the file and none on the
    console.  Starting from the logger the module sets up, after any sequence
    of [log_etl_step], [log_data_info] and [log_user_action] calls that leave
    the level at its default, the file has received one record per call, all
    at level [INFO], and the console nothing: so also for the [ERROR] step the
    modules report their exceptions with.  On such a logger a further
    [log_etl_step] reaches the console exactly when its level, in any letter
    case, is [warning] or [error]; with [debug], or a level that is none of
    the four, it writes nowhere. *)
Theorem default_level_calls_stay_off_the_console :
  forall cs lg,
    lg = fold_left perform cs (setup_logger getLogger) ->
    written Stdout lg = []
    /\ map fst (written LogFile lg) = repeat INFO (List.length cs)
    /\ (forall message,
           written LogFile (log_etl_step lg "ERROR" message "info")
           = (written LogFile lg ++ [(INFO, ("[ERROR] " ++ message)%string)])%list
           /\ written Stdout (log_etl_step lg "ERROR" message "info") = [])
    /\ (forall step message level,
           written Stdout (log_etl_step lg step message level) <> [] <->
           (PyStr.lower level = "warning" \/ PyStr.lower level = "error"))
    /\ (forall step message level,
           PyStr.lower level <> "info" -> PyStr.lower level <> "warning" ->
           PyStr.lower level <> "error" ->
           log_etl_step lg step message level = lg).
Proof.
  intros cs lg ->.
  change (setup_logger getLogger) with (at_work [] []).
  destruct (calls_at_work cs [] []) as [more [-> Hm]]. simpl app.
  split; [reflexivity|].
  split; [unfold written; simpl; now rewrite app_nil_r|].
  split; [intros message; split; [|reflexivity];
          unfold written; simpl; now rewrite !app_nil_r|].
  split.
  - intros step message level. unfold log_etl_step.
    destruct (String.eqb (PyStr.lower level) "info") eqn:E1.
    { apply String.eqb_eq in E1. rewrite E1. split; [intros H; now elim H|].
      intros [H | H]; discriminate H. }
    destruct (String.eqb (PyStr.lower level) "warning") eqn:E2.
    { apply String.eqb_eq in E2. split; [now left | discriminate]. }
    destruct (String.eqb (PyStr.lower level) "error") eqn:E3.
    { apply String.eqb_eq in E3. split; [now right | discriminate]. }
    apply String.eqb_neq in E2, E3.
    destruct (String.eqb (PyStr.lower level) "debug");
      (split; [intros H; now elim H | intros [H | H]; contradiction]).
  - intros step message level H1 H2 H3. unfold log_etl_step.
    apply String.eqb_neq in H1, H2, H3. rewrite H1, H2, H3.
    now destruct (String.eqb (PyStr.lower level) "debug").
Qed.

(** A page that loads a sample and then fails to save it *)
Lemma console_witness :
  written Stdout
    (fold_left perform
       [etl_step "EXTRACT" "Loading sample dataset: sales";
        data_info "SAMPLE_EXTRACT" 1000 8 "sales";
        user_action "Navigate to Transform from Extract" EmptyString;
        etl_step "ERROR" "Error saving CSV file: disk full"]
       (setup_logger getLogger)) = [].
Proof.
  exact (proj1 (default_level_calls_stay_off_the_console _ _ eq_refl)).
Defined.

End Logger.
